(** * Product catalogue service: routers/ProductType.py and routers/products.py

    A shallow embedding of the two routers.  The relational store is a record
    of tables (lists of rows, in insertion order, duplicates possible); a
    request handler is a computation in a state-and-exception monad over the
    store, the image directory (the files in it and the names the operating
    system refuses to remove), the list of effects performed so far and the
    behaviour of the database driver.  Strings are sequences of Latin-1 code
    points. *)

From Stdlib Require Import ZArith List String Ascii Bool Lia DecimalString Permutation.
Import ListNotations.
Open Scope string_scope.
Open Scope Z_scope.

(** ** Python string operations used by the routers *)

Module PyStr.

(** [str.isspace] on one code point below 256. *)
Definition is_space (c : ascii) : bool :=
  let n := Z.of_N (N_of_ascii c) in
  ((9 <=? n) && (n <=? 13)) || ((28 <=? n) && (n <=? 32)) || (n =? 133) || (n =? 160).

Fixpoint lstrip (s : string) : string :=
  match s with
  | EmptyString => EmptyString
  | String c s' => if is_space c then lstrip s' else s
  end.

Fixpoint rstrip (s : string) : string :=
  match s with
  | EmptyString => EmptyString
  | String c s' =>
      match rstrip s' with
      | EmptyString => if is_space c then EmptyString else String c EmptyString
      | r => String c r
      end
  end.

(** [s.strip()] *)
Definition strip (s : string) : string := rstrip (lstrip s).

(** Truth value of a string in a condition: non-empty. *)
Definition truthy (s : string) : bool := negb (s =? "")%string.

(** [s.startswith(p)] *)
Definition startswith (p s : string) : bool := String.prefix p s.

(** [sub in s] *)
Fixpoint contains (sub s : string) : bool :=
  String.prefix sub s ||
  match s with
  | EmptyString => false
  | String _ s' => contains sub s'
  end.

Definition lower_char (c : ascii) : ascii :=
  let n := Z.of_N (N_of_ascii c) in
  if ((65 <=? n) && (n <=? 90)) || ((192 <=? n) && (n <=? 222) && negb (n =? 215))
  then ascii_of_N (Z.to_N (n + 32)) else c.

(** [s.lower()] *)
Fixpoint lower (s : string) : string :=
  match s with
  | EmptyString => EmptyString
  | String c s' => String (lower_char c) (lower s')
  end.

(** [str(n)] / [f"{n}"] for an integer. *)
Definition str_of_int (n : Z) : string := NilZero.string_of_int (Z.to_int n).

Definition slash : ascii := "/"%char.
Definition dot : ascii := "."%char.

Fixpoint split_slash (s : string) : list string :=
  match s with
  | EmptyString => [EmptyString]
  | String c s' =>
      let r := split_slash s' in
      if Ascii.eqb c slash then EmptyString :: r
      else match r with
           | h :: t => String c h :: t
           | [] => [String c EmptyString]
           end
  end.

(** [Path(p).name]: the last path component. *)
Definition path_name (p : string) : string :=
  last (filter (fun x => negb (x =? "")%string && negb (x =? ".")%string) (split_slash p)) "".

Fixpoint from_last_dot (s : string) : option string :=
  match s with
  | EmptyString => None
  | String c s' =>
      match from_last_dot s' with
      | Some t => Some t
      | None => if Ascii.eqb c dot then Some s else None
      end
  end.

(** [Path(p).suffix]: from the last dot of the name, unless that dot is the
    first or the last character of the name. *)
Definition path_suffix (p : string) : string :=
  match path_name p with
  | EmptyString => ""
  | String _ rest =>
      match from_last_dot rest with
      | Some t => if (String.length t =? 1)%nat then "" else t
      | None => ""
      end
  end.

End PyStr.

(** ** Exceptions and responses *)

(** What a handler can raise: FastAPI's [HTTPException], or any other Python
    exception (a driver error, an attribute error on a missing row, an error
    of the operating system, a response body that does not decode), of which
    only the message is kept. *)
Inductive Exn : Type :=
| HTTPException (status_code : Z) (detail : string)
| Exception (msg : string).

(** [str(e)]; an [HTTPException] prints as its status code, a colon and its
    detail. *)
Definition str (e : Exn) : string :=
  match e with
  | HTTPException c d => PyStr.str_of_int c ++ ": " ++ d
  | Exception m => m
  end.

Inductive Res (A : Type) : Type :=
| Ok (a : A)
| Raise (e : Exn).
Arguments Ok {A} a.
Arguments Raise {A} e.

Definition HTTP_400_BAD_REQUEST : Z := 400.
Definition HTTP_404_NOT_FOUND : Z := 404.
Definition HTTP_409_CONFLICT : Z := 409.
Definition HTTP_500_INTERNAL_SERVER_ERROR : Z := 500.

(** The status the framework answers with when a handler ends in [r]: an
    [HTTPException] carries its own, any other exception becomes 500. *)
Definition status_of {A} (ok : Z) (r : Res A) : Z :=
  match r with
  | Ok _ => ok
  | Raise (HTTPException c _) => c
  | Raise (Exception _) => HTTP_500_INTERNAL_SERVER_ERROR
  end.

Definition failed {A} (r : Res A) : bool :=
  match r with Ok _ => false | Raise _ => true end.

(** ** The relational store *)

Module Store.

(** A price is stored and returned, never computed with. *)
Definition Price : Type := Z.

Record ProductTypeRow : Type := mkProductType
  { productTypeID : Z; productTypeName : string; SizeRequired : Z }.

Record ProductRow : Type := mkProduct
  { ProductID : Z; ProductName : string; ProductTypeID : Z;
    ProductCategory : string; ProductDescription : option string;
    ProductPrice : Price; ProductImage : option string }.

Record SizeRow : Type := mkSize
  { SizeID : Z; Size_ProductID : Z; SizeName : string }.

(** The recipe and stock tables are written by other services; their columns
    are those the two details queries read. *)
Record RecipeRow : Type := mkRecipe
  { RecipeID : Z; Recipe_ProductID : Z }.

Record RecipeIngredientRow : Type := mkRecipeIngredient
  { ri_RecipeID : Z; ri_IngredientID : Z }.

Record IngredientRow : Type := mkIngredient
  { IngredientID : Z; Ingredient_Status : string }.

Record RecipeMaterialRow : Type := mkRecipeMaterial
  { rm_RecipeID : Z; rm_MaterialID : Z }.

Record MaterialRow : Type := mkMaterial
  { MaterialID : Z; Material_Status : string }.

Record DB : Type := mkDB
  { ProductType : list ProductTypeRow;
    Products : list ProductRow;
    Size : list SizeRow;
    Recipes : list RecipeRow;
    RecipeIngredients : list RecipeIngredientRow;
    Ingredients : list IngredientRow;
    RecipeMaterials : list RecipeMaterialRow;
    Materials : list MaterialRow }.

Definition set_ProductType (f : list ProductTypeRow -> list ProductTypeRow) (db : DB) : DB :=
  mkDB (f (ProductType db)) (Products db) (Size db) (Recipes db)
       (RecipeIngredients db) (Ingredients db) (RecipeMaterials db) (Materials db).

Definition set_Products (f : list ProductRow -> list ProductRow) (db : DB) : DB :=
  mkDB (ProductType db) (f (Products db)) (Size db) (Recipes db)
       (RecipeIngredients db) (Ingredients db) (RecipeMaterials db) (Materials db).

Definition set_Size (f : list SizeRow -> list SizeRow) (db : DB) : DB :=
  mkDB (ProductType db) (Products db) (f (Size db)) (Recipes db)
       (RecipeIngredients db) (Ingredients db) (RecipeMaterials db) (Materials db).

(** The identity column of a new row: above every identifier in the table. *)
Definition fresh_id (ids : list Z) : Z := 1 + fold_right Z.max 0 ids.

(** Comparison under [COLLATE Latin1_General_CI_AS]: letters compare without
    regard to case, accents count. *)
Definition ci_eqb (a b : string) : bool := (PyStr.lower a =? PyStr.lower b)%string.

(** ORDER BY a text column: rows are inserted one by one before the first row
    whose key is not smaller. *)
Fixpoint insert_by {A} (key : A -> string) (r : A) (l : list A) : list A :=
  match l with
  | [] => [r]
  | h :: t => if String.leb (key r) (key h) then r :: l else h :: insert_by key r t
  end.

Definition order_by {A} (key : A -> string) (l : list A) : list A :=
  fold_right (insert_by key) [] l.

End Store.

(** ** Handler computations *)

Inductive Verb : Type := SELECT | INSERT | UPDATE | DELETE.
Inductive Table : Type := TProductType | TProducts | TSize.
Inductive Method : Type := PUT | HTTP_DELETE.

(** The effects a handler performs, in the order it performs them. *)
Inductive Event : Type :=
| EvConnect
| EvSql (v : Verb) (t : Table)
| EvCommit
| EvRollback
| EvClose
| EvWriteFile (name : string)
| EvRemoveFile (name : string)
| EvPeer (m : Method) (id : Z).

(** How the driver treats one call: it runs it, it raises, or it accepts a
    write without effect (no row affected, no OUTPUT row).  A read or a commit
    that is not made to raise runs. *)
Inductive Driver : Type :=
| Run
| Throw (msg : string)
| Drop.

(** [durable] is the committed store; [txn] is what the open connection sees,
    its own uncommitted writes included.  [files] are the names of the files
    in the image directory.  [locked] are the names in the image directory
    that [os.remove] refuses (a sub-directory, an entry the process may not
    unlink), each with the message of the error it raises; a name can be a
    file and locked.  [driver] is consumed one entry per database call; an
    exhausted list means the driver runs every call. *)
Record State : Type := mkState
  { durable : Store.DB;
    txn : Store.DB;
    files : list string;
    locked : list (string * string);
    trace : list Event;
    driver : list Driver }.

Definition M (A : Type) : Type := State -> Res A * State.

Definition ret {A} (a : A) : M A := fun st => (Ok a, st).

Definition raise {A} (e : Exn) : M A := fun st => (Raise e, st).

Definition bind {A B} (m : M A) (k : A -> M B) : M B :=
  fun st =>
    match m st with
    | (Ok a, st') => k a st'
    | (Raise e, st') => (Raise e, st')
    end.

Notation "x <- m ;; k" := (bind m (fun x => k))
  (at level 61, m at next level, right associativity).
Notation "m ;; k" := (bind m (fun _ => k))
  (at level 61, right associativity).

(** [try: m  except Exception as e: h e] *)
Definition try_except {A} (m : M A) (h : Exn -> M A) : M A :=
  fun st =>
    match m st with
    | (Ok a, st') => (Ok a, st')
    | (Raise e, st') => h e st'
    end.

(** [try: m  except HTTPException: raise  except Exception as e: h e] *)
Definition try_except_reraising_http {A} (m : M A) (h : Exn -> M A) : M A :=
  try_except m (fun e => match e with
                         | HTTPException _ _ => raise e
                         | Exception _ => h e
                         end).

(** [try: m  finally: c], for a [c] that does not raise. *)
Definition try_finally {A} (m : M A) (c : State -> State) : M A :=
  fun st => let (r, st') := m st in (r, c st').

Definition log (e : Event) (st : State) : State :=
  mkState (durable st) (txn st) (files st) (locked st) (trace st ++ [e]) (driver st).

Definition next_driver (st : State) : Driver * State :=
  match driver st with
  | [] => (Run, st)
  | d :: ds => (d, mkState (durable st) (txn st) (files st) (locked st) (trace st) ds)
  end.

(** Modelled from the spec: [database.get_db_connection] is imported by both
    routers and is not among the sources.  The specification describes the
    connection provider as acquiring a transactional database handle per
    request, and each mutating operation as one local transaction (validate,
    write, commit): the view of a new connection starts at the committed
    store, and nothing written through it is committed before [commit]. *)
Definition get_db_connection : M unit :=
  fun st => (Ok tt, log EvConnect (mkState (durable st) (durable st) (files st) (locked st) (trace st) (driver st))).

(** [cursor.execute] of a SELECT, with the rows it fetches. *)
Definition query {A} (t : Table) (q : Store.DB -> A) : M A :=
  fun st =>
    let (d, st1) := next_driver st in
    let st2 := log (EvSql SELECT t) st1 in
    match d with
    | Throw msg => (Raise (Exception msg), st2)
    | _ => (Ok (q (txn st2)), st2)
    end.

(** [cursor.execute] of an INSERT, UPDATE or DELETE: [w] gives the new tables
    and what the cursor reports (row count or OUTPUT row); [none] is what it
    reports when the write had no effect. *)
Definition write {A} (v : Verb) (t : Table) (w : Store.DB -> Store.DB * A) (none : A) : M A :=
  fun st =>
    let (d, st1) := next_driver st in
    let st2 := log (EvSql v t) st1 in
    match d with
    | Throw msg => (Raise (Exception msg), st2)
    | Drop => (Ok none, st2)
    | Run => let (db, a) := w (txn st2) in
             (Ok a, mkState (durable st2) db (files st2) (locked st2) (trace st2) (driver st2))
    end.

(** [conn.commit()] *)
Definition commit : M unit :=
  fun st =>
    let (d, st1) := next_driver st in
    match d with
    | Throw msg => (Raise (Exception msg), st1)
    | _ => (Ok tt, log EvCommit (mkState (txn st1) (txn st1) (files st1) (locked st1) (trace st1) (driver st1)))
    end.

(** [conn.rollback()] *)
Definition rollback : M unit :=
  fun st => (Ok tt, log EvRollback (mkState (durable st) (durable st) (files st) (locked st) (trace st) (driver st))).

(** [cursor.close(); conn.close()]: what was not committed is gone. *)
Definition close (st : State) : State :=
  log EvClose (mkState (durable st) (durable st) (files st) (locked st) (trace st) (driver st)).

(** [open(UPLOAD_DIRECTORY_PHYSICAL / name, "wb").write(...)] *)
Definition write_file (name : string) : M unit :=
  fun st => (Ok tt, log (EvWriteFile name) (mkState (durable st) (txn st) (name :: files st) (locked st) (trace st) (driver st))).

(** The error [os.remove(UPLOAD_DIRECTORY_PHYSICAL / name)] raises, if it
    raises.  The empty name and [..] make the path the image directory itself
    and its parent, which are directories; the message is the one Linux gives,
    without the path.  Any other name is refused when it is locked. *)
Definition remove_error (refused : list (string * string)) (name : string) : option string :=
  if (name =? "")%string || (name =? "..")%string then Some "[Errno 21] Is a directory"
  else option_map snd (find (fun entry => (fst entry =? name)%string) refused).

(** [p.exists()] for [p = UPLOAD_DIRECTORY_PHYSICAL / name]: a file of the
    directory, or something there that cannot be removed. *)
Definition path_exists (name : string) (st : State) : bool :=
  existsb (String.eqb name) (files st) ||
  match remove_error (locked st) name with Some _ => true | None => false end.

(** [os.remove(p)] for [p = UPLOAD_DIRECTORY_PHYSICAL / name] *)
Definition os_remove (name : string) : M unit :=
  fun st =>
    match remove_error (locked st) name with
    | Some msg => (Raise (Exception msg), st)
    | None => (Ok tt, log (EvRemoveFile name)
                          (mkState (durable st) (txn st)
                                   (filter (fun f => negb (f =? name)%string) (files st))
                                   (locked st) (trace st) (driver st)))
    end.

(** [if p.exists(): os.remove(p)] for [p = UPLOAD_DIRECTORY_PHYSICAL / name] *)
Definition remove_if_exists (name : string) : M unit :=
  fun st => if path_exists name st then os_remove name st else (Ok tt, st).

(** What [response.json()] makes of the body of a response: the body is no
    JSON and decoding raises; it is a JSON object, of which the value under
    ["userRole"] is kept when it is a string (an absent key and a value of
    another type compare unequal to every role); or it is JSON of another
    Python type, which has no [get]. *)
Inductive Body : Type :=
| NotJSON (msg : string)
| JSONObject (userRole : option string)
| JSONOther (type_name : string).

(** [user_data = response.json(); user_data.get("userRole")] *)
Definition get_userRole (body : Body) : Res (option string) :=
  match body with
  | NotJSON msg => Raise (Exception msg)
  | JSONObject userRole => Ok userRole
  | JSONOther type_name =>
      Raise (Exception ("'" ++ type_name ++ "' object has no attribute 'get'"))
  end.

(** What the user service answers to [GET /auth/users/me]: a response with its
    status, its body as text and as [response.json()] reads it, or no
    response at all. *)
Inductive AuthReply : Type :=
| AuthReplied (status_code : Z) (text : string) (body : Body)
| AuthRequestError (msg : string).

(** ** routers/ProductType.py *)

Module ProductTypeRouter.

(** [ProductTypeCreateRequest] and [ProductTypeUpdateRequest] have the same
    two fields. *)
Record ProductTypeRequest : Type := mkRequest
  { productTypeName : string; SizeRequired : Z }.

Record Created : Type := mkCreated
  { message : string; productTypeID : option Z;
    created_productTypeName : string; created_SizeRequired : Z }.

(** What the POS service (port 9001) does with the replicated call. *)
Inductive PeerReply : Type :=
| Replied (status_code : Z) (text : string)
| RequestError (msg : string)
| OtherError (msg : string).

(** [response.raise_for_status()] passes on 2xx only. *)
Definition is_success (status_code : Z) : bool :=
  (200 <=? status_code) && (status_code <? 300).

(** SELECT 1 FROM ProductType WHERE productTypeName COLLATE Latin1_General_CI_AS = ? *)
Definition select_name (name : string) (db : Store.DB) : bool :=
  existsb (fun t => Store.ci_eqb (Store.productTypeName t) name) (Store.ProductType db).

(** INSERT INTO ProductType (...) OUTPUT INSERTED.productTypeID VALUES (?, ?) *)
Definition insert_type (name : string) (size_required : Z) (db : Store.DB) : Store.DB * option Z :=
  let id := Store.fresh_id (map Store.productTypeID (Store.ProductType db)) in
  (Store.set_ProductType (fun l => (l ++ [Store.mkProductType id name size_required])%list) db, Some id).

(** SELECT 1 FROM ProductType WHERE productTypeID = ? *)
Definition select_id (id : Z) (db : Store.DB) : bool :=
  existsb (fun t => Store.productTypeID t =? id) (Store.ProductType db).

(** SELECT 1 FROM ProductType WHERE productTypeName COLLATE ... = ? AND productTypeID != ? *)
Definition select_name_other (name : string) (id : Z) (db : Store.DB) : bool :=
  existsb (fun t => Store.ci_eqb (Store.productTypeName t) name && negb (Store.productTypeID t =? id))
          (Store.ProductType db).

Definition rowcount {A} (p : A -> bool) (l : list A) : Z := Z.of_nat (List.length (filter p l)).

(** UPDATE ProductType SET productTypeName = ?, SizeRequired = ? WHERE productTypeID = ? *)
Definition update_type (name : string) (size_required : Z) (id : Z) (db : Store.DB) : Store.DB * Z :=
  (Store.set_ProductType
     (map (fun t => if Store.productTypeID t =? id
                    then Store.mkProductType (Store.productTypeID t) name size_required
                    else t)) db,
   rowcount (fun t => Store.productTypeID t =? id) (Store.ProductType db)).

(** DELETE FROM ProductType WHERE productTypeID = ? *)
Definition delete_type (id : Z) (db : Store.DB) : Store.DB * Z :=
  (Store.set_ProductType (filter (fun t => negb (Store.productTypeID t =? id))) db,
   rowcount (fun t => Store.productTypeID t =? id) (Store.ProductType db)).

(** The body of the [try] of [create_product_type]. *)
Definition create_product_type_try (request : ProductTypeRequest) : M Z :=
  found <- query TProductType (select_name (productTypeName request)) ;;
  if (found : bool) then
    raise (HTTPException 400 "Product type name already exists.")
  else
    id_row <- write INSERT TProductType
                    (insert_type (productTypeName request) (SizeRequired request)) None ;;
    match id_row with
    | Some new_product_type_id =>
        commit ;;
        ret new_product_type_id
    | None =>
        rollback ;;
        raise (HTTPException 500 "Failed to retrieve ID after insert.")
    end.

Definition create_product_type (request : ProductTypeRequest) : M Created :=
  get_db_connection ;;
  new_product_type_id <-
    try_finally
      (try_except (create_product_type_try request)
         (fun e => rollback ;;
                   raise (HTTPException 500 ("Failed to save to DB: " ++ str e))))
      close ;;
  ret (mkCreated "Product type created successfully." (Some new_product_type_id)
                 (productTypeName request) (SizeRequired request)).

(** The body of the [try] of [update_product_type]. *)
Definition update_product_type_try (product_type_id : Z) (request : ProductTypeRequest) : M unit :=
  found <- query TProductType (select_id product_type_id) ;;
  if negb found then
    raise (HTTPException 404 "Product type not found in primary service (8001) for update.")
  else
    clash <- query TProductType (select_name_other (productTypeName request) product_type_id) ;;
    if (clash : bool) then
      raise (HTTPException 400 "Product type name already exists for another type.")
    else
      affected <- write UPDATE TProductType
                        (update_type (productTypeName request) (SizeRequired request) product_type_id) 0 ;;
      if affected =? 0 then
        raise (HTTPException 404 "Product type not found during update execution or no changes were made.")
      else
        commit.

(** The local transaction of [update_product_type], up to the closing of the
    connection. *)
Definition update_product_type_local (product_type_id : Z) (request : ProductTypeRequest) : M unit :=
  get_db_connection ;;
  try_finally
    (try_except_reraising_http (update_product_type_try product_type_id request)
       (fun e => rollback ;;
                 raise (HTTPException 500 ("Failed to update in primary DB: " ++ str e))))
    close.

Definition sync_message_update (product_type_id : Z) (peer : PeerReply) : string :=
  match peer with
  | Replied status_code text =>
      if is_success status_code then
        "Product type update also synced to POS (9001) for ID "
          ++ PyStr.str_of_int product_type_id ++ "."
      else
        "HTTP error syncing update to POS (9001) for ID "
          ++ PyStr.str_of_int product_type_id ++ ": "
          ++ PyStr.str_of_int status_code ++ " - " ++ text
  | RequestError msg =>
      "Request error syncing update to POS (9001) for ID "
        ++ PyStr.str_of_int product_type_id ++ ": " ++ msg
  | OtherError msg =>
      "An unexpected error occurred during update sync to POS (9001) for ID "
        ++ PyStr.str_of_int product_type_id ++ ": " ++ msg
  end.

(** The PUT to the POS service: whatever it answers is turned into a message. *)
Definition sync_update (product_type_id : Z) (peer : PeerReply) : M string :=
  fun st => (Ok (sync_message_update product_type_id peer), log (EvPeer PUT product_type_id) st).

(** [update_product_type]; the result is the ["message"] of the response. *)
Definition update_product_type (product_type_id : Z) (request : ProductTypeRequest)
    (peer : PeerReply) : M string :=
  update_product_type_local product_type_id request ;;
  sync_message <- sync_update product_type_id peer ;;
  ret (PyStr.strip ("Product type updated successfully in primary service (8001). " ++ sync_message)).

(** The body of the [try] of [delete_product_type]. *)
Definition delete_product_type_try (product_type_id : Z) : M unit :=
  found <- query TProductType (select_id product_type_id) ;;
  if negb found then
    raise (HTTPException 404 "Product type not found in primary service (8001) for deletion.")
  else
    affected <- write DELETE TProductType (delete_type product_type_id) 0 ;;
    if affected =? 0 then
      raise (HTTPException 404 "Product type not found during delete execution, though it existed moments ago.")
    else
      commit.

Definition delete_product_type_local (product_type_id : Z) : M unit :=
  get_db_connection ;;
  try_finally
    (try_except_reraising_http (delete_product_type_try product_type_id)
       (fun e => rollback ;;
                 if PyStr.contains "FOREIGN KEY constraint" (str e)
                    || PyStr.contains "constraint failed" (PyStr.lower (str e))
                 then raise (HTTPException 409 "Cannot delete product type: It is currently in use by one or more products.")
                 else raise (HTTPException 500 ("Failed to delete from primary DB: " ++ str e))))
    close.

Definition sync_message_delete (product_type_id : Z) (peer : PeerReply) : string :=
  match peer with
  | Replied status_code text =>
      if is_success status_code then
        "Product type delete also synced to POS (9001) for ID "
          ++ PyStr.str_of_int product_type_id ++ "."
      else
        "HTTP error syncing delete to POS (9001) for ID "
          ++ PyStr.str_of_int product_type_id ++ ": "
          ++ PyStr.str_of_int status_code ++ " - " ++ text
          ++ (if status_code =? 404
              then " (POS reported not found, which might be acceptable)."
              else "")
  | RequestError msg =>
      "Request error syncing delete to POS (9001) for ID "
        ++ PyStr.str_of_int product_type_id ++ ": " ++ msg
  | OtherError msg =>
      "An unexpected error occurred during delete sync to POS (9001) for ID "
        ++ PyStr.str_of_int product_type_id ++ ": " ++ msg
  end.

Definition sync_delete (product_type_id : Z) (peer : PeerReply) : M string :=
  fun st => (Ok (sync_message_delete product_type_id peer), log (EvPeer HTTP_DELETE product_type_id) st).

(** [delete_product_type]; the result is the ["message"] of the response. *)
Definition delete_product_type (product_type_id : Z) (peer : PeerReply) : M string :=
  delete_product_type_local product_type_id ;;
  sync_message <- sync_delete product_type_id peer ;;
  ret (PyStr.strip ("Product type deleted successfully from primary service (8001). " ++ sync_message)).

(** [verify_admin]; the user data it returns is reduced to the role. *)
Definition verify_admin (reply : AuthReply) : Res (option string) :=
  match reply with
  | AuthReplied status_code text body =>
      if is_success status_code then
        match get_userRole body with
        | Raise e => Raise e
        | Ok userRole =>
            match userRole with
            | Some role =>
                if (role =? "manager")%string then Ok userRole
                else Raise (HTTPException 403 "Access denied: manager role required.")
            | None => Raise (HTTPException 403 "Access denied: manager role required.")
            end
        end
      else
        Raise (HTTPException status_code
                 (if status_code =? 401 then "Authentication failed: Invalid or expired token."
                  else if status_code =? 403 then "Authentication failed: Insufficient permissions."
                  else "Authentication service error: " ++ PyStr.str_of_int status_code))
  | AuthRequestError _ =>
      Raise (HTTPException 503 "Authentication service is unavailable.")
  end.

Record ProductTypeOut : Type := mkOut
  { out_productTypeID : Z; out_productTypeName : string; out_SizeRequired : Z }.

(** SELECT productTypeID, productTypeName, SizeRequired FROM ProductType
    ORDER BY productTypeName *)
Definition select_types (db : Store.DB) : list Store.ProductTypeRow :=
  Store.order_by Store.productTypeName (Store.ProductType db).

Definition get_product_types : M (list ProductTypeOut) :=
  get_db_connection ;;
  try_finally
    (rows <- query TProductType select_types ;;
     ret (map (fun row => mkOut (Store.productTypeID row) (Store.productTypeName row)
                                (Store.SizeRequired row))
              rows))
    close.

End ProductTypeRouter.

(** ** routers/products.py *)

Module ProductsRouter.

Definition IMAGE_DB_PATH_PREFIX : string := "/product_images".
Definition IMAGE_URL_STATIC_PREFIX : string := "/static_files".

Module ProductOut.
Record t : Type := mk
  { ProductID : Z; ProductName : string; ProductTypeID : Z; ProductTypeName : string;
    ProductCategory : string; ProductDescription : option string;
    ProductPrice : Store.Price; ProductImage : option string;
    ProductSizes : option (list string); ProductTypeSizeRequired : bool }.
End ProductOut.

Module ProductSizeOut.
Record t : Type := mk { SizeID : Z; ProductID : Z; SizeName : string }.
End ProductSizeOut.

Module ProductDetailWithStatusOut.
Record t : Type := mk
  { ProductTypeName : string; ProductCategory : string; ProductName : string;
    Description : option string; Price : Store.Price;
    Sizes : option (list string); Status : string }.
End ProductDetailWithStatusOut.

Record UploadFile : Type := mkUpload { filename : string; content_type : string }.

(** The form fields of [create_new_product] and [update_product]. *)
Record ProductForm : Type := mkForm
  { ProductName : string; ProductTypeID : Z; ProductCategory : string;
    ProductDescription : option string; ProductPrice : Store.Price;
    ProductSize : option string; ProductImageFile : option UploadFile }.

Record TypeDetails : Type := mkDetails { name : string; size_required : bool }.

(** A row of the two [.../details] queries. *)
Record DetailRow : Type := mkDetailRow
  { row_ProductID : Z; row_ProductName : string; row_ProductDescription : option string;
    row_ProductPrice : Store.Price; row_ProductCategory : string;
    row_ProductTypeName : string; row_Status : string }.

(** *** Statements *)

(** SELECT ProductTypeName, SizeRequired FROM ProductType WHERE ProductTypeID = ?,
    then [fetchone]. *)
Definition select_type_details (product_type_id : Z) (db : Store.DB) : option TypeDetails :=
  match filter (fun t => Store.productTypeID t =? product_type_id) (Store.ProductType db) with
  | type_row :: _ =>
      Some (mkDetails (Store.productTypeName type_row) (negb (Store.SizeRequired type_row =? 0)))
  | [] => None
  end.

(** SELECT 1 FROM Products WHERE ProductName = ? AND ProductCategory = ? *)
Definition select_name_category (product_name category : string) (db : Store.DB) : bool :=
  existsb (fun p => (Store.ProductName p =? product_name)%string
                    && (Store.ProductCategory p =? category)%string)
          (Store.Products db).

(** INSERT INTO Products (...) OUTPUT INSERTED.ProductID VALUES (?, ?, ?, ?, ?, ?) *)
Definition insert_product (form : ProductForm) (image : option string) (db : Store.DB)
  : Store.DB * option Z :=
  let id := Store.fresh_id (map Store.ProductID (Store.Products db)) in
  (Store.set_Products
     (fun l => (l ++ [Store.mkProduct id (ProductName form) (ProductTypeID form)
                        (ProductCategory form) (ProductDescription form)
                        (ProductPrice form) image])%list) db,
   Some id).

(** SELECT ProductImage FROM Products WHERE ProductID = ?, then [fetchone]. *)
Definition select_image (product_id : Z) (db : Store.DB) : option (option string) :=
  match filter (fun p => Store.ProductID p =? product_id) (Store.Products db) with
  | current_product :: _ => Some (Store.ProductImage current_product)
  | [] => None
  end.

(** UPDATE Products SET ProductName = ?, ..., ProductImage = ? WHERE ProductID = ? *)
Definition update_product_row (form : ProductForm) (image : option string) (product_id : Z)
    (db : Store.DB) : Store.DB * unit :=
  (Store.set_Products
     (map (fun p => if Store.ProductID p =? product_id
                    then Store.mkProduct (Store.ProductID p) (ProductName form)
                           (ProductTypeID form) (ProductCategory form)
                           (ProductDescription form) (ProductPrice form) image
                    else p)) db,
   tt).

(** DELETE FROM Size WHERE ProductID = ? *)
Definition delete_sizes (product_id : Z) (db : Store.DB) : Store.DB * unit :=
  (Store.set_Size (filter (fun s => negb (Store.Size_ProductID s =? product_id))) db, tt).

(** INSERT INTO Size (ProductID, SizeName) [OUTPUT INSERTED.SizeID] VALUES (?, ?) *)
Definition insert_size (product_id : Z) (size_name : string) (db : Store.DB)
  : Store.DB * option Z :=
  let id := Store.fresh_id (map Store.SizeID (Store.Size db)) in
  (Store.set_Size (fun l => (l ++ [Store.mkSize id product_id size_name])%list) db, Some id).

(** DELETE FROM Products WHERE ProductID = ? *)
Definition delete_product_row (product_id : Z) (db : Store.DB) : Store.DB * unit :=
  (Store.set_Products (filter (fun p => negb (Store.ProductID p =? product_id))) db, tt).

(** SELECT 1 FROM Size WHERE ProductID = ? AND SizeName = ? *)
Definition select_size (product_id : Z) (size_name : string) (db : Store.DB) : bool :=
  existsb (fun s => (Store.Size_ProductID s =? product_id)
                    && (Store.SizeName s =? size_name)%string)
          (Store.Size db).

(** DELETE FROM Size WHERE SizeID = ? AND ProductID = ?, with its row count. *)
Definition delete_size (size_id product_id : Z) (db : Store.DB) : Store.DB * Z :=
  (Store.set_Size
     (filter (fun s => negb ((Store.SizeID s =? size_id) && (Store.Size_ProductID s =? product_id)))) db,
   ProductTypeRouter.rowcount
     (fun s => (Store.SizeID s =? size_id) && (Store.Size_ProductID s =? product_id))
     (Store.Size db)).

(** SELECT SizeName FROM Size WHERE ProductID = ? *)
Definition select_size_names (product_id : Z) (db : Store.DB) : list string :=
  map Store.SizeName (filter (fun s => Store.Size_ProductID s =? product_id) (Store.Size db)).

(** EXISTS (SELECT 1 FROM Recipes r_ing JOIN RecipeIngredients ri ON ... JOIN
    Ingredients i ON ... WHERE r_ing.ProductID = p.ProductID AND i.Status != 'Available') *)
Definition exists_unavailable_ingredient (product_id : Z) (db : Store.DB) : bool :=
  existsb (fun r_ing =>
    existsb (fun ri =>
      existsb (fun i =>
        (Store.RecipeID r_ing =? Store.ri_RecipeID ri)
        && (Store.ri_IngredientID ri =? Store.IngredientID i)
        && (Store.Recipe_ProductID r_ing =? product_id)
        && negb (Store.Ingredient_Status i =? "Available")%string)
      (Store.Ingredients db))
    (Store.RecipeIngredients db))
  (Store.Recipes db).

(** The same over RecipeMaterials and Materials. *)
Definition exists_unavailable_material (product_id : Z) (db : Store.DB) : bool :=
  existsb (fun r_mat =>
    existsb (fun rm =>
      existsb (fun m =>
        (Store.RecipeID r_mat =? Store.rm_RecipeID rm)
        && (Store.rm_MaterialID rm =? Store.MaterialID m)
        && (Store.Recipe_ProductID r_mat =? product_id)
        && negb (Store.Material_Status m =? "Available")%string)
      (Store.Materials db))
    (Store.RecipeMaterials db))
  (Store.Recipes db).

(** CASE WHEN EXISTS (...) OR EXISTS (...) THEN 'Unavailable' ELSE 'Available' END *)
Definition case_status (product_id : Z) (db : Store.DB) : string :=
  if exists_unavailable_ingredient product_id db || exists_unavailable_material product_id db
  then "Unavailable" else "Available".

(** FROM Products p JOIN ProductType pt ON p.ProductTypeID = pt.ProductTypeID,
    with the selected columns. *)
Definition joined_rows (products : list Store.ProductRow) (db : Store.DB) : list DetailRow :=
  flat_map (fun p =>
    map (fun pt =>
           mkDetailRow (Store.ProductID p) (Store.ProductName p) (Store.ProductDescription p)
                       (Store.ProductPrice p) (Store.ProductCategory p)
                       (Store.productTypeName pt) (case_status (Store.ProductID p) db))
        (filter (fun pt => Store.ProductTypeID p =? Store.productTypeID pt) (Store.ProductType db)))
    products.

Fixpoint insert_by_name (r : DetailRow) (l : list DetailRow) : list DetailRow :=
  match l with
  | [] => [r]
  | h :: t => if String.leb (row_ProductName r) (row_ProductName h)
              then r :: l else h :: insert_by_name r t
  end.

(** ORDER BY p.ProductName *)
Definition order_by_name (l : list DetailRow) : list DetailRow :=
  fold_right insert_by_name [] l.

(** The query of [get_all_full_product_details]. *)
Definition select_all_details (db : Store.DB) : list DetailRow :=
  order_by_name (joined_rows (Store.Products db) db).

(** The query of [get_full_product_details]: ... WHERE p.ProductID = ? *)
Definition select_details (product_id : Z) (db : Store.DB) : list DetailRow :=
  joined_rows (filter (fun p => Store.ProductID p =? product_id) (Store.Products db)) db.

(** [l or None] *)
Definition or_None {A} (l : list A) : option (list A) :=
  match l with [] => None | _ => Some l end.

(** SELECT p.ProductID, ..., pt.ProductTypeName, pt.SizeRequired, ... FROM
    Products p JOIN ProductType pt ON p.ProductTypeID = pt.ProductTypeID
    ORDER BY p.ProductName; a row is a product with the type it joins. *)
Definition select_products (db : Store.DB) : list (Store.ProductRow * Store.ProductTypeRow) :=
  Store.order_by (fun r => Store.ProductName (fst r))
    (flat_map (fun p =>
       map (fun pt => (p, pt))
           (filter (fun pt => Store.ProductTypeID p =? Store.productTypeID pt)
                   (Store.ProductType db)))
     (Store.Products db)).

(** SELECT ProductID, SizeName FROM Size WHERE ProductID IN (?, ..., ?) *)
Definition select_sizes_in (product_ids : list Z) (db : Store.DB) : list Store.SizeRow :=
  filter (fun s => existsb (Z.eqb (Store.Size_ProductID s)) product_ids) (Store.Size db).

(** SELECT 1 FROM Products WHERE ProductID = ? *)
Definition select_product (product_id : Z) (db : Store.DB) : bool :=
  existsb (fun p => Store.ProductID p =? product_id) (Store.Products db).

(** SELECT SizeID, ProductID, SizeName FROM Size WHERE ProductID = ? ORDER BY SizeName *)
Definition select_sizes_ordered (product_id : Z) (db : Store.DB) : list Store.SizeRow :=
  Store.order_by Store.SizeName
    (filter (fun s => Store.Size_ProductID s =? product_id) (Store.Size db)).

(** SELECT COUNT( * ) as count FROM Products *)
Definition select_count (db : Store.DB) : Z := Z.of_nat (List.length (Store.Products db)).

Fixpoint add_to_group (category : string) (groups : list (string * Z)) : list (string * Z) :=
  match groups with
  | [] => [(category, 1)]
  | (c, n) :: rest =>
      if (category =? c)%string then (c, n + 1) :: rest
      else (c, n) :: add_to_group category rest
  end.

(** SELECT ProductCategory, COUNT( * ) as count FROM Products GROUP BY ProductCategory *)
Definition select_category_counts (db : Store.DB) : list (string * Z) :=
  fold_right (fun p groups => add_to_group (Store.ProductCategory p) groups) []
             (Store.Products db).

(** *** Helpers *)

Section Config.

(** [os.getenv("IS_EXTERNAL_URL", "http://localhost:8001")] *)
Variable IS_EXTERNAL_BASE_URL : string.

Definition _construct_full_url_for_is_response (db_image_path : option string) : option string :=
  match db_image_path with
  | Some path =>
      if PyStr.truthy path && PyStr.startswith IMAGE_DB_PATH_PREFIX path
      then Some (IS_EXTERNAL_BASE_URL ++ IMAGE_URL_STATIC_PREFIX ++ path)
      else None
  | None => None
  end.

Definition _get_product_type_details (product_type_id : Z) : M (option TypeDetails) :=
  query TProductType (select_type_details product_type_id).

(** [ProductSize.strip()] when [ProductSize and ProductSize.strip()]. *)
Definition stripped_size (product_size : option string) : option string :=
  match product_size with
  | Some s => if PyStr.truthy s && PyStr.truthy (PyStr.strip s) then Some (PyStr.strip s) else None
  | None => None
  end.

(** *** Handlers (after the token check, which touches neither store nor files) *)

(** [ProductDetailWithStatusOut(...)] from a fetched row and its sizes. *)
Definition detail_out (sizes : option (list string)) (product : DetailRow)
  : ProductDetailWithStatusOut.t :=
  ProductDetailWithStatusOut.mk
    (row_ProductTypeName product) (row_ProductCategory product)
    (row_ProductName product) (row_ProductDescription product)
    (row_ProductPrice product) sizes (row_Status product).

(** [sizes_by_product_id.get(product_id)] for the dictionary built with
    [setdefault(size.ProductID, []).append(size.SizeName)]. *)
Definition sizes_by_product_id (all_sizes_from_db : list Store.SizeRow) (product_id : Z)
  : option (list string) :=
  or_None (map Store.SizeName
             (filter (fun size => Store.Size_ProductID size =? product_id) all_sizes_from_db)).

Definition get_all_full_product_details : M (list ProductDetailWithStatusOut.t) :=
  get_db_connection ;;
  fetched <-
    try_finally
      (try_except
         (all_products_from_db <- query TProducts select_all_details ;;
          all_sizes_from_db <- query TSize Store.Size ;;
          ret (all_products_from_db, all_sizes_from_db))
         (fun e => raise (HTTPException HTTP_500_INTERNAL_SERVER_ERROR
                            "An error occurred while fetching product data.")))
      close ;;
  let (all_products_from_db, all_sizes_from_db) := fetched in
  ret (map (fun product =>
              detail_out (sizes_by_product_id all_sizes_from_db (row_ProductID product)) product)
           all_products_from_db).

Definition get_full_product_details (product_id : Z) : M ProductDetailWithStatusOut.t :=
  get_db_connection ;;
  fetched <-
    try_finally
      (try_except
         (rows <- query TProducts (select_details product_id) ;;
          match rows with
          | [] => raise (HTTPException 404 ("Product with ID " ++ PyStr.str_of_int product_id ++ " not found."))
          | product_row :: _ =>
              product_sizes <- query TSize (select_size_names product_id) ;;
              ret (product_row, product_sizes)
          end)
         (fun e => raise (HTTPException HTTP_500_INTERNAL_SERVER_ERROR
                            "An error occurred while fetching product data.")))
      close ;;
  let (product_row, product_sizes) := fetched in
  ret (detail_out (or_None product_sizes) product_row).

Definition create_new_product (uuid4 : string) (form : ProductForm) : M ProductOut.t :=
  get_db_connection ;;
  try_finally
    (dup <- query TProducts (select_name_category (ProductName form) (ProductCategory form)) ;;
     if (dup : bool) then
       raise (HTTPException HTTP_409_CONFLICT
                ("Product '" ++ ProductName form ++ "' in '" ++ ProductCategory form ++ "' already exists."))
     else
       type_details <- _get_product_type_details (ProductTypeID form) ;;
       match type_details with
       | None =>
           raise (HTTPException HTTP_400_BAD_REQUEST
                    ("ProductTypeID " ++ PyStr.str_of_int (ProductTypeID form) ++ " not found."))
       | Some type_details =>
           is_db_image_path <-
             match ProductImageFile form with
             | None => ret None
             | Some file =>
                 if negb (PyStr.startswith "image/" (content_type file)) then
                   raise (HTTPException 400 "Uploaded file is not a valid image.")
                 else
                   let ext := PyStr.lower (PyStr.path_suffix (filename file)) in
                   if negb (existsb (String.eqb ext) [".png"; ".jpg"; ".jpeg"; ".gif"; ".webp"]) then
                     raise (HTTPException 400 ("Unsupported image extension: " ++ ext))
                   else
                     let unique_filename := uuid4 ++ ext in
                     write_file unique_filename ;;
                     ret (Some (IMAGE_DB_PATH_PREFIX ++ "/" ++ unique_filename))
             end ;;
           id_row <- write INSERT TProducts (insert_product form is_db_image_path) None ;;
           match id_row with
           | None => raise (Exception "'NoneType' object has no attribute 'ProductID'")
           | Some new_product_id =>
               initial_product_size <-
                 match stripped_size (ProductSize form) with
                 | Some size =>
                     write INSERT TSize (insert_size new_product_id size) None ;;
                     ret (Some size)
                 | None => ret None
                 end ;;
               commit ;;
               ret (ProductOut.mk new_product_id (ProductName form) (ProductTypeID form)
                      (name type_details) (ProductCategory form) (ProductDescription form)
                      (ProductPrice form) (_construct_full_url_for_is_response is_db_image_path)
                      (option_map (fun s => [s]) initial_product_size)
                      (size_required type_details))
           end
       end)
    close.

Definition update_product (uuid4 : string) (product_id : Z) (form : ProductForm) : M ProductOut.t :=
  get_db_connection ;;
  try_finally
    (type_details <- _get_product_type_details (ProductTypeID form) ;;
     match type_details with
     | None =>
         raise (HTTPException 400
                  ("ProductTypeID " ++ PyStr.str_of_int (ProductTypeID form) ++ " not found."))
     | Some type_details =>
         current_product <- query TProducts (select_image product_id) ;;
         match current_product with
         | None => raise (HTTPException 404 "Product not found.")
         | Some current_image =>
             is_db_image_path_for_update <-
               match ProductImageFile form with
               | None => ret current_image
               | Some file =>
                   let unique_filename := uuid4 ++ PyStr.lower (PyStr.path_suffix (filename file)) in
                   write_file unique_filename ;;
                   match current_image with
                   | Some old =>
                       if PyStr.truthy old then remove_if_exists (PyStr.path_name old) else ret tt
                   | None => ret tt
                   end ;;
                   ret (Some (IMAGE_DB_PATH_PREFIX ++ "/" ++ unique_filename))
               end ;;
             write UPDATE TProducts
                   (update_product_row form is_db_image_path_for_update product_id) tt ;;
             write DELETE TSize (delete_sizes product_id) tt ;;
             product_sizes_for_response <-
               match stripped_size (ProductSize form) with
               | Some new_size =>
                   write INSERT TSize (insert_size product_id new_size) None ;;
                   ret (Some [new_size])
               | None => ret None
               end ;;
             commit ;;
             ret (ProductOut.mk product_id (ProductName form) (ProductTypeID form)
                    (name type_details) (ProductCategory form) (ProductDescription form)
                    (ProductPrice form)
                    (_construct_full_url_for_is_response is_db_image_path_for_update)
                    product_sizes_for_response (size_required type_details))
         end
     end)
    close.

(** [delete_product]; the result is the ["message"] of the response. *)
Definition delete_product (product_id : Z) : M string :=
  get_db_connection ;;
  try_finally
    (product_row <- query TProducts (select_image product_id) ;;
     match product_row with
     | None => raise (HTTPException 404 "Product not found.")
     | Some image =>
         write DELETE TSize (delete_sizes product_id) tt ;;
         write DELETE TProducts (delete_product_row product_id) tt ;;
         commit ;;
         match image with
         | Some path =>
             if PyStr.truthy path then remove_if_exists (PyStr.path_name path) else ret tt
         | None => ret tt
         end ;;
         ret ("Product " ++ PyStr.str_of_int product_id ++ " and its assets deleted successfully.")
     end)
    close.

(** [add_size_to_existing_product]; [size_name] is [size_data.SizeName]. *)
Definition add_size_to_existing_product (product_id : Z) (size_name : string)
  : M ProductSizeOut.t :=
  get_db_connection ;;
  try_finally
    (type_details <- _get_product_type_details product_id ;;
     if negb (match type_details with Some d => size_required d | None => false end) then
       raise (HTTPException 400 "This product's type does not require sizes.")
     else
       let trimmed_size_name := PyStr.strip size_name in
       if negb (PyStr.truthy trimmed_size_name) then
         raise (HTTPException 400 "SizeName cannot be empty.")
       else
         dup <- query TSize (select_size product_id trimmed_size_name) ;;
         if (dup : bool) then
           raise (HTTPException 409 ("Size '" ++ trimmed_size_name ++ "' already exists for this product."))
         else
           id_row <- write INSERT TSize (insert_size product_id trimmed_size_name) None ;;
           match id_row with
           | None => raise (Exception "'NoneType' object has no attribute 'SizeID'")
           | Some new_size_id =>
               commit ;;
               ret (ProductSizeOut.mk new_size_id product_id trimmed_size_name)
           end)
    close.

(** [delete_specific_size_from_product_is] *)
Definition delete_specific_size_from_product_is (product_id size_id : Z) : M string :=
  get_db_connection ;;
  try_finally
    (affected <- write DELETE TSize (delete_size size_id product_id) 0 ;;
     if affected =? 0 then
       raise (HTTPException 404
                ("Size ID " ++ PyStr.str_of_int size_id ++ " not found for product ID "
                 ++ PyStr.str_of_int product_id ++ "."))
     else
       commit ;;
       ret ("Size ID " ++ PyStr.str_of_int size_id ++ " deleted for product ID "
            ++ PyStr.str_of_int product_id ++ "."))
    close.

(** [validate_token_and_roles] *)
Definition validate_token_and_roles (reply : AuthReply) (allowed_roles : list string) : Res unit :=
  match reply with
  | AuthReplied status_code text body =>
      if ProductTypeRouter.is_success status_code then
        match get_userRole body with
        | Raise e => Raise e
        | Ok userRole =>
            match userRole with
            | Some role =>
                if existsb (String.eqb role) allowed_roles then Ok tt
                else Raise (HTTPException 403 "Access denied.")
            | None => Raise (HTTPException 403 "Access denied.")
            end
        end
      else
        Raise (HTTPException status_code
                 ("IS Auth service error: " ++ PyStr.str_of_int status_code ++ " - " ++ text))
  | AuthRequestError msg =>
      Raise (HTTPException 503 ("IS Auth service unavailable: " ++ msg))
  end.

(** [ProductOut(...)] of the two product listings, for a joined row. *)
Definition listed_product (size_rows : list Store.SizeRow)
    (r : Store.ProductRow * Store.ProductTypeRow) : ProductOut.t :=
  ProductOut.mk (Store.ProductID (fst r)) (Store.ProductName (fst r))
    (Store.ProductTypeID (fst r)) (Store.productTypeName (snd r))
    (Store.ProductCategory (fst r)) (Store.ProductDescription (fst r))
    (if Store.ProductPrice (fst r) =? 0 then 0 else Store.ProductPrice (fst r))
    (_construct_full_url_for_is_response (Store.ProductImage (fst r)))
    (sizes_by_product_id size_rows (Store.ProductID (fst r)))
    (negb (Store.SizeRequired (snd r) =? 0)).

Definition get_public_products : M (list ProductOut.t) :=
  get_db_connection ;;
  try_finally
    (product_rows <- query TProducts select_products ;;
     match product_rows with
     | [] => ret []
     | _ =>
         let product_ids := map (fun r => Store.ProductID (fst r)) product_rows in
         size_rows <-
           match product_ids with
           | [] => ret []
           | _ => query TSize (select_sizes_in product_ids)
           end ;;
         ret (map (listed_product size_rows) product_rows)
     end)
    close.

(** [get_all_products]: the body of [get_public_products], behind the token. *)
Definition get_all_products : M (list ProductOut.t) := get_public_products.

(** [get_sizes_for_specific_product_is] *)
Definition get_sizes_for_specific_product_is (product_id : Z) : M (list ProductSizeOut.t) :=
  get_db_connection ;;
  try_finally
    (found <- query TProducts (select_product product_id) ;;
     if negb found then
       raise (HTTPException 404 ("Product ID " ++ PyStr.str_of_int product_id ++ " not found."))
     else
       rows <- query TSize (select_sizes_ordered product_id) ;;
       ret (map (fun r => ProductSizeOut.mk (Store.SizeID r) (Store.Size_ProductID r)
                                            (Store.SizeName r))
                rows))
    close.

(** [get_product_count]; the result is the ["count"] of the response. *)
Definition get_product_count : M Z :=
  get_db_connection ;;
  try_finally (query TProducts select_count) close.

(** [get_inventory_by_category]: category and count of each row fetched. *)
Definition get_inventory_by_category : M (list (string * Z)) :=
  get_db_connection ;;
  try_finally (query TProducts select_category_counts) close.

End Config.

End ProductsRouter.

(** ** Properties the handlers are checked against *)

(** Product (name, category) uniqueness. *)
Definition unique_name_category (db : Store.DB) : Prop :=
  NoDup (map (fun p => (Store.ProductName p, Store.ProductCategory p)) (Store.Products db)).

(** ProductType names are unique without regard to case: two rows whose names
    collide are rows of the same type. *)
Definition unique_type_names (db : Store.DB) : Prop :=
  forall t1 t2, In t1 (Store.ProductType db) -> In t2 (Store.ProductType db) ->
    Store.ci_eqb (Store.productTypeName t1) (Store.productTypeName t2) = true ->
    Store.productTypeID t1 = Store.productTypeID t2.

(** The availability rule in the words of the specification: an ingredient
    (a material) is required by a product when a recipe of the product lists
    it; the product is unavailable when something it requires has a status
    other than "Available". *)
Definition requires_ingredient (db : Store.DB) (product_id : Z) (i : Store.IngredientRow) : Prop :=
  In i (Store.Ingredients db) /\
  exists r ri, In r (Store.Recipes db) /\ In ri (Store.RecipeIngredients db) /\
    Store.Recipe_ProductID r = product_id /\
    Store.ri_RecipeID ri = Store.RecipeID r /\
    Store.ri_IngredientID ri = Store.IngredientID i.

Definition requires_material (db : Store.DB) (product_id : Z) (m : Store.MaterialRow) : Prop :=
  In m (Store.Materials db) /\
  exists r rm, In r (Store.Recipes db) /\ In rm (Store.RecipeMaterials db) /\
    Store.Recipe_ProductID r = product_id /\
    Store.rm_RecipeID rm = Store.RecipeID r /\
    Store.rm_MaterialID rm = Store.MaterialID m.

Definition spec_unavailable (db : Store.DB) (product_id : Z) : Prop :=
  (exists i, requires_ingredient db product_id i /\ Store.Ingredient_Status i <> "Available") \/
  (exists m, requires_material db product_id m /\ Store.Material_Status m <> "Available").

(** The sync call failed: a non-2xx answer, a network error, or anything else
    going wrong. *)
Definition peer_failed (peer : ProductTypeRouter.PeerReply) : bool :=
  match peer with
  | ProductTypeRouter.Replied status_code _ => negb (ProductTypeRouter.is_success status_code)
  | _ => true
  end.

(** How the message about a failed sync begins, by kind of failure. *)
Definition update_failure_heading (peer : ProductTypeRouter.PeerReply) : string :=
  match peer with
  | ProductTypeRouter.Replied _ _ => "HTTP error syncing update to POS (9001) for ID"
  | ProductTypeRouter.RequestError _ => "Request error syncing update to POS (9001) for ID"
  | ProductTypeRouter.OtherError _ =>
      "An unexpected error occurred during update sync to POS (9001) for ID"
  end.

Definition delete_failure_heading (peer : ProductTypeRouter.PeerReply) : string :=
  match peer with
  | ProductTypeRouter.Replied _ _ => "HTTP error syncing delete to POS (9001) for ID"
  | ProductTypeRouter.RequestError _ => "Request error syncing delete to POS (9001) for ID"
  | ProductTypeRouter.OtherError _ =>
      "An unexpected error occurred during delete sync to POS (9001) for ID"
  end.

(** The file [update_product] and [delete_product] remove for a stored image
    is one [os.remove] does not refuse; they remove the file named by a
    non-empty stored path. *)
Definition removable (st : State) (image : option string) : Prop :=
  forall path, image = Some path -> path <> "" ->
    remove_error (locked st) (PyStr.path_name path) = None.

(** The driver does not raise on any of its next [n] calls. *)
Fixpoint no_throw (n : nat) (l : list Driver) : Prop :=
  match n, l with
  | O, _ => True
  | S _, [] => True
  | S n', Throw _ :: _ => False
  | S n', _ :: l' => no_throw n' l'
  end.

(** The mutating operations of the two routers, with their arguments. *)
Inductive Mutation : Type :=
| CreateProductType (request : ProductTypeRouter.ProductTypeRequest)
| UpdateProductType (product_type_id : Z) (request : ProductTypeRouter.ProductTypeRequest)
                    (peer : ProductTypeRouter.PeerReply)
| DeleteProductType (product_type_id : Z) (peer : ProductTypeRouter.PeerReply)
| CreateProduct (uuid4 : string) (form : ProductsRouter.ProductForm)
| UpdateProduct (uuid4 : string) (product_id : Z) (form : ProductsRouter.ProductForm)
| DeleteProduct (product_id : Z)
| AddSize (product_id : Z) (size_name : string)
| DeleteSize (product_id size_id : Z).

(** Whether a handler ended in an error, and the state it left. *)
Definition outcome {A} (m : M A) (st : State) : bool * State :=
  let (r, st') := m st in (failed r, st').

Definition perform (base_url : string) (op : Mutation) : State -> bool * State :=
  match op with
  | CreateProductType request => outcome (ProductTypeRouter.create_product_type request)
  | UpdateProductType id request peer => outcome (ProductTypeRouter.update_product_type id request peer)
  | DeleteProductType id peer => outcome (ProductTypeRouter.delete_product_type id peer)
  | CreateProduct uuid4 form => outcome (ProductsRouter.create_new_product base_url uuid4 form)
  | UpdateProduct uuid4 id form => outcome (ProductsRouter.update_product base_url uuid4 id form)
  | DeleteProduct id => outcome (ProductsRouter.delete_product id)
  | AddSize id size_name => outcome (ProductsRouter.add_size_to_existing_product id size_name)
  | DeleteSize id size_id => outcome (ProductsRouter.delete_specific_size_from_product_is id size_id)
  end.

(** [m] never changes the committed store. *)
Definition keeps_durable {A} (m : M A) : Prop :=
  forall st, durable (snd (m st)) = durable st.

(** [m] never raises. *)
Definition total {A} (m : M A) : Prop :=
  forall st, failed (fst (m st)) = false.

(** [m] leaves the committed store as it found it whenever it raises. *)
Definition atomic {A} (m : M A) : Prop :=
  forall st, failed (fst (m st)) = true -> durable (snd (m st)) = durable st.

(** Every effect [m] performs satisfies [P]: the trace grows by events of [P]. *)
Definition emits {A} (P : Event -> Prop) (m : M A) : Prop :=
  forall st, exists evs, trace (snd (m st)) = (trace st ++ evs)%list /\ Forall P evs.

Definition not_rollback (e : Event) : Prop := e <> EvRollback.

(** The operations of routers/products.py. *)
Definition on_products (op : Mutation) : bool :=
  match op with
  | CreateProduct _ _ | UpdateProduct _ _ _ | DeleteProduct _
  | AddSize _ _ | DeleteSize _ _ => true
  | _ => false
  end.

(** Stored image paths begin with the logical prefix. *)
Definition images_prefixed (db : Store.DB) : Prop :=
  forall p path, In p (Store.Products db) -> Store.ProductImage p = Some path ->
    PyStr.startswith ProductsRouter.IMAGE_DB_PATH_PREFIX path = true.

(** Every Size row belongs to a product of the catalogue. *)
Definition sizes_reference_products (db : Store.DB) : Prop :=
  forall s, In s (Store.Size db) ->
    exists p, In p (Store.Products db) /\ Store.ProductID p = Store.Size_ProductID s.

(** Events of the open connection: anything but opening and closing it. *)
Definition inside_connection (e : Event) : Prop := e <> EvConnect /\ e <> EvClose.

Definition is_peer_call (e : Event) : Prop := exists m id, e = EvPeer m id.

Definition is_select (e : Event) : Prop := exists t, e = EvSql SELECT t.

(** The effects of [m] are: the connection is opened, events of [Pin] follow,
    the connection is closed, events of [Pafter] follow. *)
Definition bracketed {A} (Pin Pafter : Event -> Prop) (m : M A) : Prop :=
  forall st, exists inside after,
    trace (snd (m st)) = (trace st ++ EvConnect :: inside ++ EvClose :: after)%list /\
    Forall Pin inside /\ Forall Pafter after.

Definition no_event (e : Event) : Prop := False.

(** The read operations of the two routers, with their arguments. *)
Inductive Reading : Type :=
| ListProductTypes
| PublicProducts
| AllProducts
| AllDetails
| Details (product_id : Z)
| Sizes (product_id : Z)
| Count
| InventoryByCategory.

Definition ask (base_url : string) (q : Reading) : State -> bool * State :=
  match q with
  | ListProductTypes => outcome ProductTypeRouter.get_product_types
  | PublicProducts => outcome (ProductsRouter.get_public_products base_url)
  | AllProducts => outcome (ProductsRouter.get_all_products base_url)
  | AllDetails => outcome ProductsRouter.get_all_full_product_details
  | Details id => outcome (ProductsRouter.get_full_product_details id)
  | Sizes id => outcome (ProductsRouter.get_sizes_for_specific_product_is id)
  | Count => outcome ProductsRouter.get_product_count
  | InventoryByCategory => outcome ProductsRouter.get_inventory_by_category
  end.

(** ** A small catalogue to run the handlers on *)

Module Sample.

Definition types : list Store.ProductTypeRow :=
  [ Store.mkProductType 1 "Pastry" 0; Store.mkProductType 2 "Drink" 1 ].

Definition products : list Store.ProductRow :=
  [ Store.mkProduct 1 "Latte" 2 "Coffee" None 120 None;
    Store.mkProduct 2 "Croissant" 1 "Bakery" (Some "Butter") 80 (Some "/product_images/old.png") ].

Definition sizes : list Store.SizeRow :=
  [ Store.mkSize 1 1 "Small"; Store.mkSize 2 1 "Large" ].

Definition db : Store.DB :=
  Store.mkDB types products sizes
    [ Store.mkRecipe 1 1; Store.mkRecipe 2 2 ]
    [ Store.mkRecipeIngredient 1 10; Store.mkRecipeIngredient 2 11 ]
    [ Store.mkIngredient 10 "OutOfStock"; Store.mkIngredient 11 "Available" ]
    [ Store.mkRecipeMaterial 1 20 ]
    [ Store.mkMaterial 20 "Available" ].

(** A request arrives: nothing uncommitted, [old.png] in the image directory. *)
Definition state (driver : list Driver) : State :=
  mkState db db ["old.png"] [] [] driver.

Definition base_url : string := "http://localhost:8001".

Definition new_image : ProductsRouter.UploadFile :=
  ProductsRouter.mkUpload "Croissant.PNG" "image/png".

(** Product 2 keeps its fields and gets a new image. *)
Definition croissant_new_image : ProductsRouter.ProductForm :=
  ProductsRouter.mkForm "Croissant" 1 "Bakery" (Some "Butter") 80 None (Some new_image).

(** Product 2 is renamed to the name and category of product 1. *)
Definition croissant_as_latte : ProductsRouter.ProductForm :=
  ProductsRouter.mkForm "Latte" 1 "Coffee" None 80 None None.

(** Product 1 with a size field surrounded by blanks. *)
Definition latte_medium : ProductsRouter.ProductForm :=
  ProductsRouter.mkForm "Latte" 2 "Coffee" None 120 (Some "  Medium ") None.

(** A second product with the name and category of product 1. *)
Definition latte_again : ProductsRouter.ProductForm :=
  ProductsRouter.mkForm "Latte" 2 "Coffee" None 120 None None.

(** A new product with one size. *)
Definition mocha_large : ProductsRouter.ProductForm :=
  ProductsRouter.mkForm "Mocha" 2 "Coffee" None 130 (Some "Large") None.

(** As [state], with [old.png] a file the process may not unlink. *)
Definition state_locked (driver : list Driver) : State :=
  mkState db db ["old.png"] [("old.png", "[Errno 13] Permission denied")] [] driver.

End Sample.

(** * Theorems *)

(** ** Strings *)

Lemma lstrip_nonspace (c : ascii) (s : string) :
  PyStr.is_space c = false -> PyStr.lstrip (String c s) = String c s.
Proof. intros H. simpl. now rewrite H. Qed.

Lemma rstrip_nonspace (c : ascii) (s : string) :
  PyStr.is_space c = false -> PyStr.rstrip (String c s) = String c (PyStr.rstrip s).
Proof.
  intros H. simpl. rewrite H. now destruct (PyStr.rstrip s).
Qed.

Lemma rstrip_app (a b : string) :
  PyStr.rstrip b <> "" -> PyStr.rstrip (a ++ b) = a ++ PyStr.rstrip b.
Proof.
  intros Hb. induction a as [|c a IH]; simpl; [reflexivity|].
  rewrite IH. destruct (a ++ PyStr.rstrip b) eqn:E; [|reflexivity].
  destruct a; simpl in E; [contradiction | discriminate].
Qed.

Lemma strip_empty : PyStr.strip "" = "".
Proof. reflexivity. Qed.

Lemma truthy_true (s : string) : PyStr.truthy s = true <-> s <> "".
Proof.
  unfold PyStr.truthy. rewrite negb_true_iff. apply String.eqb_neq.
Qed.

Lemma truthy_false (s : string) : PyStr.truthy s = false <-> s = "".
Proof.
  unfold PyStr.truthy. rewrite negb_false_iff. apply String.eqb_eq.
Qed.

(** [stripped_size] is the trimmed field when something is left of it. *)
Lemma stripped_size_some (raw : string) :
  PyStr.strip raw <> "" ->
  ProductsRouter.stripped_size (Some raw) = Some (PyStr.strip raw).
Proof.
  intros H. unfold ProductsRouter.stripped_size.
  assert (Hraw : raw <> "") by (intros ->; apply H; reflexivity).
  apply truthy_true in H. apply truthy_true in Hraw. now rewrite H, Hraw.
Qed.

Lemma stripped_size_blank (raw : string) :
  PyStr.strip raw = "" -> ProductsRouter.stripped_size (Some raw) = None.
Proof.
  intros H. unfold ProductsRouter.stripped_size.
  apply truthy_false in H. rewrite H. now rewrite andb_false_r.
Qed.

(** ** The image URL helper *)

(** C10: the helper answers with the base URL, then [/static_files], then the
    stored path exactly when the stored path is present and begins with
    [/product_images]; for a missing path and for any other path it answers
    with nothing. *)
Theorem construct_full_url_iff_prefixed :
  forall (base_url : string) (db_image_path : option string),
    (forall url,
        ProductsRouter._construct_full_url_for_is_response base_url db_image_path = Some url <->
        exists path, db_image_path = Some path /\
                     PyStr.startswith "/product_images" path = true /\
                     url = base_url ++ "/static_files" ++ path) /\
    (ProductsRouter._construct_full_url_for_is_response base_url db_image_path = None <->
     db_image_path = None \/
     exists path, db_image_path = Some path /\
                  PyStr.startswith "/product_images" path = false).
Proof.
  intros base_url [path|]; unfold ProductsRouter._construct_full_url_for_is_response.
  - change ProductsRouter.IMAGE_DB_PATH_PREFIX with "/product_images".
    change ProductsRouter.IMAGE_URL_STATIC_PREFIX with "/static_files".
    assert (Hempty : PyStr.truthy path = false ->
                     PyStr.startswith "/product_images" path = false).
    { intros H. apply truthy_false in H. now subst. }
    destruct (PyStr.startswith "/product_images" path) eqn:Hp.
    + destruct (PyStr.truthy path) eqn:Ht; [|specialize (Hempty eq_refl); discriminate].
      cbn [andb]. split; [intros url; split|split].
      * intros [= <-]. exists path. auto.
      * intros (p & [= <-] & _ & ->). reflexivity.
      * discriminate.
      * intros [H|(p & [= <-] & H)]; [discriminate | rewrite Hp in H; discriminate].
    + rewrite andb_false_r. split; [intros url; split|split].
      * discriminate.
      * intros (p & [= <-] & H & _). rewrite Hp in H. discriminate.
      * intros _. right. exists path. auto.
      * reflexivity.
  - split; [intros url; split|split].
    + discriminate.
    + intros (p & H & _). discriminate.
    + auto.
    + reflexivity.
Qed.

(** The helper on a stored path of the catalogue, on a path outside the
    logical prefix and on a missing path. *)
Lemma construct_full_url_iff_prefixed_witness :
  ProductsRouter._construct_full_url_for_is_response "http://localhost:8001"
    (Some "/product_images/old.png")
  = Some "http://localhost:8001/static_files/product_images/old.png" /\
  ProductsRouter._construct_full_url_for_is_response "http://localhost:8001"
    (Some "/static_files/old.png")
  = None /\
  ProductsRouter._construct_full_url_for_is_response "http://localhost:8001" None = None.
Proof.
  split; [|split].
  - apply (proj1 (construct_full_url_iff_prefixed "http://localhost:8001"
                    (Some "/product_images/old.png"))).
    exists "/product_images/old.png". repeat split.
  - apply (proj2 (construct_full_url_iff_prefixed "http://localhost:8001"
                    (Some "/static_files/old.png"))).
    right. exists "/static_files/old.png". repeat split.
  - apply (proj2 (construct_full_url_iff_prefixed "http://localhost:8001" None)).
    left. reflexivity.
Defined.

(** ** The committed store under the primitives *)

Create HintDb txn.

Lemma keeps_ret {A} (a : A) : keeps_durable (ret a).
Proof. intros st. reflexivity. Qed.

Lemma keeps_raise {A} (e : Exn) : keeps_durable (@raise A e).
Proof. intros st. reflexivity. Qed.

Lemma keeps_connect : keeps_durable get_db_connection.
Proof. intros st. reflexivity. Qed.

Lemma keeps_rollback : keeps_durable rollback.
Proof. intros st. reflexivity. Qed.

Lemma keeps_query {A} (t : Table) (q : Store.DB -> A) : keeps_durable (query t q).
Proof.
  intros st. unfold query, next_driver.
  destruct (driver st) as [|[| |] ds]; reflexivity.
Qed.

Lemma keeps_write {A} (v : Verb) (t : Table) (w : Store.DB -> Store.DB * A) (none : A) :
  keeps_durable (write v t w none).
Proof.
  intros st. unfold write, next_driver.
  destruct (driver st) as [|[| |] ds]; simpl;
    try reflexivity; now destruct (w (txn st)).
Qed.

Lemma keeps_write_file (name : string) : keeps_durable (write_file name).
Proof. intros st. reflexivity. Qed.

Lemma keeps_remove (name : string) : keeps_durable (remove_if_exists name).
Proof.
  intros st. unfold remove_if_exists, os_remove.
  destruct (path_exists name st); [|reflexivity].
  now destruct (remove_error (locked st) name).
Qed.

Lemma keeps_bind {A B} (m : M A) (k : A -> M B) :
  keeps_durable m -> (forall a, keeps_durable (k a)) -> keeps_durable (bind m k).
Proof.
  intros Hm Hk st. unfold bind. specialize (Hm st).
  destruct (m st) as [[a|e] st1]; simpl in *; [|assumption].
  now rewrite Hk.
Qed.

Lemma total_ret {A} (a : A) : total (ret a).
Proof. intros st. reflexivity. Qed.

Lemma total_bind {A B} (m : M A) (k : A -> M B) :
  total m -> (forall a, total (k a)) -> total (bind m k).
Proof.
  intros Hm Hk st. unfold bind. specialize (Hm st).
  destruct (m st) as [[a|e] st1]; simpl in *; [apply Hk | discriminate].
Qed.

Lemma atomic_keeps {A} (m : M A) : keeps_durable m -> atomic m.
Proof. intros H st _. apply H. Qed.

(** Steps before the commit: none of them reaches the committed store. *)
Lemma atomic_bind {A B} (m : M A) (k : A -> M B) :
  keeps_durable m -> (forall a, atomic (k a)) -> atomic (bind m k).
Proof.
  intros Hm Hk st. unfold bind. specialize (Hm st).
  destruct (m st) as [[a|e] st1]; simpl in *; [|intros _; assumption].
  intros Hf. now rewrite Hk.
Qed.

(** The commit and what follows it, when what follows cannot raise. *)
Lemma atomic_commit {B} (k : M B) : total k -> atomic (commit ;; k).
Proof.
  intros Hk st. unfold bind, commit, next_driver.
  destruct (driver st) as [|[| |] ds]; simpl; try (intros _; reflexivity);
    intros Hf; rewrite Hk in Hf; discriminate.
Qed.

Lemma atomic_commit_last : atomic commit.
Proof.
  intros st. unfold commit, next_driver.
  destruct (driver st) as [|[| |] ds]; simpl; try discriminate; reflexivity.
Qed.

(** A local transaction followed by steps that cannot raise. *)
Lemma atomic_then_total {A B} (m : M A) (k : A -> M B) :
  atomic m -> (forall a, total (k a)) -> atomic (bind m k).
Proof.
  intros Hm Hk st. unfold bind. specialize (Hm st).
  destruct (m st) as [[a|e] st1]; simpl in *; [|assumption].
  intros Hf. rewrite Hk in Hf. discriminate.
Qed.

Lemma atomic_try_except {A} (m : M A) (h : Exn -> M A) :
  atomic m -> (forall e, keeps_durable (h e)) -> atomic (try_except m h).
Proof.
  intros Hm Hh st. unfold try_except. specialize (Hm st).
  destruct (m st) as [[a|e] st1]; simpl in *; [discriminate|].
  intros _. rewrite Hh. now apply Hm.
Qed.

Lemma atomic_try_except_reraising_http {A} (m : M A) (h : Exn -> M A) :
  atomic m -> (forall e, keeps_durable (h e)) -> atomic (try_except_reraising_http m h).
Proof.
  intros Hm Hh. apply atomic_try_except; [assumption|].
  intros [c d|msg]; [apply keeps_raise | apply Hh].
Qed.

Lemma atomic_try_finally_close {A} (m : M A) : atomic m -> atomic (try_finally m close).
Proof.
  intros Hm st. unfold try_finally. specialize (Hm st).
  destruct (m st) as [r st1]. simpl in *. assumption.
Qed.

Lemma atomic_after_connect {A} (m : M A) : atomic m -> atomic (get_db_connection ;; m).
Proof. intros Hm. apply atomic_bind; [apply keeps_connect | intros _; exact Hm]. Qed.

#[export] Hint Resolve keeps_ret keeps_raise keeps_connect keeps_rollback keeps_query
  keeps_write keeps_write_file keeps_remove total_ret atomic_commit_last : txn.

(** Walks down a handler body: a step that cannot reach the committed store,
    then the rest; the commit, then steps that cannot raise. *)
Ltac txn_step :=
  match goal with
  | |- forall _, _ => intro
  | |- keeps_durable (bind _ _) => apply keeps_bind
  | |- keeps_durable (if ?b then _ else _) => destruct b
  | |- keeps_durable (match ?x with _ => _ end) => destruct x
  | |- keeps_durable _ => solve [auto with txn]
  | |- total (bind _ _) => apply total_bind
  | |- total (if ?b then _ else _) => destruct b
  | |- total (match ?x with _ => _ end) => destruct x
  | |- total _ => solve [auto with txn]
  | |- atomic (commit ;; _) => apply atomic_commit
  | |- atomic commit => apply atomic_commit_last
  | |- atomic (try_finally _ close) => apply atomic_try_finally_close
  | |- atomic (try_except_reraising_http _ _) => apply atomic_try_except_reraising_http
  | |- atomic (try_except _ _) => apply atomic_try_except
  | |- atomic (bind _ _) => apply atomic_bind
  | |- atomic (if ?b then _ else _) => destruct b
  | |- atomic (match ?x with _ => _ end) => destruct x
  | |- atomic (let x := _ in _) => cbv zeta
  | |- atomic _ => solve [apply atomic_keeps; auto with txn]
  end.

Ltac txn := repeat txn_step.

Lemma atomic_create_product_type (request : ProductTypeRouter.ProductTypeRequest) :
  atomic (ProductTypeRouter.create_product_type request).
Proof.
  unfold ProductTypeRouter.create_product_type.
  apply atomic_after_connect. apply atomic_then_total; [|txn].
  unfold ProductTypeRouter.create_product_type_try. txn.
Qed.

Lemma atomic_update_product_type_local (id : Z) (request : ProductTypeRouter.ProductTypeRequest) :
  atomic (ProductTypeRouter.update_product_type_local id request).
Proof.
  unfold ProductTypeRouter.update_product_type_local,
    ProductTypeRouter.update_product_type_try. txn.
Qed.

Lemma total_sync_update (id : Z) (peer : ProductTypeRouter.PeerReply) :
  total (ProductTypeRouter.sync_update id peer).
Proof. intros st. reflexivity. Qed.

Lemma total_sync_delete (id : Z) (peer : ProductTypeRouter.PeerReply) :
  total (ProductTypeRouter.sync_delete id peer).
Proof. intros st. reflexivity. Qed.

Lemma atomic_update_product_type (id : Z) (request : ProductTypeRouter.ProductTypeRequest)
    (peer : ProductTypeRouter.PeerReply) :
  atomic (ProductTypeRouter.update_product_type id request peer).
Proof.
  unfold ProductTypeRouter.update_product_type.
  apply atomic_then_total; [apply atomic_update_product_type_local|].
  intros _. apply total_bind; [apply total_sync_update | intros; apply total_ret].
Qed.

Lemma atomic_delete_product_type_local (id : Z) :
  atomic (ProductTypeRouter.delete_product_type_local id).
Proof.
  unfold ProductTypeRouter.delete_product_type_local,
    ProductTypeRouter.delete_product_type_try. txn.
Qed.

Lemma atomic_delete_product_type (id : Z) (peer : ProductTypeRouter.PeerReply) :
  atomic (ProductTypeRouter.delete_product_type id peer).
Proof.
  unfold ProductTypeRouter.delete_product_type.
  apply atomic_then_total; [apply atomic_delete_product_type_local|].
  intros _. apply total_bind; [apply total_sync_delete | intros; apply total_ret].
Qed.

Lemma atomic_create_new_product (base_url uuid4 : string) (form : ProductsRouter.ProductForm) :
  atomic (ProductsRouter.create_new_product base_url uuid4 form).
Proof.
  unfold ProductsRouter.create_new_product, ProductsRouter._get_product_type_details. txn.
Qed.

Lemma atomic_update_product (base_url uuid4 : string) (id : Z) (form : ProductsRouter.ProductForm) :
  atomic (ProductsRouter.update_product base_url uuid4 id form).
Proof.
  unfold ProductsRouter.update_product, ProductsRouter._get_product_type_details. txn.
Qed.

Lemma atomic_add_size (id : Z) (size_name : string) :
  atomic (ProductsRouter.add_size_to_existing_product id size_name).
Proof.
  unfold ProductsRouter.add_size_to_existing_product,
    ProductsRouter._get_product_type_details. txn.
Qed.

Lemma atomic_delete_size (id size_id : Z) :
  atomic (ProductsRouter.delete_specific_size_from_product_is id size_id).
Proof. unfold ProductsRouter.delete_specific_size_from_product_is. txn. Qed.

(** ** The effects of a handler *)

Section Emits.

Variable P : Event -> Prop.

Lemma emits_ret {A} (a : A) : emits P (ret a).
Proof. intros st. exists []. simpl. now rewrite app_nil_r. Qed.

Lemma emits_raise {A} (e : Exn) : emits P (@raise A e).
Proof. intros st. exists []. simpl. now rewrite app_nil_r. Qed.

Lemma emits_connect : P EvConnect -> emits P get_db_connection.
Proof. intros H st. exists [EvConnect]. simpl. auto. Qed.

Lemma emits_query {A} (t : Table) (q : Store.DB -> A) :
  P (EvSql SELECT t) -> emits P (query t q).
Proof.
  intros H st. exists [EvSql SELECT t]. unfold query, next_driver.
  destruct (driver st) as [|[| |] ds]; simpl; auto.
Qed.

Lemma emits_write {A} (v : Verb) (t : Table) (w : Store.DB -> Store.DB * A) (none : A) :
  P (EvSql v t) -> emits P (write v t w none).
Proof.
  intros H st. exists [EvSql v t]. unfold write, next_driver.
  destruct (driver st) as [|[| |] ds]; simpl; auto; destruct (w (txn st)); simpl; auto.
Qed.

Lemma emits_commit : P EvCommit -> emits P commit.
Proof.
  intros H st. unfold commit, next_driver.
  destruct (driver st) as [|[| |] ds]; simpl;
    solve [ exists [EvCommit]; auto | exists []; rewrite app_nil_r; auto ].
Qed.

Lemma emits_rollback : P EvRollback -> emits P rollback.
Proof. intros H st. exists [EvRollback]. simpl. auto. Qed.

Lemma emits_write_file (name : string) : P (EvWriteFile name) -> emits P (write_file name).
Proof. intros H st. exists [EvWriteFile name]. simpl. auto. Qed.

Lemma emits_remove (name : string) : P (EvRemoveFile name) -> emits P (remove_if_exists name).
Proof.
  intros H st. unfold remove_if_exists, os_remove.
  destruct (path_exists name st); [destruct (remove_error (locked st) name)|]; simpl;
    solve [ exists [EvRemoveFile name]; auto | exists []; rewrite app_nil_r; auto ].
Qed.

Lemma emits_bind {A B} (m : M A) (k : A -> M B) :
  emits P m -> (forall a, emits P (k a)) -> emits P (bind m k).
Proof.
  intros Hm Hk st. unfold bind. destruct (Hm st) as (evs & Ht & HP).
  destruct (m st) as [[a|e] st1]; simpl in *; [|eauto].
  destruct (Hk a st1) as (evs' & Ht' & HP').
  exists (evs ++ evs')%list. rewrite Ht', Ht, app_assoc. split; [reflexivity|].
  apply Forall_app. auto.
Qed.

Lemma emits_try_finally_close {A} (m : M A) :
  P EvClose -> emits P m -> emits P (try_finally m close).
Proof.
  intros H Hm st. unfold try_finally. destruct (Hm st) as (evs & Ht & HP).
  destruct (m st) as [r st1]. simpl in *.
  exists (evs ++ [EvClose])%list. rewrite Ht, app_assoc. split; [reflexivity|].
  apply Forall_app. auto.
Qed.

End Emits.

Ltac emits_step :=
  match goal with
  | |- forall _, _ => intro
  | |- emits _ (bind _ _) => apply emits_bind
  | |- emits _ (try_finally _ close) => apply emits_try_finally_close
  | |- emits _ (ret _) => apply emits_ret
  | |- emits _ (raise _) => apply emits_raise
  | |- emits _ get_db_connection => apply emits_connect
  | |- emits _ (query _ _) => apply emits_query
  | |- emits _ (write _ _ _ _) => apply emits_write
  | |- emits _ commit => apply emits_commit
  | |- emits _ rollback => apply emits_rollback
  | |- emits _ (write_file _) => apply emits_write_file
  | |- emits _ (remove_if_exists _) => apply emits_remove
  | |- emits _ (if ?b then _ else _) => destruct b
  | |- emits _ (match ?x with _ => _ end) => destruct x
  | |- emits _ (let x := _ in _) => cbv zeta
  | |- not_rollback _ => discriminate
  end.

(** The handlers of routers/products.py never issue a rollback. *)
Lemma create_new_product_no_rollback (base_url uuid4 : string) (form : ProductsRouter.ProductForm) :
  emits not_rollback (ProductsRouter.create_new_product base_url uuid4 form).
Proof.
  unfold ProductsRouter.create_new_product, ProductsRouter._get_product_type_details.
  repeat emits_step.
Qed.

Lemma update_product_no_rollback (base_url uuid4 : string) (id : Z) (form : ProductsRouter.ProductForm) :
  emits not_rollback (ProductsRouter.update_product base_url uuid4 id form).
Proof.
  unfold ProductsRouter.update_product, ProductsRouter._get_product_type_details.
  repeat emits_step.
Qed.

Lemma delete_product_no_rollback (id : Z) :
  emits not_rollback (ProductsRouter.delete_product id).
Proof. unfold ProductsRouter.delete_product. repeat emits_step. Qed.

Lemma add_size_no_rollback (id : Z) (size_name : string) :
  emits not_rollback (ProductsRouter.add_size_to_existing_product id size_name).
Proof.
  unfold ProductsRouter.add_size_to_existing_product, ProductsRouter._get_product_type_details.
  repeat emits_step.
Qed.

Lemma delete_size_no_rollback (id size_id : Z) :
  emits not_rollback (ProductsRouter.delete_specific_size_from_product_is id size_id).
Proof. unfold ProductsRouter.delete_specific_size_from_product_is. repeat emits_step. Qed.

Lemma emits_outcome {A} (P : Event -> Prop) (m : M A) (st : State) :
  emits P m ->
  exists evs, trace (snd (outcome m st)) = (trace st ++ evs)%list /\ Forall P evs.
Proof.
  intros H. unfold outcome. specialize (H st). now destruct (m st).
Qed.

Lemma atomic_outcome {A} (m : M A) (st : State) :
  atomic m -> fst (outcome m st) = true -> durable (snd (outcome m st)) = durable st.
Proof.
  intros H. unfold outcome. specialize (H st). now destruct (m st).
Qed.

Lemma products_never_roll_back (base_url : string) (op : Mutation) (st : State) :
  on_products op = true ->
  exists evs, trace (snd (perform base_url op st)) = (trace st ++ evs)%list /\
              ~ In EvRollback evs.
Proof.
  intros Hop.
  assert (H : exists evs, trace (snd (perform base_url op st)) = (trace st ++ evs)%list /\
                          Forall not_rollback evs).
  { destruct op; try discriminate; apply emits_outcome.
    - apply create_new_product_no_rollback.
    - apply update_product_no_rollback.
    - apply delete_product_no_rollback.
    - apply add_size_no_rollback.
    - apply delete_size_no_rollback. }
  destruct H as (evs & Ht & HP). exists evs. split; [assumption|].
  intros Hin. rewrite Forall_forall in HP. now apply (HP _ Hin).
Qed.

(** Whatever goes wrong in [create_product_type], the handler rolls back
    before the error leaves it. *)
Lemma create_product_type_rolls_back (request : ProductTypeRouter.ProductTypeRequest) (st : State) :
  fst (outcome (ProductTypeRouter.create_product_type request) st) = true ->
  exists evs, trace (snd (outcome (ProductTypeRouter.create_product_type request) st))
              = (trace st ++ evs)%list /\ In EvRollback evs.
Proof.
  unfold outcome, ProductTypeRouter.create_product_type, bind, try_finally, try_except,
    get_db_connection.
  set (st1 := log EvConnect _).
  assert (E : emits (fun _ => True) (ProductTypeRouter.create_product_type_try request)).
  { unfold ProductTypeRouter.create_product_type_try.
    repeat first [ emits_step | exact I ]. }
  destruct (E st1) as (evs & Ht & _).
  destruct (ProductTypeRouter.create_product_type_try request st1) as [[id|e] st2];
    simpl in *; [discriminate|].
  intros _. exists ([EvConnect] ++ evs ++ [EvRollback; EvClose])%list.
  rewrite Ht. subst st1. simpl. split.
  - rewrite <- !app_assoc. reflexivity.
  - right. apply in_or_app. right. simpl. auto.
Qed.

(** ** Running a handler by cases *)

(** Splits on the innermost [match] of the goal. *)
Ltac break_match :=
  match goal with
  | |- context [match ?x with _ => _ end] =>
      lazymatch x with
      | context [match _ with _ => _ end] => fail
      | _ => destruct x eqn:?
      end
  end.

Ltac run_handler :=
  unfold bind, try_finally, try_except_reraising_http, try_except, query, write, commit,
    rollback, get_db_connection, close, write_file, remove_if_exists, os_remove,
    next_driver, ret, raise, log;
  cbn [durable txn files locked trace driver fst snd].

Ltac by_cases :=
  repeat (break_match; cbn [durable txn files locked trace driver fst snd failed] in *;
          try assumption; try discriminate; try contradiction).

(** ** Failed operations and the committed store *)

(** [delete_product] removes the image file after its commit; when that
    removal is not refused, a failure of the handler is a failure before or at
    the commit. *)
Lemma delete_product_fails_before_commit (product_id : Z) (st : State) :
  (forall image, ProductsRouter.select_image product_id (durable st) = Some image ->
     removable st image) ->
  fst (outcome (ProductsRouter.delete_product product_id) st) = true ->
  durable (snd (outcome (ProductsRouter.delete_product product_id) st)) = durable st.
Proof.
  intros Hrem. unfold outcome, ProductsRouter.delete_product. run_handler.
  by_cases.
  all: try (intros _; reflexivity).
  all: exfalso.
  all: match goal with
       | He : remove_error _ (PyStr.path_name ?p) = Some _ |- _ =>
           rewrite (Hrem (Some p) eq_refl p eq_refl) in He; [discriminate|]
       end.
  all: intros ->; discriminate.
Qed.

(** C5 (as amended): whichever mutating operation fails during its
    transaction, and for whatever error, nothing of it is committed: the
    committed store after the failure is the one before it.  ProductType
    create issues a rollback before its error is surfaced; the handlers of
    products.py issue none (their uncommitted writes go with the connection
    they close).  Every failure is one during the transaction, except that of
    the file removal [delete_product] runs after its commit: the statement is
    for a product whose image file [os.remove] does not refuse. *)
Theorem failed_mutation_commits_nothing :
  forall (base_url : string) (op : Mutation) (st : State),
    (forall product_id image,
        op = DeleteProduct product_id ->
        ProductsRouter.select_image product_id (durable st) = Some image ->
        removable st image) ->
    fst (perform base_url op st) = true ->
    durable (snd (perform base_url op st)) = durable st /\
    (forall request, op = CreateProductType request ->
       exists evs, trace (snd (perform base_url op st)) = (trace st ++ evs)%list /\
                   In EvRollback evs) /\
    (on_products op = true ->
       exists evs, trace (snd (perform base_url op st)) = (trace st ++ evs)%list /\
                   ~ In EvRollback evs).
Proof.
  intros base_url op st Hrem Hf. split; [|split].
  - destruct op.
    6: { apply delete_product_fails_before_commit; [|exact Hf].
         intros image. now apply Hrem. }
    all: apply atomic_outcome; [|exact Hf].
    + apply atomic_create_product_type.
    + apply atomic_update_product_type.
    + apply atomic_delete_product_type.
    + apply atomic_create_new_product.
    + apply atomic_update_product.
    + apply atomic_add_size.
    + apply atomic_delete_size.
  - intros request ->. now apply create_product_type_rolls_back.
  - apply products_never_roll_back.
Qed.

(** Two failures after a write.  The INSERT into Size raises after the INSERT
    into Products has run; the commit of a delete raises after both DELETE
    statements have run.  Neither leaves anything in the committed store. *)
Lemma failed_mutation_commits_nothing_witness :
  fst (perform Sample.base_url (CreateProduct "u1" Sample.mocha_large)
         (Sample.state [Run; Run; Run; Throw "deadlock"])) = true /\
  durable (snd (perform Sample.base_url (CreateProduct "u1" Sample.mocha_large)
                  (Sample.state [Run; Run; Run; Throw "deadlock"])))
  = Sample.db /\
  fst (perform Sample.base_url (DeleteProduct 2)
         (Sample.state [Run; Run; Run; Throw "connection lost"])) = true /\
  durable (snd (perform Sample.base_url (DeleteProduct 2)
                  (Sample.state [Run; Run; Run; Throw "connection lost"])))
  = Sample.db.
Proof.
  split; [reflexivity|]. split; [|split; [reflexivity|]].
  - apply (failed_mutation_commits_nothing Sample.base_url
             (CreateProduct "u1" Sample.mocha_large)
             (Sample.state [Run; Run; Run; Throw "deadlock"])).
    + discriminate.
    + reflexivity.
  - apply (failed_mutation_commits_nothing Sample.base_url (DeleteProduct 2)
             (Sample.state [Run; Run; Run; Throw "connection lost"])).
    + intros product_id image [= <-] [= <-]. intros path [= <-] _. reflexivity.
    + reflexivity.
Defined.

(** C5 as stated fails, twice.  A product create whose INSERT into Size raises
    after the INSERT into Products surfaces the error having called connect,
    the four statements and close: no rollback.  A product delete whose image
    file cannot be removed fails after its commit: the request answers 500 and
    the committed store has lost the product, so the state after the failed
    operation is not the state before it. *)
Lemma failed_product_operations_without_rollback :
  ProductsRouter.create_new_product Sample.base_url "u1" Sample.mocha_large
    (Sample.state [Run; Run; Run; Throw "deadlock"])
  = (Raise (Exception "deadlock"),
     mkState Sample.db Sample.db ["old.png"] []
       [EvConnect; EvSql SELECT TProducts; EvSql SELECT TProductType;
        EvSql INSERT TProducts; EvSql INSERT TSize; EvClose] []) /\
  ~ In EvRollback
      (trace (snd (ProductsRouter.create_new_product Sample.base_url "u1" Sample.mocha_large
                     (Sample.state [Run; Run; Run; Throw "deadlock"])))) /\
  fst (ProductsRouter.delete_product 2 (Sample.state_locked []))
  = Raise (Exception "[Errno 13] Permission denied") /\
  status_of 200 (fst (ProductsRouter.delete_product 2 (Sample.state_locked []))) = 500 /\
  trace (snd (ProductsRouter.delete_product 2 (Sample.state_locked [])))
  = [EvConnect; EvSql SELECT TProducts; EvSql DELETE TSize; EvSql DELETE TProducts;
     EvCommit; EvClose] /\
  map Store.ProductID (Store.Products (durable (Sample.state_locked []))) = [1; 2] /\
  map Store.ProductID
      (Store.Products (durable (snd (ProductsRouter.delete_product 2 (Sample.state_locked [])))))
  = [1] /\
  durable (snd (ProductsRouter.delete_product 2 (Sample.state_locked [])))
  <> durable (Sample.state_locked []).
Proof.
  split; [reflexivity|]. split; [|repeat split].
  - vm_compute. intros H. repeat (destruct H as [H|H]; [discriminate|]). exact H.
  - intros H. apply (f_equal (fun db => List.length (Store.Products db))) in H. discriminate.
Qed.

(** ** Adding a size *)

(** C1: the size gate reads the ProductType whose identifier equals the
    product identifier.  Product 2 is a Pastry (type 1, no sizes); type 2
    requires sizes; adding a size to product 2 succeeds and the row is
    committed. *)
Theorem add_size_reads_type_of_product_id :
  map Store.ProductTypeID (filter (fun p => Store.ProductID p =? 2) (Store.Products Sample.db)) = [1] /\
  ProductsRouter.select_type_details 1 Sample.db = Some (ProductsRouter.mkDetails "Pastry" false) /\
  fst (ProductsRouter.add_size_to_existing_product 2 "L" (Sample.state []))
  = Ok (ProductsRouter.ProductSizeOut.mk 3 2 "L") /\
  Store.Size (durable (snd (ProductsRouter.add_size_to_existing_product 2 "L" (Sample.state []))))
  = (Sample.sizes ++ [Store.mkSize 3 2 "L"])%list.
Proof. repeat split. Qed.

(** The other way round: product 1 is a Drink (type 2, sizes required), and
    the handler turns its size down because type 1 requires none. *)
Lemma add_size_refused_for_sized_type :
  ProductsRouter.select_type_details 2 Sample.db = Some (ProductsRouter.mkDetails "Drink" true) /\
  fst (ProductsRouter.add_size_to_existing_product 1 "Medium" (Sample.state []))
  = Raise (HTTPException 400 "This product's type does not require sizes.").
Proof. repeat split. Qed.

(** ** Replacing the image of a product *)

(** C2: [update_product] removes the old image file before it runs the
    UPDATE.  When the UPDATE then fails, the committed row still names
    [old.png], which is no longer in the image directory. *)
Theorem update_removes_old_image_before_row_update :
  trace (snd (ProductsRouter.update_product Sample.base_url "u1" 2 Sample.croissant_new_image
                (Sample.state [])))
  = [EvConnect; EvSql SELECT TProductType; EvSql SELECT TProducts;
     EvWriteFile "u1.png"; EvRemoveFile "old.png";
     EvSql UPDATE TProducts; EvSql DELETE TSize; EvCommit; EvClose] /\
  fst (ProductsRouter.update_product Sample.base_url "u1" 2 Sample.croissant_new_image
         (Sample.state [Run; Run; Throw "deadlock"]))
  = Raise (Exception "deadlock") /\
  trace (snd (ProductsRouter.update_product Sample.base_url "u1" 2 Sample.croissant_new_image
                (Sample.state [Run; Run; Throw "deadlock"])))
  = [EvConnect; EvSql SELECT TProductType; EvSql SELECT TProducts;
     EvWriteFile "u1.png"; EvRemoveFile "old.png"; EvSql UPDATE TProducts; EvClose] /\
  ProductsRouter.select_image 2
    (durable (snd (ProductsRouter.update_product Sample.base_url "u1" 2 Sample.croissant_new_image
                     (Sample.state [Run; Run; Throw "deadlock"]))))
  = Some (Some "/product_images/old.png") /\
  files (snd (ProductsRouter.update_product Sample.base_url "u1" 2 Sample.croissant_new_image
                (Sample.state [Run; Run; Throw "deadlock"])))
  = ["u1.png"].
Proof. repeat split. Qed.

(** [delete_product], by contrast, removes the file after the commit. *)
Lemma delete_product_removes_image_after_commit :
  trace (snd (ProductsRouter.delete_product 2 (Sample.state [])))
  = [EvConnect; EvSql SELECT TProducts; EvSql DELETE TSize; EvSql DELETE TProducts;
     EvCommit; EvRemoveFile "old.png"; EvClose].
Proof. reflexivity. Qed.

(** ** Product (name, category) uniqueness *)

Lemma select_name_category_false (product_name category : string) (db : Store.DB) :
  ProductsRouter.select_name_category product_name category db = false ->
  ~ In (product_name, category)
       (map (fun p => (Store.ProductName p, Store.ProductCategory p)) (Store.Products db)).
Proof.
  intros H Hin. apply in_map_iff in Hin. destruct Hin as (p & [= <- <-] & Hp).
  assert (E : ProductsRouter.select_name_category (Store.ProductName p)
                (Store.ProductCategory p) db = true).
  { apply existsb_exists. exists p. now rewrite !String.eqb_refl. }
  congruence.
Qed.

Lemma insert_product_keeps_unique (form : ProductsRouter.ProductForm) (image : option string)
    (db : Store.DB) :
  unique_name_category db ->
  ProductsRouter.select_name_category (ProductsRouter.ProductName form)
    (ProductsRouter.ProductCategory form) db = false ->
  unique_name_category (fst (ProductsRouter.insert_product form image db)).
Proof.
  intros Hu Hn. unfold unique_name_category in *. simpl.
  rewrite map_app. simpl. apply NoDup_rev in Hu. rewrite <- rev_involutive.
  apply NoDup_rev. rewrite rev_app_distr. simpl. constructor; [|assumption].
  rewrite <- in_rev. now apply select_name_category_false.
Qed.

Lemma insert_size_products (product_id : Z) (size_name : string) (db : Store.DB) :
  Store.Products (fst (ProductsRouter.insert_size product_id size_name db)) = Store.Products db.
Proof. reflexivity. Qed.

(** The create half of C3: [create_new_product] keeps (name, category) pairs
    distinct, whatever the driver does. *)
Lemma create_new_product_keeps_unique (base_url uuid4 : string)
    (form : ProductsRouter.ProductForm) (st : State) :
  unique_name_category (durable st) ->
  unique_name_category
    (durable (snd (ProductsRouter.create_new_product base_url uuid4 form st))).
Proof.
  intros Hu.
  unfold ProductsRouter.create_new_product, ProductsRouter._get_product_type_details.
  run_handler. by_cases.
  all: repeat match goal with
         | H : ProductsRouter.insert_product _ _ _ = (?d, _) |- _ =>
             apply (f_equal fst) in H; simpl fst in H; subst d
         | H : ProductsRouter.insert_size _ _ _ = (?d, _) |- _ =>
             apply (f_equal fst) in H; simpl fst in H; subst d
         end.
  all: unfold unique_name_category; rewrite ?insert_size_products;
    now apply insert_product_keeps_unique.
Qed.

(** With a duplicate pair, [create_new_product] answers 409 Conflict. *)
Lemma create_new_product_conflict (base_url uuid4 : string)
    (form : ProductsRouter.ProductForm) (st : State) :
  driver st = [] ->
  ProductsRouter.select_name_category (ProductsRouter.ProductName form)
    (ProductsRouter.ProductCategory form) (durable st) = true ->
  status_of 201 (fst (ProductsRouter.create_new_product base_url uuid4 form st))
  = HTTP_409_CONFLICT.
Proof.
  intros Hd Hn. unfold ProductsRouter.create_new_product. run_handler.
  rewrite Hd. cbn [durable txn files locked trace driver fst snd]. now rewrite Hn.
Qed.

(** C3: [update_product] writes the new name and category without looking
    for another row that has them.  Renaming product 2 to the name and
    category of product 1 succeeds and commits two rows with the same pair. *)
Theorem update_product_commits_duplicate_pair :
  unique_name_category Sample.db /\
  failed (fst (ProductsRouter.update_product Sample.base_url "u1" 2 Sample.croissant_as_latte
                 (Sample.state []))) = false /\
  map (fun p => (Store.ProductName p, Store.ProductCategory p))
      (Store.Products
         (durable (snd (ProductsRouter.update_product Sample.base_url "u1" 2
                          Sample.croissant_as_latte (Sample.state [])))))
  = [("Latte", "Coffee"); ("Latte", "Coffee")] /\
  ~ unique_name_category
      (durable (snd (ProductsRouter.update_product Sample.base_url "u1" 2
                       Sample.croissant_as_latte (Sample.state [])))).
Proof.
  split; [|split; [reflexivity | split; [reflexivity|]]].
  - unfold unique_name_category. simpl.
    repeat constructor; simpl; intuition discriminate.
  - unfold unique_name_category.
    change (~ NoDup [("Latte", "Coffee"); ("Latte", "Coffee")]).
    intros H. inversion H as [|x l Hin _]. apply Hin. now left.
Qed.

(** ** ProductType: name collisions *)

Lemma select_name_true (name : string) (db : Store.DB) (t : Store.ProductTypeRow) :
  In t (Store.ProductType db) ->
  Store.ci_eqb (Store.productTypeName t) name = true ->
  ProductTypeRouter.select_name name db = true.
Proof. intros Hin Hci. apply existsb_exists. eauto. Qed.

Lemma select_id_true (id : Z) (db : Store.DB) (t : Store.ProductTypeRow) :
  In t (Store.ProductType db) -> Store.productTypeID t = id ->
  ProductTypeRouter.select_id id db = true.
Proof. intros Hin Hid. apply existsb_exists. exists t. split; [assumption|]. now apply Z.eqb_eq. Qed.

Lemma select_id_false (id : Z) (db : Store.DB) :
  (forall t, In t (Store.ProductType db) -> Store.productTypeID t <> id) ->
  ProductTypeRouter.select_id id db = false.
Proof.
  intros H. destruct (ProductTypeRouter.select_id id db) eqn:E; [|reflexivity].
  apply existsb_exists in E. destruct E as (t & Hin & Hid).
  apply Z.eqb_eq in Hid. now apply H in Hin.
Qed.

Lemma select_name_other_true (name : string) (id : Z) (db : Store.DB) (t : Store.ProductTypeRow) :
  In t (Store.ProductType db) ->
  Store.ci_eqb (Store.productTypeName t) name = true ->
  Store.productTypeID t <> id ->
  ProductTypeRouter.select_name_other name id db = true.
Proof.
  intros Hin Hci Hid. apply existsb_exists. exists t. split; [assumption|].
  rewrite Hci. simpl. apply negb_true_iff. now apply Z.eqb_neq.
Qed.

Lemma select_name_other_own (id : Z) (db : Store.DB) (t : Store.ProductTypeRow) :
  unique_type_names db ->
  In t (Store.ProductType db) -> Store.productTypeID t = id ->
  ProductTypeRouter.select_name_other (Store.productTypeName t) id db = false.
Proof.
  intros Hu Hin Hid.
  destruct (ProductTypeRouter.select_name_other (Store.productTypeName t) id db) eqn:E;
    [|reflexivity].
  apply existsb_exists in E. destruct E as (t' & Hin' & H).
  apply andb_true_iff in H. destruct H as [Hci Hne].
  apply negb_true_iff, Z.eqb_neq in Hne.
  specialize (Hu t' t Hin' Hin Hci). congruence.
Qed.

Lemma rowcount_found {A} (p : A -> bool) (l : list A) (x : A) :
  In x l -> p x = true -> (ProductTypeRouter.rowcount p l =? 0) = false.
Proof.
  intros Hin Hp. apply Z.eqb_neq. unfold ProductTypeRouter.rowcount.
  assert (Hf : In x (filter p l)) by (apply filter_In; auto).
  destruct (filter p l); [contradiction | simpl; lia].
Qed.

(** C6 (as amended): a create request whose name collides, case aside, with
    an existing ProductType fails and inserts nothing: the collision check is
    the only statement the handler runs, and what it raises is 400 Bad
    Request. *)
Theorem create_type_name_collision_fails :
  forall (request : ProductTypeRouter.ProductTypeRequest) (st : State)
         (t : Store.ProductTypeRow),
    In t (Store.ProductType (durable st)) ->
    Store.ci_eqb (Store.productTypeName t) (ProductTypeRouter.productTypeName request) = true ->
    failed (fst (ProductTypeRouter.create_product_type request st)) = true /\
    durable (snd (ProductTypeRouter.create_product_type request st)) = durable st /\
    trace (snd (ProductTypeRouter.create_product_type request st))
    = (trace st ++ [EvConnect; EvSql SELECT TProductType; EvRollback; EvClose])%list /\
    (no_throw 1 (driver st) ->
     fst (ProductTypeRouter.create_product_type_try request (snd (get_db_connection st)))
     = Raise (HTTPException HTTP_400_BAD_REQUEST "Product type name already exists.")).
Proof.
  intros request st t Hin Hci.
  pose proof (select_name_true _ _ _ Hin Hci) as Hsel.
  unfold ProductTypeRouter.create_product_type, ProductTypeRouter.create_product_type_try.
  run_handler.
  destruct (driver st) as [|[|msg|] ds]; cbn [durable txn files locked trace driver fst snd];
    rewrite ?Hsel; cbn [durable txn files locked trace driver fst snd failed];
    rewrite <- ?app_assoc; simpl; repeat split; auto; contradiction.
Qed.

Lemma create_type_name_collision_fails_witness :
  failed (fst (ProductTypeRouter.create_product_type
                 (ProductTypeRouter.mkRequest "pastry" 1) (Sample.state []))) = true /\
  durable (snd (ProductTypeRouter.create_product_type
                  (ProductTypeRouter.mkRequest "pastry" 1) (Sample.state []))) = Sample.db.
Proof.
  destruct (create_type_name_collision_fails (ProductTypeRouter.mkRequest "pastry" 1)
              (Sample.state []) (Store.mkProductType 1 "Pastry" 0)) as (Hf & Hd & _).
  - simpl. auto.
  - reflexivity.
  - split; [exact Hf | exact Hd].
Defined.

(** C6 as stated fails: with "Pastry" in the table, creating "pastry" is
    answered with 500, not with 409 Conflict. *)
Lemma create_type_collision_answers_500 :
  Store.ci_eqb "Pastry" "pastry" = true /\
  fst (ProductTypeRouter.create_product_type (ProductTypeRouter.mkRequest "pastry" 1)
         (Sample.state []))
  = Raise (HTTPException 500 "Failed to save to DB: 400: Product type name already exists.") /\
  status_of 200 (fst (ProductTypeRouter.create_product_type
                        (ProductTypeRouter.mkRequest "pastry" 1) (Sample.state [])))
  <> HTTP_409_CONFLICT.
Proof. repeat split. discriminate. Qed.

(** C7 (as amended): [update_product_type] answers 404 when no row has the
    identifier; 400 Bad Request when another type has the name, case aside;
    it succeeds and commits when the name is the type's own; and it answers
    404 when the UPDATE affects no row although the row was found. *)
Theorem update_type_validation :
  forall (id : Z) (request : ProductTypeRouter.ProductTypeRequest)
         (peer : ProductTypeRouter.PeerReply) (st : State),
    (no_throw 1 (driver st) ->
     (forall t, In t (Store.ProductType (durable st)) -> Store.productTypeID t <> id) ->
     fst (ProductTypeRouter.update_product_type id request peer st)
     = Raise (HTTPException HTTP_404_NOT_FOUND
                "Product type not found in primary service (8001) for update.")) /\
    (no_throw 2 (driver st) ->
     forall t other,
       In t (Store.ProductType (durable st)) -> Store.productTypeID t = id ->
       In other (Store.ProductType (durable st)) -> Store.productTypeID other <> id ->
       Store.ci_eqb (Store.productTypeName other) (ProductTypeRouter.productTypeName request) = true ->
       fst (ProductTypeRouter.update_product_type id request peer st)
       = Raise (HTTPException HTTP_400_BAD_REQUEST
                  "Product type name already exists for another type.")) /\
    (driver st = [] -> unique_type_names (durable st) ->
     forall t,
       In t (Store.ProductType (durable st)) -> Store.productTypeID t = id ->
       Store.productTypeName t = ProductTypeRouter.productTypeName request ->
       failed (fst (ProductTypeRouter.update_product_type id request peer st)) = false /\
       durable (snd (ProductTypeRouter.update_product_type id request peer st))
       = fst (ProductTypeRouter.update_type (ProductTypeRouter.productTypeName request)
                (ProductTypeRouter.SizeRequired request) id (durable st))) /\
    (forall d1 d2 ds, driver st = d1 :: d2 :: Drop :: ds -> no_throw 2 (driver st) ->
     forall t,
       In t (Store.ProductType (durable st)) -> Store.productTypeID t = id ->
       ProductTypeRouter.select_name_other (ProductTypeRouter.productTypeName request) id
         (durable st) = false ->
       fst (ProductTypeRouter.update_product_type id request peer st)
       = Raise (HTTPException HTTP_404_NOT_FOUND
                  "Product type not found during update execution or no changes were made.")).
Proof.
  intros id request peer st.
  unfold ProductTypeRouter.update_product_type, ProductTypeRouter.sync_update,
    ProductTypeRouter.update_product_type_local, ProductTypeRouter.update_product_type_try.
  split; [|split; [|split]].
  - intros Hd Hid. apply select_id_false in Hid. run_handler.
    destruct (driver st) as [|[|msg|] ds]; cbn [durable txn files locked trace driver fst snd];
      rewrite ?Hid; try reflexivity; contradiction.
  - intros Hd t other Hin Hid Hin' Hid' Hci.
    pose proof (select_id_true _ _ _ Hin Hid) as Hsel.
    pose proof (select_name_other_true _ _ _ _ Hin' Hci Hid') as Hoth.
    run_handler.
    destruct (driver st) as [|[|msg|] [|[|msg'|] ds]];
      cbn [durable txn files locked trace driver fst snd] in *;
      rewrite ?Hsel; cbn [durable txn files locked trace driver fst snd negb];
      rewrite ?Hoth; try reflexivity; contradiction.
  - intros Hd Hu t Hin Hid Hname.
    pose proof (select_id_true _ _ _ Hin Hid) as Hsel.
    pose proof (select_name_other_own _ _ _ Hu Hin Hid) as Hoth. rewrite Hname in Hoth.
    assert (Hrow : (ProductTypeRouter.rowcount (fun t0 => Store.productTypeID t0 =? id)
                      (Store.ProductType (durable st)) =? 0) = false).
    { apply (rowcount_found _ _ t Hin). now apply Z.eqb_eq. }
    run_handler. rewrite Hd. cbn [durable txn files locked trace driver fst snd].
    rewrite Hsel. cbn [durable txn files locked trace driver fst snd negb].
    rewrite Hoth. unfold ProductTypeRouter.update_type at 1 2.
    cbn [durable txn files locked trace driver fst snd]. rewrite Hrow.
    cbn [durable txn files locked trace driver fst snd failed]. split; reflexivity.
  - intros d1 d2 ds Hd Hn t Hin Hid Hoth.
    pose proof (select_id_true _ _ _ Hin Hid) as Hsel.
    run_handler. rewrite Hd in *.
    destruct d1, d2; cbn [durable txn files locked trace driver fst snd no_throw] in *;
      try contradiction;
      rewrite ?Hsel; cbn [durable txn files locked trace driver fst snd negb];
      rewrite ?Hoth; reflexivity.
Qed.

Lemma sample_type_names_unique : unique_type_names Sample.db.
Proof.
  intros t1 t2 H1 H2. simpl in H1, H2.
  destruct H1 as [<-|[<-|[]]], H2 as [<-|[<-|[]]]; simpl; try reflexivity; discriminate.
Qed.

Lemma update_type_validation_witness :
  fst (ProductTypeRouter.update_product_type 7 (ProductTypeRouter.mkRequest "Tea" 0)
         (ProductTypeRouter.RequestError "refused") (Sample.state []))
  = Raise (HTTPException 404 "Product type not found in primary service (8001) for update.") /\
  fst (ProductTypeRouter.update_product_type 2 (ProductTypeRouter.mkRequest "PASTRY" 1)
         (ProductTypeRouter.RequestError "refused") (Sample.state []))
  = Raise (HTTPException 400 "Product type name already exists for another type.") /\
  failed (fst (ProductTypeRouter.update_product_type 2 (ProductTypeRouter.mkRequest "Drink" 0)
                 (ProductTypeRouter.RequestError "refused") (Sample.state []))) = false /\
  fst (ProductTypeRouter.update_product_type 2 (ProductTypeRouter.mkRequest "Juice" 1)
         (ProductTypeRouter.RequestError "refused") (Sample.state [Run; Run; Drop]))
  = Raise (HTTPException 404
             "Product type not found during update execution or no changes were made.").
Proof.
  split; [|split; [|split]].
  - apply (update_type_validation 7 (ProductTypeRouter.mkRequest "Tea" 0)
             (ProductTypeRouter.RequestError "refused") (Sample.state [])).
    + exact I.
    + simpl. intros t [<-|[<-|[]]]; discriminate.
  - apply (proj1 (proj2 (update_type_validation 2 (ProductTypeRouter.mkRequest "PASTRY" 1)
             (ProductTypeRouter.RequestError "refused") (Sample.state [])))) with
      (t := Store.mkProductType 2 "Drink" 1) (other := Store.mkProductType 1 "Pastry" 0).
    + exact I.
    + simpl. auto.
    + reflexivity.
    + simpl. auto.
    + discriminate.
    + reflexivity.
  - apply (proj1 (proj2 (proj2 (update_type_validation 2 (ProductTypeRouter.mkRequest "Drink" 0)
             (ProductTypeRouter.RequestError "refused") (Sample.state []))))) with
      (t := Store.mkProductType 2 "Drink" 1).
    + reflexivity.
    + exact sample_type_names_unique.
    + simpl. auto.
    + reflexivity.
    + reflexivity.
  - apply (proj2 (proj2 (proj2 (update_type_validation 2 (ProductTypeRouter.mkRequest "Juice" 1)
             (ProductTypeRouter.RequestError "refused") (Sample.state [Run; Run; Drop])))))
      with (d1 := Run) (d2 := Run) (ds := []) (t := Store.mkProductType 2 "Drink" 1).
    + reflexivity.
    + exact I.
    + simpl. auto.
    + reflexivity.
    + reflexivity.
Defined.

(** C7 as stated fails: renaming type 2 to "PASTRY" while type 1 is "Pastry"
    is answered with 400, not with 409 Conflict. *)
Lemma update_type_collision_answers_400 :
  Store.ci_eqb "Pastry" "PASTRY" = true /\
  fst (ProductTypeRouter.update_product_type 2 (ProductTypeRouter.mkRequest "PASTRY" 1)
         (ProductTypeRouter.Replied 200 "ok") (Sample.state []))
  = Raise (HTTPException 400 "Product type name already exists for another type.") /\
  status_of 200 (fst (ProductTypeRouter.update_product_type 2
                        (ProductTypeRouter.mkRequest "PASTRY" 1)
                        (ProductTypeRouter.Replied 200 "ok") (Sample.state [])))
  <> HTTP_409_CONFLICT.
Proof. repeat split. discriminate. Qed.

(** ** Peer sync *)

Lemma prefix_nil (s : string) : String.prefix "" s = true.
Proof. now destruct s. Qed.

Lemma prefix_cons (c : ascii) (h s : string) :
  String.prefix (String c h) (String c s) = String.prefix h s.
Proof. simpl. destruct (ascii_dec c c); [reflexivity | contradiction]. Qed.

Lemma heading_kept (h t : string) :
  PyStr.rstrip h = h -> String.prefix h (PyStr.rstrip (h ++ t)) = true.
Proof.
  induction h as [|c h IH]; intros Hh; [apply prefix_nil|].
  cbn [PyStr.rstrip append] in Hh |- *.
  destruct (PyStr.rstrip h) as [|c' r] eqn:Er.
  - destruct (PyStr.is_space c); [discriminate|].
    injection Hh as <-. cbn [append].
    destruct (PyStr.rstrip t); rewrite prefix_cons; apply prefix_nil.
  - injection Hh as Hh. specialize (IH Hh).
    destruct (PyStr.rstrip (h ++ t)) as [|c2 r2] eqn:E2.
    + rewrite <- Hh in IH. discriminate.
    + rewrite prefix_cons. exact IH.
Qed.

Lemma prefix_nonempty (c : ascii) (h s : string) :
  String.prefix (String c h) s = true -> s <> "".
Proof. intros H ->. discriminate. Qed.

Lemma strip_app (c : ascii) (a b : string) :
  PyStr.is_space c = false -> PyStr.rstrip b <> "" ->
  PyStr.strip (String c a ++ b) = String c a ++ PyStr.rstrip b.
Proof.
  intros Hc Hb. unfold PyStr.strip.
  change (String c a ++ b) with (String c (a ++ b)).
  rewrite lstrip_nonspace by assumption.
  now apply (rstrip_app (String c a) b).
Qed.

Lemma update_failure_described (id : Z) (peer : ProductTypeRouter.PeerReply) :
  peer_failed peer = true ->
  String.prefix (update_failure_heading peer)
    (PyStr.rstrip (ProductTypeRouter.sync_message_update id peer)) = true.
Proof.
  intros Hp.
  destruct peer as [code text|msg|msg];
    unfold ProductTypeRouter.sync_message_update, update_failure_heading.
  - simpl in Hp. apply negb_true_iff in Hp. rewrite Hp.
    exact (heading_kept "HTTP error syncing update to POS (9001) for ID"
             (" " ++ PyStr.str_of_int id ++ ": " ++ PyStr.str_of_int code ++ " - " ++ text)
             eq_refl).
  - exact (heading_kept "Request error syncing update to POS (9001) for ID"
             (" " ++ PyStr.str_of_int id ++ ": " ++ msg) eq_refl).
  - exact (heading_kept "An unexpected error occurred during update sync to POS (9001) for ID"
             (" " ++ PyStr.str_of_int id ++ ": " ++ msg) eq_refl).
Qed.

Lemma delete_failure_described (id : Z) (peer : ProductTypeRouter.PeerReply) :
  peer_failed peer = true ->
  String.prefix (delete_failure_heading peer)
    (PyStr.rstrip (ProductTypeRouter.sync_message_delete id peer)) = true.
Proof.
  intros Hp.
  destruct peer as [code text|msg|msg];
    unfold ProductTypeRouter.sync_message_delete, delete_failure_heading.
  - simpl in Hp. apply negb_true_iff in Hp. rewrite Hp.
    exact (heading_kept "HTTP error syncing delete to POS (9001) for ID"
             (" " ++ PyStr.str_of_int id ++ ": " ++ PyStr.str_of_int code ++ " - " ++ text
              ++ (if code =? 404
                  then " (POS reported not found, which might be acceptable)."
                  else ""))
             eq_refl).
  - exact (heading_kept "Request error syncing delete to POS (9001) for ID"
             (" " ++ PyStr.str_of_int id ++ ": " ++ msg) eq_refl).
  - exact (heading_kept "An unexpected error occurred during delete sync to POS (9001) for ID"
             (" " ++ PyStr.str_of_int id ++ ": " ++ msg) eq_refl).
Qed.

(** A local update that ends well has committed the new row values. *)
Lemma update_local_commits (id : Z) (request : ProductTypeRouter.ProductTypeRequest)
    (st st1 : State) :
  ProductTypeRouter.update_product_type_local id request st = (Ok tt, st1) ->
  durable st1 = fst (ProductTypeRouter.update_type (ProductTypeRouter.productTypeName request)
                       (ProductTypeRouter.SizeRequired request) id (durable st)) /\
  trace st1 = (trace st ++ [EvConnect; EvSql SELECT TProductType; EvSql SELECT TProductType;
                            EvSql UPDATE TProductType; EvCommit; EvClose])%list.
Proof.
  unfold ProductTypeRouter.update_product_type_local, ProductTypeRouter.update_product_type_try.
  run_handler. by_cases.
  all: intros [= <-]; cbn [durable txn files locked trace driver fst snd].
  all: rewrite <- !app_assoc; split; reflexivity.
Qed.

Lemma delete_local_commits (id : Z) (st st1 : State) :
  ProductTypeRouter.delete_product_type_local id st = (Ok tt, st1) ->
  durable st1 = fst (ProductTypeRouter.delete_type id (durable st)) /\
  trace st1 = (trace st ++ [EvConnect; EvSql SELECT TProductType; EvSql DELETE TProductType;
                            EvCommit; EvClose])%list.
Proof.
  unfold ProductTypeRouter.delete_product_type_local, ProductTypeRouter.delete_product_type_try.
  run_handler. by_cases.
  all: intros [= <-]; cbn [durable txn files locked trace driver fst snd].
  all: rewrite <- !app_assoc; split; reflexivity.
Qed.

(** C4: when the local transaction of a ProductType update or delete has
    committed and the call to the POS service fails (an answer outside 2xx, a
    network error, anything else), the handler still answers with success;
    its message is the success text followed by the description of the
    failure; the committed store is the one the local transaction left, with
    the change in it, and the only effect after the commit and the closing of
    the connection is the call itself. *)
Theorem sync_failure_keeps_local_commit :
  forall (id : Z) (request : ProductTypeRouter.ProductTypeRequest)
         (peer : ProductTypeRouter.PeerReply) (st : State),
    peer_failed peer = true ->
    (forall st1,
       ProductTypeRouter.update_product_type_local id request st = (Ok tt, st1) ->
       exists description st2,
         ProductTypeRouter.update_product_type id request peer st
         = (Ok ("Product type updated successfully in primary service (8001). " ++ description),
            st2) /\
         description = PyStr.rstrip (ProductTypeRouter.sync_message_update id peer) /\
         String.prefix (update_failure_heading peer) description = true /\
         durable st2 = durable st1 /\
         durable st2 = fst (ProductTypeRouter.update_type
                              (ProductTypeRouter.productTypeName request)
                              (ProductTypeRouter.SizeRequired request) id (durable st)) /\
         trace st2 = (trace st ++ [EvConnect; EvSql SELECT TProductType;
                                   EvSql SELECT TProductType; EvSql UPDATE TProductType;
                                   EvCommit; EvClose; EvPeer PUT id])%list) /\
    (forall st1,
       ProductTypeRouter.delete_product_type_local id st = (Ok tt, st1) ->
       exists description st2,
         ProductTypeRouter.delete_product_type id peer st
         = (Ok ("Product type deleted successfully from primary service (8001). " ++ description),
            st2) /\
         description = PyStr.rstrip (ProductTypeRouter.sync_message_delete id peer) /\
         String.prefix (delete_failure_heading peer) description = true /\
         durable st2 = durable st1 /\
         durable st2 = fst (ProductTypeRouter.delete_type id (durable st)) /\
         trace st2 = (trace st ++ [EvConnect; EvSql SELECT TProductType;
                                   EvSql DELETE TProductType; EvCommit; EvClose;
                                   EvPeer HTTP_DELETE id])%list).
Proof.
  intros id request peer st Hp. split; intros st1 Hlocal.
  - pose proof (update_failure_described id peer Hp) as Hdesc.
    destruct (update_local_commits _ _ _ _ Hlocal) as [Hd Ht].
    exists (PyStr.rstrip (ProductTypeRouter.sync_message_update id peer)),
           (log (EvPeer PUT id) st1).
    repeat split; try assumption.
    + unfold ProductTypeRouter.update_product_type, ProductTypeRouter.sync_update, bind, ret.
      rewrite Hlocal. f_equal. f_equal.
      apply (strip_app "P" "roduct type updated successfully in primary service (8001). ");
        [reflexivity|].
      destruct peer; exact (prefix_nonempty _ _ _ Hdesc).
    + simpl. rewrite Ht, <- app_assoc. reflexivity.
  - pose proof (delete_failure_described id peer Hp) as Hdesc.
    destruct (delete_local_commits _ _ _ Hlocal) as [Hd Ht].
    exists (PyStr.rstrip (ProductTypeRouter.sync_message_delete id peer)),
           (log (EvPeer HTTP_DELETE id) st1).
    repeat split; try assumption.
    + unfold ProductTypeRouter.delete_product_type, ProductTypeRouter.sync_delete, bind, ret.
      rewrite Hlocal. f_equal. f_equal.
      apply (strip_app "P" "roduct type deleted successfully from primary service (8001). ");
        [reflexivity|].
      destruct peer; exact (prefix_nonempty _ _ _ Hdesc).
    + simpl. rewrite Ht, <- app_assoc. reflexivity.
Qed.

Lemma sync_failure_keeps_local_commit_witness :
  (exists st2,
     ProductTypeRouter.update_product_type 2 (ProductTypeRouter.mkRequest "Drink" 0)
       (ProductTypeRouter.RequestError "refused") (Sample.state [])
     = (Ok "Product type updated successfully in primary service (8001). Request error syncing update to POS (9001) for ID 2: refused",
        st2) /\
     Store.ProductType (durable st2)
     = [Store.mkProductType 1 "Pastry" 0; Store.mkProductType 2 "Drink" 0]) /\
  (exists st2,
     ProductTypeRouter.delete_product_type 2 (ProductTypeRouter.Replied 404 "gone")
       (Sample.state [])
     = (Ok "Product type deleted successfully from primary service (8001). HTTP error syncing delete to POS (9001) for ID 2: 404 - gone (POS reported not found, which might be acceptable).",
        st2) /\
     Store.ProductType (durable st2) = [Store.mkProductType 1 "Pastry" 0]).
Proof.
  split.
  - destruct (proj1 (sync_failure_keeps_local_commit 2 (ProductTypeRouter.mkRequest "Drink" 0)
                       (ProductTypeRouter.RequestError "refused") (Sample.state []) eq_refl)
                _ eq_refl) as (description & st2 & Hrun & -> & _ & _ & Hd & _).
    exists st2. split; [exact Hrun | rewrite Hd; reflexivity].
  - destruct (proj2 (sync_failure_keeps_local_commit 2 (ProductTypeRouter.mkRequest "Drink" 0)
                       (ProductTypeRouter.Replied 404 "gone") (Sample.state []) eq_refl)
                _ eq_refl) as (description & st2 & Hrun & -> & _ & _ & Hd & _).
    exists st2. split; [exact Hrun | rewrite Hd; reflexivity].
Defined.

(** ** Sizes of a product after an update *)

Lemma no_sizes_after_delete (product_id : Z) (db : Store.DB) :
  ProductsRouter.select_size_names product_id
    (fst (ProductsRouter.delete_sizes product_id db)) = [].
Proof.
  unfold ProductsRouter.select_size_names. simpl.
  induction (Store.Size db) as [|s l IH]; [reflexivity|].
  simpl. destruct (Store.Size_ProductID s =? product_id) eqn:E; simpl; [assumption|].
  now rewrite E.
Qed.

Lemma one_size_after_insert (product_id : Z) (size_name : string) (db : Store.DB) :
  ProductsRouter.select_size_names product_id
    (fst (ProductsRouter.insert_size product_id size_name
            (fst (ProductsRouter.delete_sizes product_id db)))) = [size_name].
Proof.
  pose proof (no_sizes_after_delete product_id db) as H.
  unfold ProductsRouter.select_size_names in *. simpl in *.
  rewrite filter_app, map_app, H. simpl. now rewrite Z.eqb_refl.
Qed.

(** C8: an update that goes through leaves the product with exactly the
    trimmed [ProductSize] as its sizes when something is left of the field
    after trimming, and with no size when the field is absent, empty or
    blank, whatever sizes the product had.  The update goes through when the
    ProductType and the product are found, the driver runs every call and,
    for a form that carries an image, [os.remove] does not refuse the file of
    the image the product had. *)
Theorem update_product_replaces_sizes :
  forall (base_url uuid4 : string) (product_id : Z) (form : ProductsRouter.ProductForm)
         (st : State) (details : ProductsRouter.TypeDetails) (image : option string),
    driver st = [] ->
    ProductsRouter.select_type_details (ProductsRouter.ProductTypeID form) (durable st)
    = Some details ->
    ProductsRouter.select_image product_id (durable st) = Some image ->
    (forall file, ProductsRouter.ProductImageFile form = Some file -> removable st image) ->
    exists out st',
      ProductsRouter.update_product base_url uuid4 product_id form st = (Ok out, st') /\
      (forall raw,
          ProductsRouter.ProductSize form = Some raw -> PyStr.strip raw <> "" ->
          ProductsRouter.select_size_names product_id (durable st') = [PyStr.strip raw] /\
          ProductsRouter.ProductOut.ProductSizes out = Some [PyStr.strip raw]) /\
      (ProductsRouter.ProductSize form = None \/
       (exists raw, ProductsRouter.ProductSize form = Some raw /\ PyStr.strip raw = "") ->
       ProductsRouter.select_size_names product_id (durable st') = [] /\
       ProductsRouter.ProductOut.ProductSizes out = None).
Proof.
  intros base_url uuid4 product_id form st details image Hd Htype Himage Hrem.
  assert (Hsome : forall raw, ProductsRouter.ProductSize form = Some raw ->
                    PyStr.strip raw <> "" ->
                    ProductsRouter.stripped_size (ProductsRouter.ProductSize form)
                    = Some (PyStr.strip raw)).
  { intros raw -> H. now apply stripped_size_some. }
  assert (Hnone : ProductsRouter.ProductSize form = None \/
                  (exists raw, ProductsRouter.ProductSize form = Some raw /\ PyStr.strip raw = "") ->
                  ProductsRouter.stripped_size (ProductsRouter.ProductSize form) = None).
  { intros [->|(raw & -> & H)]; [reflexivity | now apply stripped_size_blank]. }
  assert (Hok : forall file path,
                  ProductsRouter.ProductImageFile form = Some file -> image = Some path ->
                  PyStr.truthy path = true ->
                  remove_error (locked st) (PyStr.path_name path) = None).
  { intros file path Hfile Hpath Ht. apply (Hrem file Hfile path Hpath).
    intros ->. discriminate. }
  clear Hrem.
  unfold ProductsRouter.update_product, ProductsRouter._get_product_type_details.
  run_handler. rewrite Hd. cbn [durable txn files locked trace driver fst snd].
  rewrite Htype. cbn [durable txn files locked trace driver fst snd].
  rewrite Himage. cbn [durable txn files locked trace driver fst snd].
  destruct (ProductsRouter.stripped_size (ProductsRouter.ProductSize form)) as [size|] eqn:Hs.
  - by_cases.
    all: try (exfalso;
              match goal with
              | He : remove_error _ _ = Some _ |- _ =>
                  erewrite Hok in He by (eassumption || reflexivity); discriminate
              end).
    all: eexists; eexists; split; [reflexivity|].
    all: cbn [durable ProductsRouter.ProductOut.ProductSizes].
    all: split; [intros raw Hraw Hne; specialize (Hsome raw Hraw Hne); injection Hsome as <-
                | intros H; specialize (Hnone H); discriminate].
    all: split; [|reflexivity].
    all: repeat match goal with
           | H : ProductsRouter.insert_size _ _ _ = (?d, _) |- _ =>
               apply (f_equal fst) in H; cbn [fst] in H; subst d
           | H : ProductsRouter.delete_sizes _ _ = (?d, _) |- _ =>
               apply (f_equal fst) in H; cbn [fst] in H; subst d
           end.
    all: apply one_size_after_insert.
  - by_cases.
    all: try (exfalso;
              match goal with
              | He : remove_error _ _ = Some _ |- _ =>
                  erewrite Hok in He by (eassumption || reflexivity); discriminate
              end).
    all: eexists; eexists; split; [reflexivity|].
    all: cbn [durable ProductsRouter.ProductOut.ProductSizes].
    all: split; [intros raw Hraw Hne; specialize (Hsome raw Hraw Hne); discriminate
                | intros _].
    all: split; [|reflexivity].
    all: repeat match goal with
           | H : ProductsRouter.delete_sizes _ _ = (?d, _) |- _ =>
               apply (f_equal fst) in H; cbn [fst] in H; subst d
           end.
    all: apply no_sizes_after_delete.
Qed.

(** Product 1 has two sizes and no image; product 2 has an image, which the
    update replaces, and no size. *)
Lemma update_product_replaces_sizes_witness :
  ProductsRouter.select_size_names 1 Sample.db = ["Small"; "Large"] /\
  (exists out st',
     ProductsRouter.update_product Sample.base_url "u1" 1 Sample.latte_medium (Sample.state [])
     = (Ok out, st') /\
     ProductsRouter.select_size_names 1 (durable st') = ["Medium"] /\
     ProductsRouter.ProductOut.ProductSizes out = Some ["Medium"]) /\
  (exists out st',
     ProductsRouter.update_product Sample.base_url "u1" 2 Sample.croissant_new_image
       (Sample.state [])
     = (Ok out, st') /\
     ProductsRouter.select_size_names 2 (durable st') = [] /\
     ProductsRouter.ProductOut.ProductSizes out = None).
Proof.
  split; [reflexivity|]. split.
  - destruct (update_product_replaces_sizes Sample.base_url "u1" 1 Sample.latte_medium
                (Sample.state []) (ProductsRouter.mkDetails "Drink" true) None
                eq_refl eq_refl eq_refl) as (out & st' & Hrun & Hsome & _).
    { discriminate. }
    destruct (Hsome "  Medium " eq_refl) as [H1 H2]; [discriminate|].
    exists out, st'. repeat split; assumption.
  - destruct (update_product_replaces_sizes Sample.base_url "u1" 2 Sample.croissant_new_image
                (Sample.state []) (ProductsRouter.mkDetails "Pastry" false)
                (Some "/product_images/old.png")
                eq_refl eq_refl eq_refl) as (out & st' & Hrun & _ & Hnone).
    { intros file _ path [= <-] _. reflexivity. }
    destruct (Hnone (or_introl eq_refl)) as [H1 H2].
    exists out, st'. repeat split; assumption.
Defined.

(** ** Availability *)

Lemma unavailable_ingredient_iff (product_id : Z) (db : Store.DB) :
  ProductsRouter.exists_unavailable_ingredient product_id db = true <->
  exists i, requires_ingredient db product_id i /\ Store.Ingredient_Status i <> "Available".
Proof.
  unfold ProductsRouter.exists_unavailable_ingredient, requires_ingredient. split.
  - intros H. apply existsb_exists in H. destruct H as (r & Hr & H).
    apply existsb_exists in H. destruct H as (ri & Hri & H).
    apply existsb_exists in H. destruct H as (i & Hi & H).
    rewrite !andb_true_iff, !Z.eqb_eq, negb_true_iff, String.eqb_neq in H.
    destruct H as [[[H1 H2] H3] H4].
    exists i. split; [|assumption]. split; [assumption|].
    exists r, ri. auto.
  - intros (i & (Hi & r & ri & Hr & Hri & H3 & H1 & H2) & H4).
    apply existsb_exists. exists r. split; [assumption|].
    apply existsb_exists. exists ri. split; [assumption|].
    apply existsb_exists. exists i. split; [assumption|].
    rewrite !andb_true_iff, !Z.eqb_eq, negb_true_iff, String.eqb_neq. auto.
Qed.

Lemma unavailable_material_iff (product_id : Z) (db : Store.DB) :
  ProductsRouter.exists_unavailable_material product_id db = true <->
  exists m, requires_material db product_id m /\ Store.Material_Status m <> "Available".
Proof.
  unfold ProductsRouter.exists_unavailable_material, requires_material. split.
  - intros H. apply existsb_exists in H. destruct H as (r & Hr & H).
    apply existsb_exists in H. destruct H as (rm & Hrm & H).
    apply existsb_exists in H. destruct H as (m & Hm & H).
    rewrite !andb_true_iff, !Z.eqb_eq, negb_true_iff, String.eqb_neq in H.
    destruct H as [[[H1 H2] H3] H4].
    exists m. split; [|assumption]. split; [assumption|].
    exists r, rm. auto.
  - intros (m & (Hm & r & rm & Hr & Hrm & H3 & H1 & H2) & H4).
    apply existsb_exists. exists r. split; [assumption|].
    apply existsb_exists. exists rm. split; [assumption|].
    apply existsb_exists. exists m. split; [assumption|].
    rewrite !andb_true_iff, !Z.eqb_eq, negb_true_iff, String.eqb_neq. auto.
Qed.

(** The CASE expression of both queries computes the rule of the
    specification. *)
Lemma case_status_unavailable (product_id : Z) (db : Store.DB) :
  ProductsRouter.case_status product_id db = "Unavailable" <-> spec_unavailable db product_id.
Proof.
  unfold ProductsRouter.case_status, spec_unavailable.
  rewrite <- unavailable_ingredient_iff, <- unavailable_material_iff, <- orb_true_iff.
  destruct (_ || _); split; intros H; try reflexivity; discriminate.
Qed.

Lemma case_status_available (product_id : Z) (db : Store.DB) :
  ProductsRouter.case_status product_id db = "Available" <-> ~ spec_unavailable db product_id.
Proof.
  rewrite <- case_status_unavailable. unfold ProductsRouter.case_status.
  destruct (_ || _); split; intros H; try reflexivity; try discriminate.
  now contradiction H.
Qed.

Lemma joined_rows_status (products : list Store.ProductRow) (db : Store.DB)
    (row : ProductsRouter.DetailRow) :
  In row (ProductsRouter.joined_rows products db) ->
  ProductsRouter.row_Status row
  = ProductsRouter.case_status (ProductsRouter.row_ProductID row) db.
Proof.
  unfold ProductsRouter.joined_rows. intros H.
  apply in_flat_map in H. destruct H as (p & _ & H).
  apply in_map_iff in H. destruct H as (pt & <- & _). reflexivity.
Qed.

Lemma in_insert_by_name (r x : ProductsRouter.DetailRow) (l : list ProductsRouter.DetailRow) :
  In x (ProductsRouter.insert_by_name r l) <-> x = r \/ In x l.
Proof.
  induction l as [|h t IH]; simpl.
  - intuition.
  - destruct (String.leb _ _); simpl; [intuition|]. rewrite IH. intuition.
Qed.

Lemma in_order_by_name (x : ProductsRouter.DetailRow) (l : list ProductsRouter.DetailRow) :
  In x (ProductsRouter.order_by_name l) <-> In x l.
Proof.
  unfold ProductsRouter.order_by_name. induction l as [|h t IH]; simpl; [reflexivity|].
  rewrite in_insert_by_name, IH. intuition.
Qed.

(** The row of the single-product query is among the rows of the bulk query,
    and the rows of the bulk query for that product are rows of the
    single-product query. *)
Lemma select_details_in_all (product_id : Z) (db : Store.DB) (row : ProductsRouter.DetailRow) :
  In row (ProductsRouter.select_details product_id db) <->
  In row (ProductsRouter.select_all_details db) /\ ProductsRouter.row_ProductID row = product_id.
Proof.
  unfold ProductsRouter.select_details, ProductsRouter.select_all_details.
  rewrite in_order_by_name. unfold ProductsRouter.joined_rows.
  rewrite !in_flat_map. split.
  - intros (p & Hp & H). apply filter_In in Hp. destruct Hp as [Hp Hid].
    apply Z.eqb_eq in Hid. split; [eauto|].
    apply in_map_iff in H. destruct H as (pt & <- & _). exact Hid.
  - intros [(p & Hp & H) Hid]. exists p. split; [|assumption].
    apply filter_In. split; [assumption|]. apply Z.eqb_eq.
    apply in_map_iff in H. destruct H as (pt & <- & _). exact Hid.
Qed.

Lemma select_details_found (product_id : Z) (db : Store.DB)
    (p : Store.ProductRow) (pt : Store.ProductTypeRow) :
  In p (Store.Products db) -> Store.ProductID p = product_id ->
  In pt (Store.ProductType db) -> Store.productTypeID pt = Store.ProductTypeID p ->
  ProductsRouter.select_details product_id db <> [].
Proof.
  intros Hp Hid Hpt Ht Hnil.
  assert (H : In (ProductsRouter.mkDetailRow (Store.ProductID p) (Store.ProductName p)
                    (Store.ProductDescription p) (Store.ProductPrice p)
                    (Store.ProductCategory p) (Store.productTypeName pt)
                    (ProductsRouter.case_status (Store.ProductID p) db))
                 (ProductsRouter.select_details product_id db)).
  { unfold ProductsRouter.select_details, ProductsRouter.joined_rows.
    apply in_flat_map. exists p. split.
    - apply filter_In. split; [assumption | now apply Z.eqb_eq].
    - apply in_map_iff. exists pt. split; [reflexivity|].
      apply filter_In. split; [assumption|]. apply Z.eqb_eq. now symmetry. }
  rewrite Hnil in H. contradiction.
Qed.

(** C9: for a product of the catalogue, the single-product details and the
    bulk details both answer, the bulk list has a row for the product, every
    such row carries the Status of the single-product answer, and that Status
    is "Unavailable" exactly when a required ingredient or material has a
    status other than "Available", and "Available" otherwise.  The same rule
    gives the Status of every row of the bulk list. *)
Theorem details_status_agree :
  forall (st : State) (product_id : Z) (p : Store.ProductRow) (pt : Store.ProductTypeRow),
    driver st = [] ->
    In p (Store.Products (durable st)) -> Store.ProductID p = product_id ->
    In pt (Store.ProductType (durable st)) -> Store.productTypeID pt = Store.ProductTypeID p ->
    exists single,
      fst (ProductsRouter.get_full_product_details product_id st) = Ok single /\
      fst (ProductsRouter.get_all_full_product_details st)
      = Ok (map (fun row =>
                   ProductsRouter.detail_out
                     (ProductsRouter.sizes_by_product_id (Store.Size (durable st))
                        (ProductsRouter.row_ProductID row)) row)
                (ProductsRouter.select_all_details (durable st))) /\
      (exists row, In row (ProductsRouter.select_all_details (durable st)) /\
                   ProductsRouter.row_ProductID row = product_id) /\
      (forall row sizes,
          In row (ProductsRouter.select_all_details (durable st)) ->
          ProductsRouter.row_ProductID row = product_id ->
          ProductsRouter.ProductDetailWithStatusOut.Status (ProductsRouter.detail_out sizes row)
          = ProductsRouter.ProductDetailWithStatusOut.Status single) /\
      (ProductsRouter.ProductDetailWithStatusOut.Status single = "Unavailable" <->
       spec_unavailable (durable st) product_id) /\
      (ProductsRouter.ProductDetailWithStatusOut.Status single = "Available" <->
       ~ spec_unavailable (durable st) product_id) /\
      (forall row sizes,
          In row (ProductsRouter.select_all_details (durable st)) ->
          (ProductsRouter.ProductDetailWithStatusOut.Status (ProductsRouter.detail_out sizes row)
           = "Unavailable" <->
           spec_unavailable (durable st) (ProductsRouter.row_ProductID row)) /\
          (ProductsRouter.ProductDetailWithStatusOut.Status (ProductsRouter.detail_out sizes row)
           = "Available" <->
           ~ spec_unavailable (durable st) (ProductsRouter.row_ProductID row))).
Proof.
  intros st product_id p pt Hd Hp Hid Hpt Ht.
  pose proof (select_details_found _ _ _ _ Hp Hid Hpt Ht) as Hrows.
  assert (Hall : forall row, In row (ProductsRouter.select_all_details (durable st)) ->
                   ProductsRouter.row_Status row
                   = ProductsRouter.case_status (ProductsRouter.row_ProductID row) (durable st)).
  { intros row H. unfold ProductsRouter.select_all_details in H.
    rewrite in_order_by_name in H. now apply joined_rows_status in H. }
  destruct (ProductsRouter.select_details product_id (durable st)) as [|first rest] eqn:E;
    [contradiction|].
  assert (Hfirst : In first (ProductsRouter.select_details product_id (durable st))).
  { rewrite E. now left. }
  apply select_details_in_all in Hfirst. destruct Hfirst as [Hin Hfid].
  exists (ProductsRouter.detail_out
            (ProductsRouter.or_None (ProductsRouter.select_size_names product_id (durable st)))
            first).
  split; [|split; [|split; [|split; [|split; [|split]]]]].
  - unfold ProductsRouter.get_full_product_details. run_handler.
    rewrite Hd. cbn [durable txn files locked trace driver fst snd]. rewrite E. reflexivity.
  - unfold ProductsRouter.get_all_full_product_details. run_handler.
    rewrite Hd. reflexivity.
  - eauto.
  - intros row sizes Hrow Hrid. simpl.
    rewrite (Hall _ Hrow), (Hall _ Hin). congruence.
  - simpl. rewrite (Hall _ Hin), Hfid. apply case_status_unavailable.
  - simpl. rewrite (Hall _ Hin), Hfid. apply case_status_available.
  - intros row sizes Hrow. simpl. rewrite (Hall _ Hrow).
    split; [apply case_status_unavailable | apply case_status_available].
Qed.

Lemma details_status_agree_witness :
  exists single,
    fst (ProductsRouter.get_full_product_details 1 (Sample.state [])) = Ok single /\
    ProductsRouter.ProductDetailWithStatusOut.Status single = "Unavailable" /\
    spec_unavailable Sample.db 1.
Proof.
  destruct (details_status_agree (Sample.state []) 1
              (Store.mkProduct 1 "Latte" 2 "Coffee" None 120 None)
              (Store.mkProductType 2 "Drink" 1))
    as (single & Hsingle & _ & _ & _ & Hun & _).
  - reflexivity.
  - simpl. auto.
  - reflexivity.
  - simpl. auto.
  - reflexivity.
  - exists single. split; [assumption|].
    assert (Hs : ProductsRouter.ProductDetailWithStatusOut.Status single = "Unavailable").
    { injection Hsingle as <-. reflexivity. }
    split; [assumption | now apply Hun].
Defined.

(** * Further properties of the two routers *)

(** ** The token checks *)

(** X1: the status each token check answers with, by what the user service
    did.  No response: 503.  A response that is not 2xx: its own status.  A
    2xx response whose body is no JSON, or JSON that is no object: decoding or
    reading it raises outside every handler and the framework answers 500.  A
    2xx response with a JSON object: [verify_admin] lets the request through
    when ["userRole"] is "manager", [validate_token_and_roles] when it is one
    of the allowed roles, and each answers 403 otherwise.  With "manager" as
    the only allowed role the two checks answer alike. *)
Theorem verify_admin_agrees_with_role_check :
  forall (reply : AuthReply) (allowed_roles : list string),
    (forall msg, reply = AuthRequestError msg ->
       status_of 200 (ProductTypeRouter.verify_admin reply) = 503 /\
       status_of 200 (ProductsRouter.validate_token_and_roles reply allowed_roles) = 503) /\
    (forall status_code text body,
       reply = AuthReplied status_code text body ->
       ProductTypeRouter.is_success status_code = false ->
       status_of 200 (ProductTypeRouter.verify_admin reply) = status_code /\
       status_of 200 (ProductsRouter.validate_token_and_roles reply allowed_roles) = status_code) /\
    (forall status_code text body,
       reply = AuthReplied status_code text body ->
       ProductTypeRouter.is_success status_code = true ->
       (forall userRole, body <> JSONObject userRole) ->
       status_of 200 (ProductTypeRouter.verify_admin reply) = 500 /\
       status_of 200 (ProductsRouter.validate_token_and_roles reply allowed_roles) = 500) /\
    (forall status_code text userRole,
       reply = AuthReplied status_code text (JSONObject userRole) ->
       ProductTypeRouter.is_success status_code = true ->
       (status_of 200 (ProductTypeRouter.verify_admin reply) = 200 <->
        userRole = Some "manager") /\
       (status_of 200 (ProductTypeRouter.verify_admin reply) <> 200 ->
        status_of 200 (ProductTypeRouter.verify_admin reply) = 403) /\
       (status_of 200 (ProductsRouter.validate_token_and_roles reply allowed_roles) = 200 <->
        exists role, userRole = Some role /\ In role allowed_roles) /\
       (status_of 200 (ProductsRouter.validate_token_and_roles reply allowed_roles) <> 200 ->
        status_of 200 (ProductsRouter.validate_token_and_roles reply allowed_roles) = 403)) /\
    status_of 200 (ProductTypeRouter.verify_admin reply)
    = status_of 200 (ProductsRouter.validate_token_and_roles reply ["manager"]) /\
    (failed (ProductTypeRouter.verify_admin reply) = false <->
     exists status_code text,
       reply = AuthReplied status_code text (JSONObject (Some "manager")) /\
       ProductTypeRouter.is_success status_code = true).
Proof.
  intros reply allowed_roles.
  assert (Hin : forall role, existsb (String.eqb role) allowed_roles = true <->
                             In role allowed_roles).
  { intros role. rewrite existsb_exists. split.
    - intros (x & Hx & E). apply String.eqb_eq in E. now subst.
    - intros H. exists role. now rewrite String.eqb_refl. }
  split; [|split; [|split; [|split; [|split]]]].
  - intros msg ->. split; reflexivity.
  - intros status_code text body -> Hs.
    unfold ProductTypeRouter.verify_admin, ProductsRouter.validate_token_and_roles.
    rewrite Hs. split; reflexivity.
  - intros status_code text body -> Hs Hbody.
    unfold ProductTypeRouter.verify_admin, ProductsRouter.validate_token_and_roles.
    rewrite Hs.
    destruct body as [msg|userRole|type_name]; [|now destruct (Hbody userRole)|];
      split; reflexivity.
  - intros status_code text userRole -> Hs.
    unfold ProductTypeRouter.verify_admin, ProductsRouter.validate_token_and_roles.
    rewrite Hs. cbn [get_userRole]. destruct userRole as [role|].
    + split; [|split; [|split]].
      * destruct (String.eqb_spec role "manager") as [->|Hne]; cbn [status_of];
          split; try reflexivity; try discriminate.
        intros [= ->]. contradiction.
      * destruct (role =? "manager")%string; cbn [status_of]; [contradiction | reflexivity].
      * destruct (existsb (String.eqb role) allowed_roles) eqn:E; cbn [status_of]; split;
          try reflexivity; try discriminate.
        -- intros _. exists role. split; [reflexivity | now apply Hin].
        -- intros (r & [= <-] & Hr). apply Hin in Hr. congruence.
      * destruct (existsb (String.eqb role) allowed_roles); cbn [status_of];
          [contradiction | reflexivity].
    + cbn [status_of]. split; [|split; [|split]].
      * split; discriminate.
      * reflexivity.
      * split; [discriminate | intros (r & [=] & _)].
      * reflexivity.
  - unfold ProductTypeRouter.verify_admin, ProductsRouter.validate_token_and_roles.
    destruct reply as [status_code text [msg|[role|]|type_name]|msg];
      try destruct (ProductTypeRouter.is_success status_code);
      cbn [get_userRole status_of existsb]; try reflexivity.
    rewrite orb_false_r. now destruct (role =? "manager")%string.
  - unfold ProductTypeRouter.verify_admin.
    destruct reply as [status_code text [msg|[role|]|type_name]|msg];
      try destruct (ProductTypeRouter.is_success status_code) eqn:Hs;
      cbn [get_userRole failed]; split; try discriminate;
      try (intros (c & t & [=] & _); fail).
    + destruct (String.eqb_spec role "manager") as [->|Hne]; [eauto | discriminate].
    + intros (c & t & [= _ _ ->] & _). reflexivity.
    + intros (c & t & [= <- _ _] & H). congruence.
Qed.

Lemma verify_admin_agrees_with_role_check_witness :
  status_of 200 (ProductTypeRouter.verify_admin
                   (AuthReplied 200 "<html>ok</html>" (NotJSON "Expecting value")))
  = 500 /\
  status_of 200 (ProductsRouter.validate_token_and_roles
                   (AuthReplied 200 "<html>ok</html>" (NotJSON "Expecting value"))
                   ["admin"; "manager"; "staff"])
  = 500 /\
  status_of 200 (ProductsRouter.validate_token_and_roles
                   (AuthReplied 200 "{'userRole': 'cashier'}" (JSONObject (Some "cashier")))
                   ["admin"; "manager"; "staff"])
  = 403.
Proof.
  split; [|split].
  - apply (proj1 (proj2 (proj2 (verify_admin_agrees_with_role_check
                                  (AuthReplied 200 "<html>ok</html>" (NotJSON "Expecting value"))
                                  ["admin"; "manager"; "staff"])))
             200 "<html>ok</html>" (NotJSON "Expecting value") eq_refl eq_refl).
    discriminate.
  - apply (proj1 (proj2 (proj2 (verify_admin_agrees_with_role_check
                                  (AuthReplied 200 "<html>ok</html>" (NotJSON "Expecting value"))
                                  ["admin"; "manager"; "staff"])))
             200 "<html>ok</html>" (NotJSON "Expecting value") eq_refl eq_refl).
    discriminate.
  - apply (proj1 (proj2 (proj2 (proj2 (verify_admin_agrees_with_role_check
                                  (AuthReplied 200 "{'userRole': 'cashier'}"
                                     (JSONObject (Some "cashier")))
                                  ["admin"; "manager"; "staff"]))))
             200 "{'userRole': 'cashier'}" (Some "cashier") eq_refl eq_refl).
    discriminate.
Defined.

(** ** Ordered listings *)

Lemma in_insert_by {A} (key : A -> string) (r x : A) (l : list A) :
  In x (Store.insert_by key r l) <-> x = r \/ In x l.
Proof.
  induction l as [|h t IH]; simpl.
  - intuition.
  - destruct (String.leb _ _); simpl; [intuition|]. rewrite IH. intuition.
Qed.

Lemma in_order_by {A} (key : A -> string) (x : A) (l : list A) :
  In x (Store.order_by key l) <-> In x l.
Proof.
  unfold Store.order_by. induction l as [|h t IH]; simpl; [reflexivity|].
  rewrite in_insert_by, IH. intuition.
Qed.

Lemma length_insert_by {A} (key : A -> string) (r : A) (l : list A) :
  List.length (Store.insert_by key r l) = S (List.length l).
Proof.
  induction l as [|h t IH]; simpl; [reflexivity|].
  destruct (String.leb _ _); simpl; [reflexivity | now rewrite IH].
Qed.

Lemma length_order_by {A} (key : A -> string) (l : list A) :
  List.length (Store.order_by key l) = List.length l.
Proof.
  unfold Store.order_by. induction l as [|h t IH]; simpl; [reflexivity|].
  now rewrite length_insert_by, IH.
Qed.

(** ** ProductType: what create, update and delete leave behind *)

Lemma ci_eqb_sym (a b : string) : Store.ci_eqb a b = Store.ci_eqb b a.
Proof. unfold Store.ci_eqb. apply String.eqb_sym. Qed.

Lemma select_name_false (name : string) (db : Store.DB) :
  (forall t, In t (Store.ProductType db) -> Store.ci_eqb (Store.productTypeName t) name = false) ->
  ProductTypeRouter.select_name name db = false.
Proof.
  intros H. destruct (ProductTypeRouter.select_name name db) eqn:E; [|reflexivity].
  apply existsb_exists in E. destruct E as (t & Hin & Hci).
  rewrite (H t Hin) in Hci. discriminate.
Qed.

Lemma fresh_id_above (ids : list Z) (x : Z) : In x ids -> x < Store.fresh_id ids.
Proof.
  unfold Store.fresh_id. induction ids as [|h t IH]; cbn [fold_right In]; [contradiction|].
  intros [->|H]; [lia|]. specialize (IH H). lia.
Qed.

Lemma unique_after_insert_type (name : string) (size_required : Z) (db : Store.DB) :
  unique_type_names db ->
  ProductTypeRouter.select_name name db = false ->
  unique_type_names (fst (ProductTypeRouter.insert_type name size_required db)).
Proof.
  intros Hu Hn t1 t2. simpl. rewrite !in_app_iff. simpl.
  assert (Hno : forall t, In t (Store.ProductType db) ->
                  Store.ci_eqb (Store.productTypeName t) name = false).
  { intros t Hin. destruct (Store.ci_eqb (Store.productTypeName t) name) eqn:E; [|reflexivity].
    rewrite <- Hn. symmetry. now apply (select_name_true name db t). }
  intros [H1|[<-|[]]] [H2|[<-|[]]] Hci; simpl in *.
  - now apply Hu.
  - rewrite (Hno t1 H1) in Hci. discriminate.
  - rewrite ci_eqb_sym, (Hno t2 H2) in Hci. discriminate.
  - reflexivity.
Qed.

Lemma unique_after_update_type (name : string) (size_required id : Z) (db : Store.DB) :
  unique_type_names db ->
  ProductTypeRouter.select_name_other name id db = false ->
  unique_type_names (fst (ProductTypeRouter.update_type name size_required id db)).
Proof.
  intros Hu Hn t1 t2. simpl. rewrite !in_map_iff.
  assert (Hno : forall t, In t (Store.ProductType db) -> Store.productTypeID t <> id ->
                  Store.ci_eqb (Store.productTypeName t) name = false).
  { intros t Hin Hid. destruct (Store.ci_eqb (Store.productTypeName t) name) eqn:E; [|reflexivity].
    rewrite <- Hn. symmetry. now apply (select_name_other_true name id db t). }
  intros (u1 & <- & H1) (u2 & <- & H2).
  destruct (Z.eqb_spec (Store.productTypeID u1) id) as [E1|E1],
           (Z.eqb_spec (Store.productTypeID u2) id) as [E2|E2]; simpl; intros Hci.
  - congruence.
  - rewrite ci_eqb_sym, (Hno u2 H2 E2) in Hci. discriminate.
  - rewrite (Hno u1 H1 E1) in Hci. discriminate.
  - now apply Hu.
Qed.

Lemma unique_after_delete_type (id : Z) (db : Store.DB) :
  unique_type_names db ->
  unique_type_names (fst (ProductTypeRouter.delete_type id db)).
Proof.
  intros Hu t1 t2. simpl. rewrite !filter_In. intros [H1 _] [H2 _]. now apply Hu.
Qed.

(** Turns [w db = (d, x)] for a write [w] into [d = fst (w db)]. *)
Ltac name_writes :=
  repeat match goal with
    | H : _ = (?d, _) |- _ => is_var d; apply (f_equal fst) in H; cbn [fst] in H; subst d
    end.

Lemma create_product_type_keeps_unique_names (request : ProductTypeRouter.ProductTypeRequest)
    (st : State) :
  unique_type_names (durable st) ->
  unique_type_names (durable (snd (ProductTypeRouter.create_product_type request st))).
Proof.
  intros Hu.
  unfold ProductTypeRouter.create_product_type, ProductTypeRouter.create_product_type_try.
  run_handler. by_cases. all: name_writes.
  all: apply unique_after_insert_type; assumption.
Qed.

Lemma update_product_type_keeps_unique_names (id : Z)
    (request : ProductTypeRouter.ProductTypeRequest) (peer : ProductTypeRouter.PeerReply)
    (st : State) :
  unique_type_names (durable st) ->
  unique_type_names (durable (snd (ProductTypeRouter.update_product_type id request peer st))).
Proof.
  intros Hu.
  unfold ProductTypeRouter.update_product_type, ProductTypeRouter.sync_update,
    ProductTypeRouter.update_product_type_local, ProductTypeRouter.update_product_type_try.
  run_handler. by_cases. all: name_writes.
  all: apply unique_after_update_type; assumption.
Qed.

Lemma delete_product_type_keeps_unique_names (id : Z) (peer : ProductTypeRouter.PeerReply)
    (st : State) :
  unique_type_names (durable st) ->
  unique_type_names (durable (snd (ProductTypeRouter.delete_product_type id peer st))).
Proof.
  intros Hu.
  unfold ProductTypeRouter.delete_product_type, ProductTypeRouter.sync_delete,
    ProductTypeRouter.delete_product_type_local, ProductTypeRouter.delete_product_type_try.
  run_handler. by_cases. all: name_writes.
  all: apply unique_after_delete_type; assumption.
Qed.

Lemma snd_outcome {A} (m : M A) (st : State) : snd (outcome m st) = snd (m st).
Proof. unfold outcome. now destruct (m st). Qed.

Lemma fst_outcome {A} (m : M A) (st : State) : fst (outcome m st) = failed (fst (m st)).
Proof. unfold outcome. now destruct (m st). Qed.

(** The handlers of products.py leave the ProductType table alone. *)
Lemma products_keep_types (base_url : string) (op : Mutation) (st : State) :
  on_products op = true ->
  Store.ProductType (durable (snd (perform base_url op st))) = Store.ProductType (durable st).
Proof.
  intros Hop. destruct op; try discriminate; unfold perform; rewrite snd_outcome.
  - unfold ProductsRouter.create_new_product, ProductsRouter._get_product_type_details.
    run_handler. by_cases; name_writes; reflexivity.
  - unfold ProductsRouter.update_product, ProductsRouter._get_product_type_details.
    run_handler. by_cases; name_writes; reflexivity.
  - unfold ProductsRouter.delete_product.
    run_handler. by_cases; name_writes; reflexivity.
  - unfold ProductsRouter.add_size_to_existing_product, ProductsRouter._get_product_type_details.
    run_handler. by_cases; name_writes; reflexivity.
  - unfold ProductsRouter.delete_specific_size_from_product_is.
    run_handler. by_cases; name_writes; reflexivity.
Qed.

(** X2: whatever a mutating operation of either router does, and however the
    driver behaves, ProductType names that were unique without regard to case
    before it are unique after it. *)
Theorem mutations_keep_type_names_unique :
  forall (base_url : string) (op : Mutation) (st : State),
    unique_type_names (durable st) ->
    unique_type_names (durable (snd (perform base_url op st))).
Proof.
  intros base_url op st Hu.
  destruct (on_products op) eqn:Hop.
  - unfold unique_type_names. rewrite (products_keep_types base_url op st Hop). exact Hu.
  - destruct op; try discriminate; unfold perform; rewrite snd_outcome.
    + now apply create_product_type_keeps_unique_names.
    + now apply update_product_type_keeps_unique_names.
    + now apply delete_product_type_keeps_unique_names.
Qed.

Lemma mutations_keep_type_names_unique_witness :
  unique_type_names
    (durable (snd (perform Sample.base_url
                     (UpdateProductType 2 (ProductTypeRouter.mkRequest "Juice" 1)
                        (ProductTypeRouter.Replied 200 "ok"))
                     (Sample.state [])))).
Proof.
  apply (mutations_keep_type_names_unique Sample.base_url
           (UpdateProductType 2 (ProductTypeRouter.mkRequest "Juice" 1)
              (ProductTypeRouter.Replied 200 "ok"))
           (Sample.state [])).
  exact sample_type_names_unique.
Defined.

Lemma perm_insert_by {A} (key : A -> string) (r : A) (l : list A) :
  Permutation (Store.insert_by key r l) (r :: l).
Proof.
  induction l as [|h t IH]; simpl; [reflexivity|].
  destruct (String.leb _ _); [reflexivity|].
  rewrite IH. apply perm_swap.
Qed.

Lemma perm_order_by {A} (key : A -> string) (l : list A) :
  Permutation (Store.order_by key l) l.
Proof.
  unfold Store.order_by. induction l as [|h t IH]; simpl; [reflexivity|].
  rewrite perm_insert_by. now constructor.
Qed.

(** X3: the ProductType listing answers with the rows of the committed
    table, each once, whatever their order, and leaves the store as it is;
    when the driver raises, the request fails and the connection is closed
    all the same. *)
Theorem product_types_listing_is_the_table :
  forall st : State,
    (no_throw 1 (driver st) ->
     exists listing,
       fst (ProductTypeRouter.get_product_types st) = Ok listing /\
       Permutation listing
         (map (fun row => ProductTypeRouter.mkOut (Store.productTypeID row)
                            (Store.productTypeName row) (Store.SizeRequired row))
              (Store.ProductType (durable st)))) /\
    (forall msg ds, driver st = Throw msg :: ds ->
       fst (ProductTypeRouter.get_product_types st) = Raise (Exception msg)) /\
    durable (snd (ProductTypeRouter.get_product_types st)) = durable st /\
    files (snd (ProductTypeRouter.get_product_types st)) = files st /\
    trace (snd (ProductTypeRouter.get_product_types st))
    = (trace st ++ [EvConnect; EvSql SELECT TProductType; EvClose])%list.
Proof.
  intros st. unfold ProductTypeRouter.get_product_types. run_handler.
  destruct (driver st) as [|[|msg|] ds]; cbn [durable txn files locked trace driver fst snd no_throw];
    rewrite <- ?app_assoc; (split; [|split; [|auto]]); try discriminate; try contradiction.
  all: try (intros _; eexists; split; [reflexivity|];
            apply Permutation_map; apply perm_order_by).
  intros m d [= -> _]. reflexivity.
Qed.

Lemma product_types_listing_is_the_table_witness :
  exists listing,
    fst (ProductTypeRouter.get_product_types (Sample.state [])) = Ok listing /\
    Permutation listing [ProductTypeRouter.mkOut 1 "Pastry" 0; ProductTypeRouter.mkOut 2 "Drink" 1].
Proof.
  exact (proj1 (product_types_listing_is_the_table (Sample.state [])) I).
Defined.

(** X4: creating a ProductType whose name collides with none, with a driver
    that runs every call, answers with an identifier above every identifier of
    the table, appends the row, and the listing that follows shows it. *)
Theorem created_type_is_listed :
  forall (request : ProductTypeRouter.ProductTypeRequest) (st : State),
    driver st = [] ->
    (forall t, In t (Store.ProductType (durable st)) ->
       Store.ci_eqb (Store.productTypeName t) (ProductTypeRouter.productTypeName request) = false) ->
    exists id st',
      ProductTypeRouter.create_product_type request st
      = (Ok (ProductTypeRouter.mkCreated "Product type created successfully." (Some id)
               (ProductTypeRouter.productTypeName request)
               (ProductTypeRouter.SizeRequired request)), st') /\
      (forall t, In t (Store.ProductType (durable st)) -> Store.productTypeID t < id) /\
      Store.ProductType (durable st')
      = (Store.ProductType (durable st)
         ++ [Store.mkProductType id (ProductTypeRouter.productTypeName request)
               (ProductTypeRouter.SizeRequired request)])%list /\
      exists listing,
        fst (ProductTypeRouter.get_product_types st') = Ok listing /\
        In (ProductTypeRouter.mkOut id (ProductTypeRouter.productTypeName request)
              (ProductTypeRouter.SizeRequired request)) listing.
Proof.
  intros request st Hd Hfree. apply select_name_false in Hfree.
  unfold ProductTypeRouter.create_product_type, ProductTypeRouter.create_product_type_try.
  run_handler. rewrite Hd. cbn [durable txn files locked trace driver fst snd].
  rewrite Hfree. cbn [durable txn files locked trace driver fst snd ProductTypeRouter.insert_type].
  eexists. eexists. split; [reflexivity|]. split; [|split; [reflexivity|]].
  - intros t Hin. apply fresh_id_above. now apply in_map.
  - unfold ProductTypeRouter.get_product_types. run_handler.
    eexists. split; [reflexivity|].
    apply in_map_iff. eexists. split; [|apply in_order_by; cbn; apply in_or_app; right; now left].
    reflexivity.
Qed.

Lemma created_type_is_listed_witness :
  exists id st',
    ProductTypeRouter.create_product_type (ProductTypeRouter.mkRequest "Tea" 1) (Sample.state [])
    = (Ok (ProductTypeRouter.mkCreated "Product type created successfully." (Some id) "Tea" 1), st') /\
    exists listing,
      fst (ProductTypeRouter.get_product_types st') = Ok listing /\
      In (ProductTypeRouter.mkOut id "Tea" 1) listing.
Proof.
  destruct (created_type_is_listed (ProductTypeRouter.mkRequest "Tea" 1) (Sample.state []))
    as (id & st' & Hrun & _ & _ & Hlist).
  - reflexivity.
  - simpl. intros t [<-|[<-|[]]]; reflexivity.
  - exists id, st'. split; assumption.
Defined.

(** X5: deleting a ProductType that exists, with a driver that runs every
    call, removes the rows with that identifier and no other; the listing that
    follows has no entry for it and still has every other type. *)
Theorem deleted_type_is_gone :
  forall (id : Z) (peer : ProductTypeRouter.PeerReply) (st : State) (t : Store.ProductTypeRow),
    driver st = [] ->
    In t (Store.ProductType (durable st)) -> Store.productTypeID t = id ->
    failed (fst (ProductTypeRouter.delete_product_type id peer st)) = false /\
    Store.ProductType (durable (snd (ProductTypeRouter.delete_product_type id peer st)))
    = filter (fun t' => negb (Store.productTypeID t' =? id)) (Store.ProductType (durable st)) /\
    exists listing,
      fst (ProductTypeRouter.get_product_types
             (snd (ProductTypeRouter.delete_product_type id peer st))) = Ok listing /\
      (forall o, In o listing -> ProductTypeRouter.out_productTypeID o <> id) /\
      (forall t', In t' (Store.ProductType (durable st)) -> Store.productTypeID t' <> id ->
         In (ProductTypeRouter.mkOut (Store.productTypeID t') (Store.productTypeName t')
               (Store.SizeRequired t')) listing).
Proof.
  intros id peer st t Hd Hin Hid.
  pose proof (select_id_true _ _ _ Hin Hid) as Hsel.
  assert (Hrow : (ProductTypeRouter.rowcount (fun t0 => Store.productTypeID t0 =? id)
                    (Store.ProductType (durable st)) =? 0) = false).
  { apply (rowcount_found _ _ t Hin). now apply Z.eqb_eq. }
  unfold ProductTypeRouter.delete_product_type, ProductTypeRouter.sync_delete,
    ProductTypeRouter.delete_product_type_local, ProductTypeRouter.delete_product_type_try.
  run_handler. rewrite Hd. cbn [durable txn files locked trace driver fst snd].
  rewrite Hsel. cbn [durable txn files locked trace driver fst snd negb ProductTypeRouter.delete_type].
  rewrite Hrow. cbn [durable txn files locked trace driver fst snd failed].
  split; [reflexivity|]. split; [reflexivity|].
  unfold ProductTypeRouter.get_product_types. run_handler.
  eexists. split; [reflexivity|]. split.
  - intros o Ho. apply in_map_iff in Ho. destruct Ho as (r & <- & Hr).
    apply in_order_by in Hr. cbn in Hr. apply filter_In in Hr. destruct Hr as [_ Hr].
    apply negb_true_iff, Z.eqb_neq in Hr. exact Hr.
  - intros t' Hin' Hid'. apply in_map_iff. exists t'. split; [reflexivity|].
    apply in_order_by. cbn. apply filter_In. split; [assumption|].
    now apply negb_true_iff, Z.eqb_neq.
Qed.

Lemma deleted_type_is_gone_witness :
  failed (fst (ProductTypeRouter.delete_product_type 2 (ProductTypeRouter.Replied 200 "ok")
                 (Sample.state []))) = false /\
  Store.ProductType
    (durable (snd (ProductTypeRouter.delete_product_type 2 (ProductTypeRouter.Replied 200 "ok")
                     (Sample.state []))))
  = [Store.mkProductType 1 "Pastry" 0].
Proof.
  destruct (deleted_type_is_gone 2 (ProductTypeRouter.Replied 200 "ok") (Sample.state [])
              (Store.mkProductType 2 "Drink" 1)) as (Hf & Hd & _).
  - reflexivity.
  - simpl. auto.
  - reflexivity.
  - split; [exact Hf | rewrite Hd; reflexivity].
Defined.
(** X6: when the DELETE of an existing ProductType makes the driver raise, the
    handler rolls back, commits nothing and does not call the POS service; it
    answers 409 when the message of the driver contains "FOREIGN KEY
    constraint" or, in lower case, "constraint failed", and 500 with that
    message otherwise. *)
Theorem delete_type_driver_error :
  forall (id : Z) (peer : ProductTypeRouter.PeerReply) (st : State)
         (t : Store.ProductTypeRow) (d : Driver) (msg : string) (ds : list Driver),
    In t (Store.ProductType (durable st)) -> Store.productTypeID t = id ->
    driver st = d :: Throw msg :: ds -> no_throw 1 (driver st) ->
    fst (ProductTypeRouter.delete_product_type id peer st)
    = Raise (if PyStr.contains "FOREIGN KEY constraint" msg
                || PyStr.contains "constraint failed" (PyStr.lower msg)
             then HTTPException 409
                    "Cannot delete product type: It is currently in use by one or more products."
             else HTTPException 500 ("Failed to delete from primary DB: " ++ msg)) /\
    durable (snd (ProductTypeRouter.delete_product_type id peer st)) = durable st /\
    trace (snd (ProductTypeRouter.delete_product_type id peer st))
    = (trace st ++ [EvConnect; EvSql SELECT TProductType; EvSql DELETE TProductType;
                    EvRollback; EvClose])%list.
Proof.
  intros id peer st t d msg ds Hin Hid Hd Hn.
  pose proof (select_id_true _ _ _ Hin Hid) as Hsel.
  unfold ProductTypeRouter.delete_product_type, ProductTypeRouter.sync_delete,
    ProductTypeRouter.delete_product_type_local, ProductTypeRouter.delete_product_type_try.
  run_handler. rewrite Hd in *.
  destruct d; cbn [durable txn files locked trace driver fst snd no_throw] in *; try contradiction;
    rewrite Hsel; cbn [durable txn files locked trace driver fst snd negb str];
    rewrite <- !app_assoc;
    (destruct (PyStr.contains "FOREIGN KEY constraint" msg
               || PyStr.contains "constraint failed" (PyStr.lower msg));
     cbn [durable txn files locked trace driver fst snd]; repeat split).
  all: rewrite <- !app_assoc; reflexivity.
Qed.

Lemma delete_type_driver_error_witness :
  status_of 200
    (fst (ProductTypeRouter.delete_product_type 1 (ProductTypeRouter.Replied 200 "ok")
            (Sample.state [Run; Throw "The DELETE statement conflicted with the FOREIGN KEY constraint FK_Products"])))
  = HTTP_409_CONFLICT.
Proof.
  rewrite (proj1 (delete_type_driver_error 1 (ProductTypeRouter.Replied 200 "ok")
                    (Sample.state [Run; Throw "The DELETE statement conflicted with the FOREIGN KEY constraint FK_Products"])
                    (Store.mkProductType 1 "Pastry" 0) Run
                    "The DELETE statement conflicted with the FOREIGN KEY constraint FK_Products"
                    [] (or_introl eq_refl) eq_refl eq_refl I)).
  reflexivity.
Defined.

(** X7: when [update_product_type] fails, the POS service is not called; a
    rollback is among the effects exactly when the answer is 500; a 500 comes
    only from the driver raising on one of the four database calls, and
    carries the message of the driver; a failed validation (404, 400) is
    surfaced without a rollback. *)
Theorem update_type_failure_effects :
  forall (id : Z) (request : ProductTypeRouter.ProductTypeRequest)
         (peer : ProductTypeRouter.PeerReply) (st : State),
    failed (fst (ProductTypeRouter.update_product_type id request peer st)) = true ->
    exists evs,
      trace (snd (ProductTypeRouter.update_product_type id request peer st))
      = (trace st ++ evs)%list /\
      ~ In (EvPeer PUT id) evs /\
      (In EvRollback evs <->
       status_of 200 (fst (ProductTypeRouter.update_product_type id request peer st)) = 500) /\
      (status_of 200 (fst (ProductTypeRouter.update_product_type id request peer st)) = 500 ->
       exists msg,
         In (Throw msg) (firstn 4 (driver st)) /\
         fst (ProductTypeRouter.update_product_type id request peer st)
         = Raise (HTTPException 500 ("Failed to update in primary DB: " ++ msg))).
Proof.
  intros id request peer st.
  unfold ProductTypeRouter.update_product_type, ProductTypeRouter.sync_update,
    ProductTypeRouter.update_product_type_local, ProductTypeRouter.update_product_type_try.
  run_handler. by_cases.
  all: intros _; rewrite <- ?app_assoc; cbn [app]; eexists; (split; [reflexivity|]).
  all: cbn [status_of str fst]; unfold HTTP_500_INTERNAL_SERVER_ERROR.
  all: split; [intros H; cbn in H; intuition discriminate|].
  all: split; [split; intros H|intros H].
  all: first [ discriminate H
             | reflexivity
             | solve [cbn in H; intuition discriminate]
             | solve [cbn; auto 8]
             | eexists; split; [|reflexivity]; cbn; auto 8 ].
Qed.

Lemma update_type_failure_effects_witness :
  exists evs,
    trace (snd (ProductTypeRouter.update_product_type 2 (ProductTypeRouter.mkRequest "Juice" 1)
                  (ProductTypeRouter.Replied 200 "ok") (Sample.state [Run; Throw "timeout"])))
    = evs /\
    In EvRollback evs /\
    fst (ProductTypeRouter.update_product_type 2 (ProductTypeRouter.mkRequest "Juice" 1)
           (ProductTypeRouter.Replied 200 "ok") (Sample.state [Run; Throw "timeout"]))
    = Raise (HTTPException 500 "Failed to update in primary DB: timeout").
Proof.
  destruct (update_type_failure_effects 2 (ProductTypeRouter.mkRequest "Juice" 1)
              (ProductTypeRouter.Replied 200 "ok") (Sample.state [Run; Throw "timeout"])
              eq_refl) as (evs & Ht & _ & Hiff & _).
  exists evs. split; [exact Ht|]. split; [|reflexivity].
  apply Hiff. reflexivity.
Defined.

(** ** Stored image paths *)

Lemma prefix_app (a b : string) : String.prefix a (a ++ b) = true.
Proof.
  induction a as [|c a IH]; [apply prefix_nil|]. cbn [append]. now rewrite prefix_cons.
Qed.

Lemma new_path_prefixed (unique_filename : string) :
  PyStr.startswith ProductsRouter.IMAGE_DB_PATH_PREFIX
    (ProductsRouter.IMAGE_DB_PATH_PREFIX ++ "/" ++ unique_filename) = true.
Proof. apply prefix_app. Qed.

Lemma select_image_in (product_id : Z) (db : Store.DB) (image : option string) :
  ProductsRouter.select_image product_id db = Some image ->
  exists p, In p (Store.Products db) /\ Store.ProductID p = product_id /\
            Store.ProductImage p = image.
Proof.
  unfold ProductsRouter.select_image.
  destruct (filter _ _) as [|p l] eqn:E; [discriminate|]. intros [= <-].
  assert (H : In p (filter (fun p => Store.ProductID p =? product_id) (Store.Products db))).
  { rewrite E. now left. }
  apply filter_In in H. destruct H as [Hin Hid]. apply Z.eqb_eq in Hid. eauto.
Qed.

Lemma prefixed_after_insert (form : ProductsRouter.ProductForm) (image : option string)
    (db : Store.DB) :
  images_prefixed db ->
  (forall path, image = Some path ->
     PyStr.startswith ProductsRouter.IMAGE_DB_PATH_PREFIX path = true) ->
  images_prefixed (fst (ProductsRouter.insert_product form image db)).
Proof.
  intros Hi Hok p path. cbn. rewrite in_app_iff. cbn.
  intros [Hin|[<-|[]]] Hp; [now apply (Hi p) | now apply Hok].
Qed.

Lemma prefixed_after_update (form : ProductsRouter.ProductForm) (image : option string)
    (product_id : Z) (db : Store.DB) :
  images_prefixed db ->
  (forall path, image = Some path ->
     PyStr.startswith ProductsRouter.IMAGE_DB_PATH_PREFIX path = true) ->
  images_prefixed (fst (ProductsRouter.update_product_row form image product_id db)).
Proof.
  intros Hi Hok p path. cbn. rewrite in_map_iff. intros (q & <- & Hin).
  destruct (Store.ProductID q =? product_id); cbn; [apply Hok | now apply (Hi q)].
Qed.

Lemma prefixed_after_delete (product_id : Z) (db : Store.DB) :
  images_prefixed db -> images_prefixed (fst (ProductsRouter.delete_product_row product_id db)).
Proof.
  intros Hi p path. cbn. rewrite filter_In. intros [Hin _]. now apply (Hi p).
Qed.

Lemma prefixed_same_products (db db' : Store.DB) :
  Store.Products db' = Store.Products db -> images_prefixed db -> images_prefixed db'.
Proof. unfold images_prefixed. now intros ->. Qed.

Ltac same_products :=
  repeat match goal with
    | |- images_prefixed (fst (ProductsRouter.insert_size _ _ _)) =>
        eapply prefixed_same_products; [reflexivity|]
    | |- images_prefixed (fst (ProductsRouter.delete_sizes _ _)) =>
        eapply prefixed_same_products; [reflexivity|]
    | |- images_prefixed (fst (ProductsRouter.delete_size _ _ _)) =>
        eapply prefixed_same_products; [reflexivity|]
    | |- images_prefixed (fst (ProductTypeRouter.insert_type _ _ _)) =>
        eapply prefixed_same_products; [reflexivity|]
    | |- images_prefixed (fst (ProductTypeRouter.update_type _ _ _ _)) =>
        eapply prefixed_same_products; [reflexivity|]
    | |- images_prefixed (fst (ProductTypeRouter.delete_type _ _)) =>
        eapply prefixed_same_products; [reflexivity|]
    | |- images_prefixed (fst (ProductsRouter.delete_product_row _ _)) =>
        apply prefixed_after_delete
    end.

(** X8: every mutating operation keeps the stored image paths under the
    logical prefix [/product_images], however the driver behaves: a path
    written by create or update is the prefix, a slash and the generated file
    name, and an update without a file keeps the path the row had. *)
Theorem mutations_keep_images_prefixed :
  forall (base_url : string) (op : Mutation) (st : State),
    images_prefixed (durable st) ->
    images_prefixed (durable (snd (perform base_url op st))).
Proof.
  intros base_url op st Hi.
  destruct op; unfold perform; rewrite snd_outcome.
  - unfold ProductTypeRouter.create_product_type, ProductTypeRouter.create_product_type_try.
    run_handler. by_cases; name_writes; now same_products.
  - unfold ProductTypeRouter.update_product_type, ProductTypeRouter.sync_update,
      ProductTypeRouter.update_product_type_local, ProductTypeRouter.update_product_type_try.
    run_handler. by_cases; name_writes; now same_products.
  - unfold ProductTypeRouter.delete_product_type, ProductTypeRouter.sync_delete,
      ProductTypeRouter.delete_product_type_local, ProductTypeRouter.delete_product_type_try.
    run_handler. by_cases; name_writes; now same_products.
  - unfold ProductsRouter.create_new_product, ProductsRouter._get_product_type_details.
    run_handler. by_cases; name_writes; same_products; try assumption.
    all: apply prefixed_after_insert; [assumption|].
    all: intros path [= <-] || discriminate.
    all: apply new_path_prefixed.
  - unfold ProductsRouter.update_product, ProductsRouter._get_product_type_details.
    run_handler. by_cases; name_writes; same_products; try assumption.
    all: apply prefixed_after_update; [assumption|].
    all: try (intros path [= <-]; apply new_path_prefixed).
    all: match goal with
         | H : ProductsRouter.select_image _ _ = Some _ |- _ =>
             apply select_image_in in H; destruct H as (q & Hq & _ & <-)
         end.
    all: intros path Hpath; now apply (Hi q).
  - unfold ProductsRouter.delete_product.
    run_handler. by_cases; name_writes; now same_products.
  - unfold ProductsRouter.add_size_to_existing_product, ProductsRouter._get_product_type_details.
    run_handler. by_cases; name_writes; now same_products.
  - unfold ProductsRouter.delete_specific_size_from_product_is.
    run_handler. by_cases; name_writes; now same_products.
Qed.

Lemma sample_images_prefixed : images_prefixed Sample.db.
Proof.
  intros p path [<-|[<-|[]]]; cbn; intros [= <-]; reflexivity.
Qed.

Lemma mutations_keep_images_prefixed_witness :
  images_prefixed
    (durable (snd (perform Sample.base_url (UpdateProduct "u1" 2 Sample.croissant_new_image)
                     (Sample.state [])))).
Proof.
  apply (mutations_keep_images_prefixed Sample.base_url
           (UpdateProduct "u1" 2 Sample.croissant_new_image) (Sample.state [])).
  exact sample_images_prefixed.
Defined.

(** ** The product listings *)

Lemma sizes_in_listing (product_ids : list Z) (product_id : Z) (db : Store.DB) :
  In product_id product_ids ->
  ProductsRouter.sizes_by_product_id (ProductsRouter.select_sizes_in product_ids db) product_id
  = ProductsRouter.or_None (ProductsRouter.select_size_names product_id db).
Proof.
  intros Hin.
  unfold ProductsRouter.sizes_by_product_id, ProductsRouter.select_sizes_in,
    ProductsRouter.select_size_names.
  f_equal. f_equal.
  induction (Store.Size db) as [|s l IH]; [reflexivity|]. cbn [filter].
  destruct (Store.Size_ProductID s =? product_id) eqn:E.
  - apply Z.eqb_eq in E.
    assert (Hex : existsb (Z.eqb (Store.Size_ProductID s)) product_ids = true).
    { apply existsb_exists. exists product_id. split; [assumption|]. now apply Z.eqb_eq. }
    rewrite Hex. cbn [filter]. apply Z.eqb_eq in E. rewrite E. now rewrite IH.
  - destruct (existsb _ _); [cbn [filter]; rewrite E|]; exact IH.
Qed.

Lemma get_public_products_runs (base_url : string) (st : State) :
  no_throw 2 (driver st) ->
  fst (ProductsRouter.get_public_products base_url st)
  = Ok (map (ProductsRouter.listed_product base_url
               (ProductsRouter.select_sizes_in
                  (map (fun r => Store.ProductID (fst r))
                       (ProductsRouter.select_products (durable st)))
                  (durable st)))
            (ProductsRouter.select_products (durable st))).
Proof.
  intros Hn. unfold ProductsRouter.get_public_products. run_handler.
  destruct (driver st) as [|[|msg|] [|[|msg'|] ds]];
    cbn [durable txn files locked trace driver fst snd no_throw] in *; try contradiction;
    destruct (ProductsRouter.select_products (durable st)) as [|r rows];
    reflexivity.
Qed.

Lemma in_select_products (r : Store.ProductRow * Store.ProductTypeRow) (db : Store.DB) :
  In r (ProductsRouter.select_products db) <->
  In (fst r) (Store.Products db) /\ In (snd r) (Store.ProductType db) /\
  Store.ProductTypeID (fst r) = Store.productTypeID (snd r).
Proof.
  destruct r as [p pt]. unfold ProductsRouter.select_products.
  rewrite in_order_by, in_flat_map. cbn [fst snd]. split.
  - intros (q & Hq & H). apply in_map_iff in H. destruct H as (t & [= <- <-] & Ht).
    apply filter_In in Ht. destruct Ht as [Ht E]. apply Z.eqb_eq in E. auto.
  - intros (Hp & Hpt & E). exists p. split; [assumption|].
    apply in_map_iff. exists pt. split; [reflexivity|].
    apply filter_In. split; [assumption | now apply Z.eqb_eq].
Qed.

Lemma listed_product_of_joined_row (base_url : string) (db : Store.DB)
    (p : Store.ProductRow) (pt : Store.ProductTypeRow) :
  In (p, pt) (ProductsRouter.select_products db) ->
  ProductsRouter.listed_product base_url
    (ProductsRouter.select_sizes_in
       (map (fun r => Store.ProductID (fst r)) (ProductsRouter.select_products db)) db)
    (p, pt)
  = ProductsRouter.ProductOut.mk (Store.ProductID p) (Store.ProductName p)
      (Store.ProductTypeID p) (Store.productTypeName pt) (Store.ProductCategory p)
      (Store.ProductDescription p) (Store.ProductPrice p)
      (ProductsRouter._construct_full_url_for_is_response base_url (Store.ProductImage p))
      (ProductsRouter.or_None (ProductsRouter.select_size_names (Store.ProductID p) db))
      (negb (Store.SizeRequired pt =? 0)).
Proof.
  intros Hr. unfold ProductsRouter.listed_product. cbn [fst snd].
  rewrite sizes_in_listing.
  - f_equal. destruct (Z.eqb_spec (Store.ProductPrice p) 0) as [->|]; reflexivity.
  - apply in_map_iff. exists (p, pt). auto.
Qed.

(** A product that joins a ProductType is in the listing, with its sizes. *)
Lemma joined_row_is_listed (base_url : string) (st : State)
    (p : Store.ProductRow) (pt : Store.ProductTypeRow) :
  no_throw 2 (driver st) ->
  In p (Store.Products (durable st)) -> In pt (Store.ProductType (durable st)) ->
  Store.ProductTypeID p = Store.productTypeID pt ->
  exists listing,
    fst (ProductsRouter.get_all_products base_url st) = Ok listing /\
    In (ProductsRouter.ProductOut.mk (Store.ProductID p) (Store.ProductName p)
          (Store.ProductTypeID p) (Store.productTypeName pt) (Store.ProductCategory p)
          (Store.ProductDescription p) (Store.ProductPrice p)
          (ProductsRouter._construct_full_url_for_is_response base_url (Store.ProductImage p))
          (ProductsRouter.or_None
             (ProductsRouter.select_size_names (Store.ProductID p) (durable st)))
          (negb (Store.SizeRequired pt =? 0)))
       listing.
Proof.
  intros Hn Hp Hpt E. eexists. split; [now apply get_public_products_runs|].
  assert (Hr : In (p, pt) (ProductsRouter.select_products (durable st)))
    by (apply in_select_products; auto).
  apply in_map_iff. exists (p, pt). split; [now apply listed_product_of_joined_row | exact Hr].
Qed.

(** X9: a product listing (public or behind the token) whose two queries the
    driver runs answers with one entry per product that joins a ProductType;
    each entry carries the sizes of its own product, all of them and no
    others, or none when the product has no size, and the URL of its stored
    image; the store and the image directory are left as they are. *)
Theorem listing_shows_each_product_with_its_sizes :
  forall (base_url : string) (st : State),
    no_throw 2 (driver st) ->
    exists listing,
      fst (ProductsRouter.get_public_products base_url st) = Ok listing /\
      fst (ProductsRouter.get_all_products base_url st) = Ok listing /\
      List.length listing = List.length (ProductsRouter.select_products (durable st)) /\
      (forall p pt,
          In p (Store.Products (durable st)) -> In pt (Store.ProductType (durable st)) ->
          Store.ProductTypeID p = Store.productTypeID pt ->
          In (ProductsRouter.ProductOut.mk (Store.ProductID p) (Store.ProductName p)
                (Store.ProductTypeID p) (Store.productTypeName pt) (Store.ProductCategory p)
                (Store.ProductDescription p) (Store.ProductPrice p)
                (ProductsRouter._construct_full_url_for_is_response base_url
                   (Store.ProductImage p))
                (ProductsRouter.or_None
                   (ProductsRouter.select_size_names (Store.ProductID p) (durable st)))
                (negb (Store.SizeRequired pt =? 0)))
             listing) /\
      (forall out, In out listing ->
          exists p, In p (Store.Products (durable st)) /\
                    ProductsRouter.ProductOut.ProductID out = Store.ProductID p /\
                    ProductsRouter.ProductOut.ProductSizes out
                    = ProductsRouter.or_None
                        (ProductsRouter.select_size_names (Store.ProductID p) (durable st))) /\
      durable (snd (ProductsRouter.get_public_products base_url st)) = durable st /\
      files (snd (ProductsRouter.get_public_products base_url st)) = files st.
Proof.
  intros base_url st Hn. eexists. split; [now apply get_public_products_runs|].
  split; [now apply get_public_products_runs|].
  split; [now rewrite length_map|]. split; [|split].
  - intros p pt Hp Hpt E.
    assert (Hr : In (p, pt) (ProductsRouter.select_products (durable st)))
      by (apply in_select_products; auto).
    apply in_map_iff. exists (p, pt).
    split; [now apply listed_product_of_joined_row | exact Hr].
  - intros out Hout. apply in_map_iff in Hout. destruct Hout as ([p pt] & <- & Hr).
    exists p. split; [now apply in_select_products in Hr|].
    rewrite (listed_product_of_joined_row _ _ _ _ Hr). split; reflexivity.
  - unfold ProductsRouter.get_public_products. run_handler.
    by_cases; split; reflexivity.
Qed.

Lemma listing_shows_each_product_with_its_sizes_witness :
  exists listing,
    fst (ProductsRouter.get_all_products Sample.base_url (Sample.state [])) = Ok listing /\
    List.length listing = 2%nat.
Proof.
  destruct (listing_shows_each_product_with_its_sizes Sample.base_url (Sample.state []) I)
    as (listing & _ & Hall & Hlen & _).
  exists listing. split; [exact Hall | exact Hlen].
Defined.

(** ** Creating a product *)

Lemma select_name_category_free (product_name category : string) (db : Store.DB) :
  (forall p, In p (Store.Products db) ->
     ~ (Store.ProductName p = product_name /\ Store.ProductCategory p = category)) ->
  ProductsRouter.select_name_category product_name category db = false.
Proof.
  intros H. destruct (ProductsRouter.select_name_category product_name category db) eqn:E;
    [|reflexivity].
  apply existsb_exists in E. destruct E as (p & Hin & Hp).
  apply andb_true_iff in Hp. destruct Hp as [H1 H2].
  apply String.eqb_eq in H1, H2. now destruct (H p Hin).
Qed.

Lemma select_type_details_in (product_type_id : Z) (db : Store.DB)
    (details : ProductsRouter.TypeDetails) :
  ProductsRouter.select_type_details product_type_id db = Some details ->
  exists pt, In pt (Store.ProductType db) /\ Store.productTypeID pt = product_type_id /\
             details = ProductsRouter.mkDetails (Store.productTypeName pt)
                         (negb (Store.SizeRequired pt =? 0)).
Proof.
  unfold ProductsRouter.select_type_details.
  destruct (filter _ _) as [|pt l] eqn:E; [discriminate|]. intros [= <-].
  assert (H : In pt (filter (fun t => Store.productTypeID t =? product_type_id)
                       (Store.ProductType db))).
  { rewrite E. now left. }
  apply filter_In in H. destruct H as [Hin Hid]. apply Z.eqb_eq in Hid. eauto.
Qed.

Lemma no_sizes_of_fresh_product (db : Store.DB) :
  sizes_reference_products db ->
  filter (fun s => Store.Size_ProductID s
                   =? Store.fresh_id (map Store.ProductID (Store.Products db)))
         (Store.Size db) = [].
Proof.
  intros Href.
  assert (H : forall s, In s (Store.Size db) ->
                (Store.Size_ProductID s
                 =? Store.fresh_id (map Store.ProductID (Store.Products db))) = false).
  { intros s Hs. destruct (Href s Hs) as (p & Hp & E). apply Z.eqb_neq.
    pose proof (fresh_id_above (map Store.ProductID (Store.Products db)) (Store.ProductID p)
                  (in_map _ _ _ Hp)). lia. }
  induction (Store.Size db) as [|s l IH]; [reflexivity|]. cbn [filter].
  rewrite (H s (or_introl eq_refl)). apply IH. intros s' Hs'. apply H. now right.
Qed.

(** X10: creating a product whose (name, category) pair is free, whose
    ProductType exists and whose upload, if any, is an image with an accepted
    extension, with a driver that runs every call and a Size table that
    refers to existing products only, answers with an identifier above every
    identifier of the table; the product listing that follows contains the
    very entry the create answered with. *)
Theorem created_product_is_listed :
  forall (base_url uuid4 : string) (form : ProductsRouter.ProductForm) (st : State)
         (details : ProductsRouter.TypeDetails),
    driver st = [] ->
    (forall p, In p (Store.Products (durable st)) ->
       ~ (Store.ProductName p = ProductsRouter.ProductName form /\
          Store.ProductCategory p = ProductsRouter.ProductCategory form)) ->
    ProductsRouter.select_type_details (ProductsRouter.ProductTypeID form) (durable st)
    = Some details ->
    (forall file, ProductsRouter.ProductImageFile form = Some file ->
       PyStr.startswith "image/" (ProductsRouter.content_type file) = true /\
       existsb (String.eqb (PyStr.lower (PyStr.path_suffix (ProductsRouter.filename file))))
               [".png"; ".jpg"; ".jpeg"; ".gif"; ".webp"] = true) ->
    sizes_reference_products (durable st) ->
    exists out st',
      ProductsRouter.create_new_product base_url uuid4 form st = (Ok out, st') /\
      (forall p, In p (Store.Products (durable st)) ->
         Store.ProductID p < ProductsRouter.ProductOut.ProductID out) /\
      exists listing,
        fst (ProductsRouter.get_all_products base_url st') = Ok listing /\
        In out listing.
Proof.
  intros base_url uuid4 form st details Hd Hfree Htype Hfile Href.
  apply select_name_category_free in Hfree.
  destruct (select_type_details_in _ _ _ Htype) as (pt & Hpt & Hptid & ->).
  pose proof (no_sizes_of_fresh_product _ Href) as Hnone.
  set (id := Store.fresh_id (map Store.ProductID (Store.Products (durable st)))) in *.
  assert (Hlist : forall st' image sizes,
             driver st' = [] ->
             Store.ProductType (durable st') = Store.ProductType (durable st) ->
             Store.Products (durable st')
             = (Store.Products (durable st)
                ++ [Store.mkProduct id (ProductsRouter.ProductName form)
                      (ProductsRouter.ProductTypeID form) (ProductsRouter.ProductCategory form)
                      (ProductsRouter.ProductDescription form)
                      (ProductsRouter.ProductPrice form) image])%list ->
             ProductsRouter.or_None (ProductsRouter.select_size_names id (durable st')) = sizes ->
             exists listing,
               fst (ProductsRouter.get_all_products base_url st') = Ok listing /\
               In (ProductsRouter.ProductOut.mk id (ProductsRouter.ProductName form)
                     (ProductsRouter.ProductTypeID form) (Store.productTypeName pt)
                     (ProductsRouter.ProductCategory form)
                     (ProductsRouter.ProductDescription form) (ProductsRouter.ProductPrice form)
                     (ProductsRouter._construct_full_url_for_is_response base_url image)
                     sizes (negb (Store.SizeRequired pt =? 0))) listing).
  { intros st' image sizes Hd' Hty Hpr Hsz.
    destruct (joined_row_is_listed base_url st'
                (Store.mkProduct id (ProductsRouter.ProductName form)
                   (ProductsRouter.ProductTypeID form) (ProductsRouter.ProductCategory form)
                   (ProductsRouter.ProductDescription form)
                   (ProductsRouter.ProductPrice form) image) pt) as (listing & Hrun & Hin).
    - now rewrite Hd'.
    - rewrite Hpr. apply in_or_app. right. now left.
    - now rewrite Hty.
    - now symmetry.
    - exists listing. split; [exact Hrun|].
      cbn [Store.ProductID Store.ProductName Store.ProductTypeID Store.ProductCategory
           Store.ProductDescription Store.ProductPrice Store.ProductImage] in Hin.
      now rewrite Hsz in Hin. }
  assert (Hone : forall size db,
             Store.Size db = Store.Size (durable st) ->
             ProductsRouter.or_None
               (ProductsRouter.select_size_names id
                  (fst (ProductsRouter.insert_size id size db))) = Some [size]).
  { intros size db Hsame.
    unfold ProductsRouter.select_size_names, ProductsRouter.insert_size, Store.set_Size.
    cbn [fst Store.Size]. rewrite Hsame, filter_app, Hnone.
    cbn [filter app map Store.Size_ProductID Store.SizeName]. rewrite Z.eqb_refl.
    reflexivity. }
  assert (Hzero : forall db,
             Store.Size db = Store.Size (durable st) ->
             ProductsRouter.or_None (ProductsRouter.select_size_names id db) = None).
  { intros db Hsame. unfold ProductsRouter.select_size_names. now rewrite Hsame, Hnone. }
  unfold ProductsRouter.create_new_product, ProductsRouter._get_product_type_details.
  run_handler. rewrite Hd. cbn [durable txn files locked trace driver fst snd].
  rewrite Hfree. cbn [durable txn files locked trace driver fst snd].
  rewrite Htype. cbn [durable txn files locked trace driver fst snd].
  destruct (ProductsRouter.ProductImageFile form) as [file|] eqn:Hupload.
  - destruct (Hfile file eq_refl) as [Hct Hext]. rewrite Hct, Hext.
    cbn [negb durable txn files locked trace driver fst snd ProductsRouter.insert_product].
    destruct (ProductsRouter.stripped_size (ProductsRouter.ProductSize form)) as [size|];
      cbn [durable txn files locked trace driver fst snd ProductsRouter.insert_size option_map
           ProductsRouter.name ProductsRouter.size_required];
      (eexists; eexists; split; [reflexivity|]; split;
       [intros p Hp; apply fresh_id_above; now apply in_map|]);
      apply Hlist; try reflexivity.
    + now apply (Hone size).
    + now apply Hzero.
  - cbn [negb durable txn files locked trace driver fst snd ProductsRouter.insert_product].
    destruct (ProductsRouter.stripped_size (ProductsRouter.ProductSize form)) as [size|];
      cbn [durable txn files locked trace driver fst snd ProductsRouter.insert_size option_map
           ProductsRouter.name ProductsRouter.size_required];
      (eexists; eexists; split; [reflexivity|]; split;
       [intros p Hp; apply fresh_id_above; now apply in_map|]);
      apply Hlist; try reflexivity.
    + now apply (Hone size).
    + now apply Hzero.
Qed.

Lemma sample_sizes_reference_products : sizes_reference_products Sample.db.
Proof.
  intros s [<-|[<-|[]]]; exists (Store.mkProduct 1 "Latte" 2 "Coffee" None 120 None);
    cbn; auto.
Qed.

Lemma created_product_is_listed_witness :
  exists out st',
    ProductsRouter.create_new_product Sample.base_url "u1"
      (ProductsRouter.mkForm "Mocha" 2 "Coffee" None 130 (Some " Large ") None)
      (Sample.state [])
    = (Ok out, st') /\
    exists listing,
      fst (ProductsRouter.get_all_products Sample.base_url st') = Ok listing /\
      In out listing.
Proof.
  destruct (created_product_is_listed Sample.base_url "u1"
              (ProductsRouter.mkForm "Mocha" 2 "Coffee" None 130 (Some " Large ") None)
              (Sample.state []) (ProductsRouter.mkDetails "Drink" true))
    as (out & st' & Hrun & _ & Hlist).
  - reflexivity.
  - cbn. intros p [<-|[<-|[]]] [H _]; discriminate.
  - reflexivity.
  - discriminate.
  - exact sample_sizes_reference_products.
  - exists out, st'. split; assumption.
Defined.

(** X11: an upload that is not announced as an image, or whose file
    extension is not one of .png, .jpg, .jpeg, .gif, .webp, makes
    [create_new_product] answer 400 after the two checks on the store: no file
    is written, no row inserted, nothing committed. *)
Theorem create_rejects_bad_upload :
  forall (base_url uuid4 : string) (form : ProductsRouter.ProductForm) (st : State)
         (details : ProductsRouter.TypeDetails) (file : ProductsRouter.UploadFile),
    no_throw 2 (driver st) ->
    ProductsRouter.select_name_category (ProductsRouter.ProductName form)
      (ProductsRouter.ProductCategory form) (durable st) = false ->
    ProductsRouter.select_type_details (ProductsRouter.ProductTypeID form) (durable st)
    = Some details ->
    ProductsRouter.ProductImageFile form = Some file ->
    PyStr.startswith "image/" (ProductsRouter.content_type file) = false \/
    existsb (String.eqb (PyStr.lower (PyStr.path_suffix (ProductsRouter.filename file))))
            [".png"; ".jpg"; ".jpeg"; ".gif"; ".webp"] = false ->
    status_of 201 (fst (ProductsRouter.create_new_product base_url uuid4 form st))
    = HTTP_400_BAD_REQUEST /\
    files (snd (ProductsRouter.create_new_product base_url uuid4 form st)) = files st /\
    durable (snd (ProductsRouter.create_new_product base_url uuid4 form st)) = durable st /\
    trace (snd (ProductsRouter.create_new_product base_url uuid4 form st))
    = (trace st ++ [EvConnect; EvSql SELECT TProducts; EvSql SELECT TProductType; EvClose])%list.
Proof.
  intros base_url uuid4 form st details file Hn Hfree Htype Hupload Hbad.
  unfold ProductsRouter.create_new_product, ProductsRouter._get_product_type_details.
  run_handler.
  destruct (driver st) as [|[|msg|] [|[|msg'|] ds]];
    cbn [durable txn files locked trace driver fst snd no_throw] in *; try contradiction;
    rewrite Hfree; cbn [durable txn files locked trace driver fst snd];
    rewrite Htype, Hupload; cbn [durable txn files locked trace driver fst snd];
    rewrite <- !app_assoc;
    (destruct Hbad as [Hbad|Hbad];
     [rewrite Hbad
     |destruct (PyStr.startswith "image/" (ProductsRouter.content_type file)); [rewrite Hbad|]]);
    cbn [negb durable txn files locked trace driver fst snd status_of]; repeat split.
  all: rewrite <- !app_assoc; reflexivity.
Qed.

Lemma create_rejects_bad_upload_witness :
  status_of 201
    (fst (ProductsRouter.create_new_product Sample.base_url "u1"
            (ProductsRouter.mkForm "Mocha" 2 "Coffee" None 130 None
               (Some (ProductsRouter.mkUpload "mocha.svg" "image/svg+xml")))
            (Sample.state [])))
  = 400 /\
  files (snd (ProductsRouter.create_new_product Sample.base_url "u1"
                (ProductsRouter.mkForm "Mocha" 2 "Coffee" None 130 None
                   (Some (ProductsRouter.mkUpload "mocha.svg" "image/svg+xml")))
                (Sample.state [])))
  = ["old.png"].
Proof.
  destruct (create_rejects_bad_upload Sample.base_url "u1"
              (ProductsRouter.mkForm "Mocha" 2 "Coffee" None 130 None
                 (Some (ProductsRouter.mkUpload "mocha.svg" "image/svg+xml")))
              (Sample.state []) (ProductsRouter.mkDetails "Drink" true)
              (ProductsRouter.mkUpload "mocha.svg" "image/svg+xml"))
    as (Hs & Hf & _).
  - exact I.
  - reflexivity.
  - reflexivity.
  - reflexivity.
  - right. reflexivity.
  - split; [exact Hs | exact Hf].
Defined.

(** X12: when the image of a new product has been written and the INSERT
    into Products then makes the driver raise, [create_new_product] fails with
    the error of the driver; nothing is committed, and the file it wrote
    stays in the image directory. *)
Theorem create_failure_leaves_written_image :
  forall (base_url uuid4 : string) (form : ProductsRouter.ProductForm) (st : State)
         (details : ProductsRouter.TypeDetails) (file : ProductsRouter.UploadFile)
         (d1 d2 : Driver) (msg : string) (ds : list Driver),
    driver st = d1 :: d2 :: Throw msg :: ds -> no_throw 2 (driver st) ->
    ProductsRouter.select_name_category (ProductsRouter.ProductName form)
      (ProductsRouter.ProductCategory form) (durable st) = false ->
    ProductsRouter.select_type_details (ProductsRouter.ProductTypeID form) (durable st)
    = Some details ->
    ProductsRouter.ProductImageFile form = Some file ->
    PyStr.startswith "image/" (ProductsRouter.content_type file) = true ->
    existsb (String.eqb (PyStr.lower (PyStr.path_suffix (ProductsRouter.filename file))))
            [".png"; ".jpg"; ".jpeg"; ".gif"; ".webp"] = true ->
    fst (ProductsRouter.create_new_product base_url uuid4 form st) = Raise (Exception msg) /\
    durable (snd (ProductsRouter.create_new_product base_url uuid4 form st)) = durable st /\
    files (snd (ProductsRouter.create_new_product base_url uuid4 form st))
    = (uuid4 ++ PyStr.lower (PyStr.path_suffix (ProductsRouter.filename file))) :: files st.
Proof.
  intros base_url uuid4 form st details file d1 d2 msg ds Hd Hn Hfree Htype Hupload Hct Hext.
  unfold ProductsRouter.create_new_product, ProductsRouter._get_product_type_details.
  run_handler. rewrite Hd in *.
  destruct d1, d2; cbn [durable txn files locked trace driver fst snd no_throw] in *;
    try contradiction;
    rewrite Hfree; cbn [durable txn files locked trace driver fst snd];
    rewrite Htype, Hupload, Hct, Hext; cbn [negb durable txn files locked trace driver fst snd];
    repeat split; auto.
Qed.

Lemma create_failure_leaves_written_image_witness :
  files (snd (ProductsRouter.create_new_product Sample.base_url "u1"
                (ProductsRouter.mkForm "Mocha" 2 "Coffee" None 130 None
                   (Some (ProductsRouter.mkUpload "Mocha.JPG" "image/jpeg")))
                (Sample.state [Run; Run; Throw "deadlock"])))
  = ["u1.jpg"; "old.png"] /\
  durable (snd (ProductsRouter.create_new_product Sample.base_url "u1"
                  (ProductsRouter.mkForm "Mocha" 2 "Coffee" None 130 None
                     (Some (ProductsRouter.mkUpload "Mocha.JPG" "image/jpeg")))
                  (Sample.state [Run; Run; Throw "deadlock"])))
  = Sample.db.
Proof.
  destruct (create_failure_leaves_written_image Sample.base_url "u1"
              (ProductsRouter.mkForm "Mocha" 2 "Coffee" None 130 None
                 (Some (ProductsRouter.mkUpload "Mocha.JPG" "image/jpeg")))
              (Sample.state [Run; Run; Throw "deadlock"])
              (ProductsRouter.mkDetails "Drink" true)
              (ProductsRouter.mkUpload "Mocha.JPG" "image/jpeg")
              Run Run "deadlock" [])
    as (_ & Hd & Hf); try reflexivity; try exact I.
  split; [exact Hf | exact Hd].
Defined.

(** ** Deleting a product *)

Lemma filter_absent (name : string) (l : list string) :
  existsb (String.eqb name) l = false ->
  filter (fun f => negb (f =? name)%string) l = l.
Proof.
  induction l as [|h t IH]; [reflexivity|]. cbn [existsb filter].
  intros H. apply orb_false_iff in H. destruct H as [H1 H2].
  rewrite String.eqb_sym, H1. cbn. now rewrite IH.
Qed.

(** X13: deleting a product that exists, with a driver that runs every call
    and an image file [os.remove] does not refuse, removes the rows with that
    identifier and every Size row of the product, touches no other product
    and no other size, and leaves the image directory without the file of the
    stored path. *)
Theorem deleted_product_is_gone :
  forall (product_id : Z) (st : State) (image : option string),
    driver st = [] ->
    ProductsRouter.select_image product_id (durable st) = Some image ->
    removable st image ->
    failed (fst (ProductsRouter.delete_product product_id st)) = false /\
    Store.Products (durable (snd (ProductsRouter.delete_product product_id st)))
    = filter (fun p => negb (Store.ProductID p =? product_id)) (Store.Products (durable st)) /\
    Store.Size (durable (snd (ProductsRouter.delete_product product_id st)))
    = filter (fun s => negb (Store.Size_ProductID s =? product_id)) (Store.Size (durable st)) /\
    Store.ProductType (durable (snd (ProductsRouter.delete_product product_id st)))
    = Store.ProductType (durable st) /\
    files (snd (ProductsRouter.delete_product product_id st))
    = match image with
      | Some path =>
          if PyStr.truthy path
          then filter (fun f => negb (f =? PyStr.path_name path)%string) (files st)
          else files st
      | None => files st
      end.
Proof.
  intros product_id st image Hd Himage Hrem.
  unfold ProductsRouter.delete_product. run_handler.
  rewrite Hd. cbn [durable txn files locked trace driver fst snd].
  rewrite Himage.
  cbn [durable txn files locked trace driver fst snd ProductsRouter.delete_sizes
       ProductsRouter.delete_product_row].
  destruct image as [path|]; [destruct (PyStr.truthy path) eqn:Ht|];
    cbn [durable txn files locked trace driver fst snd failed];
    try (repeat split; reflexivity).
  assert (Hok : remove_error (locked st) (PyStr.path_name path) = None).
  { apply (Hrem path eq_refl). intros ->. discriminate. }
  unfold path_exists. cbn [durable txn files locked trace driver fst snd].
  rewrite Hok, orb_false_r.
  destruct (existsb (String.eqb (PyStr.path_name path)) (files st)) eqn:E;
    cbn [durable txn files locked trace driver fst snd failed];
    repeat split; try reflexivity.
  symmetry. now apply filter_absent.
Qed.

Lemma deleted_product_is_gone_witness :
  map Store.ProductID
      (Store.Products (durable (snd (ProductsRouter.delete_product 2 (Sample.state [])))))
  = [1] /\
  files (snd (ProductsRouter.delete_product 2 (Sample.state []))) = [].
Proof.
  destruct (deleted_product_is_gone 2 (Sample.state []) (Some "/product_images/old.png")
              eq_refl eq_refl) as (_ & Hp & _ & _ & Hf).
  { intros path [= <-] _. reflexivity. }
  split; [rewrite Hp | rewrite Hf]; reflexivity.
Defined.

(** X14: a [delete_product] that fails has removed no file.  It has
    committed nothing unless it got as far as the commit; then what failed is
    the removal of the image file, which comes after the commit: the request
    ends in the error of [os.remove] (an answer of 500) with the deletion
    committed.  That does happen: with the product found, a driver that runs
    every call and an image file [os.remove] refuses, the rows of the product
    and its sizes are gone from the committed store and the file is still in
    the directory. *)
Theorem failed_delete_keeps_image :
  forall (product_id : Z) (st : State),
    (failed (fst (ProductsRouter.delete_product product_id st)) = true ->
     files (snd (ProductsRouter.delete_product product_id st)) = files st /\
     exists evs,
       trace (snd (ProductsRouter.delete_product product_id st)) = (trace st ++ evs)%list /\
       (forall name, ~ In (EvRemoveFile name) evs) /\
       (~ In EvCommit evs ->
        durable (snd (ProductsRouter.delete_product product_id st)) = durable st) /\
       (In EvCommit evs ->
        exists path msg,
          ProductsRouter.select_image product_id (durable st) = Some (Some path) /\
          path <> "" /\
          remove_error (locked st) (PyStr.path_name path) = Some msg /\
          fst (ProductsRouter.delete_product product_id st) = Raise (Exception msg))) /\
    (forall path msg,
        driver st = [] ->
        ProductsRouter.select_image product_id (durable st) = Some (Some path) ->
        path <> "" ->
        remove_error (locked st) (PyStr.path_name path) = Some msg ->
        fst (ProductsRouter.delete_product product_id st) = Raise (Exception msg) /\
        Store.Products (durable (snd (ProductsRouter.delete_product product_id st)))
        = filter (fun p => negb (Store.ProductID p =? product_id))
                 (Store.Products (durable st)) /\
        Store.Size (durable (snd (ProductsRouter.delete_product product_id st)))
        = filter (fun s => negb (Store.Size_ProductID s =? product_id))
                 (Store.Size (durable st)) /\
        files (snd (ProductsRouter.delete_product product_id st)) = files st).
Proof.
  intros product_id st. split.
  - unfold ProductsRouter.delete_product. run_handler. by_cases.
    all: intros _; rewrite <- ?app_assoc; cbn [app].
    all: split; [reflexivity|].
    all: eexists; split; [reflexivity|].
    all: split; [intros name H; cbn in H; intuition discriminate|].
    all: split.
    all: try (intros _; reflexivity).
    all: try (intros H; cbn in H; intuition discriminate).
    all: match goal with
         | He : remove_error _ (PyStr.path_name ?p) = Some ?m |- _ =>
             intros _; exists p, m; split; [reflexivity|]; split; [intros ->; discriminate|];
             split; [exact He | reflexivity]
         end.
  - intros path msg Hd Himage Hne Herr.
    assert (Ht : PyStr.truthy path = true).
    { unfold PyStr.truthy. destruct (String.eqb_spec path ""); [contradiction | reflexivity]. }
    unfold ProductsRouter.delete_product. run_handler.
    rewrite Hd. cbn [durable txn files locked trace driver fst snd].
    rewrite Himage.
    cbn [durable txn files locked trace driver fst snd ProductsRouter.delete_sizes
         ProductsRouter.delete_product_row].
    rewrite Ht. unfold path_exists. cbn [durable txn files locked trace driver fst snd].
    rewrite Herr, orb_true_r. cbn [durable txn files locked trace driver fst snd].
    repeat split.
Qed.

Lemma failed_delete_keeps_image_witness :
  fst (ProductsRouter.delete_product 2 (Sample.state_locked []))
  = Raise (Exception "[Errno 13] Permission denied") /\
  map Store.ProductID
      (Store.Products (durable (snd (ProductsRouter.delete_product 2 (Sample.state_locked [])))))
  = [1] /\
  files (snd (ProductsRouter.delete_product 2 (Sample.state_locked []))) = ["old.png"] /\
  files (snd (ProductsRouter.delete_product 2 (Sample.state [Run; Run; Throw "deadlock"])))
  = ["old.png"].
Proof.
  destruct (proj2 (failed_delete_keeps_image 2 (Sample.state_locked []))
              "/product_images/old.png" "[Errno 13] Permission denied"
              eq_refl eq_refl ltac:(discriminate) eq_refl) as (Hr & Hp & _ & Hf).
  split; [exact Hr|]. split; [rewrite Hp; reflexivity|]. split; [exact Hf|].
  apply (proj1 (failed_delete_keeps_image 2 (Sample.state [Run; Run; Throw "deadlock"]))).
  reflexivity.
Defined.

(** ** The sizes of a product *)

Lemma select_product_true (product_id : Z) (db : Store.DB) (p : Store.ProductRow) :
  In p (Store.Products db) -> Store.ProductID p = product_id ->
  ProductsRouter.select_product product_id db = true.
Proof.
  intros Hin Hid. apply existsb_exists. exists p. split; [assumption | now apply Z.eqb_eq].
Qed.

Lemma select_product_false (product_id : Z) (db : Store.DB) :
  (forall p, In p (Store.Products db) -> Store.ProductID p <> product_id) ->
  ProductsRouter.select_product product_id db = false.
Proof.
  intros H. destruct (ProductsRouter.select_product product_id db) eqn:E; [|reflexivity].
  apply existsb_exists in E. destruct E as (p & Hin & Hid).
  apply Z.eqb_eq in Hid. now apply H in Hin.
Qed.

(** X15: the size listing of a product answers 404 when no product has the
    identifier, whatever Size rows carry it; for a product of the catalogue it
    answers with the Size rows of that product, each once, and with no
    other. *)
Theorem sizes_listing_is_the_products_rows :
  forall (product_id : Z) (st : State),
    (no_throw 1 (driver st) ->
     (forall p, In p (Store.Products (durable st)) -> Store.ProductID p <> product_id) ->
     fst (ProductsRouter.get_sizes_for_specific_product_is product_id st)
     = Raise (HTTPException HTTP_404_NOT_FOUND
                ("Product ID " ++ PyStr.str_of_int product_id ++ " not found."))) /\
    (no_throw 2 (driver st) ->
     forall p, In p (Store.Products (durable st)) -> Store.ProductID p = product_id ->
     exists listing,
       fst (ProductsRouter.get_sizes_for_specific_product_is product_id st) = Ok listing /\
       Permutation listing
         (map (fun r => ProductsRouter.ProductSizeOut.mk (Store.SizeID r)
                          (Store.Size_ProductID r) (Store.SizeName r))
              (filter (fun s => Store.Size_ProductID s =? product_id)
                      (Store.Size (durable st)))) /\
       forall out, In out listing -> ProductsRouter.ProductSizeOut.ProductID out = product_id).
Proof.
  intros product_id st. unfold ProductsRouter.get_sizes_for_specific_product_is. split.
  - intros Hn Hnone. apply select_product_false in Hnone. run_handler.
    destruct (driver st) as [|[|msg|] ds];
      cbn [durable txn files locked trace driver fst snd no_throw] in *; try contradiction;
      rewrite Hnone; reflexivity.
  - intros Hn p Hp Hid. pose proof (select_product_true _ _ _ Hp Hid) as Hsel. run_handler.
    destruct (driver st) as [|[|msg|] [|[|msg'|] ds]];
      cbn [durable txn files locked trace driver fst snd no_throw] in *; try contradiction;
      rewrite Hsel; cbn [negb durable txn files locked trace driver fst snd];
      (eexists; split; [reflexivity|]; split;
       [apply Permutation_map, perm_order_by|]);
      intros out Hout; apply in_map_iff in Hout; destruct Hout as (r & <- & Hr);
      apply in_order_by, filter_In in Hr; destruct Hr as [_ Hr];
      now apply Z.eqb_eq in Hr.
Qed.

Lemma sizes_listing_is_the_products_rows_witness :
  fst (ProductsRouter.get_sizes_for_specific_product_is 7 (Sample.state []))
  = Raise (HTTPException 404 "Product ID 7 not found.") /\
  exists listing,
    fst (ProductsRouter.get_sizes_for_specific_product_is 1 (Sample.state [])) = Ok listing /\
    Permutation listing [ProductsRouter.ProductSizeOut.mk 1 1 "Small";
                         ProductsRouter.ProductSizeOut.mk 2 1 "Large"].
Proof.
  split.
  - apply (proj1 (sizes_listing_is_the_products_rows 7 (Sample.state [])) I).
    cbn. intros p [<-|[<-|[]]]; discriminate.
  - destruct (proj2 (sizes_listing_is_the_products_rows 1 (Sample.state [])) I
                (Store.mkProduct 1 "Latte" 2 "Coffee" None 120 None))
      as (listing & Hrun & Hperm & _).
    + cbn. auto.
    + reflexivity.
    + exists listing. split; [exact Hrun | exact Hperm].
Defined.

Lemma select_size_after_insert (product_id : Z) (size_name : string) (db : Store.DB) :
  ProductsRouter.select_size product_id size_name
    (fst (ProductsRouter.insert_size product_id size_name db)) = true.
Proof.
  unfold ProductsRouter.select_size. cbn. rewrite existsb_app. cbn.
  now rewrite Z.eqb_refl, String.eqb_refl, orb_true_r.
Qed.

(** X16: once [add_size_to_existing_product] has added a size, adding to the
    same product a name that trims to the same text is refused with 409, and
    the Size table stays as the first request left it. *)
Theorem second_add_of_a_size_conflicts :
  forall (product_id : Z) (size_name again : string) (st st' : State)
         (out : ProductsRouter.ProductSizeOut.t),
    driver st = [] ->
    ProductsRouter.add_size_to_existing_product product_id size_name st = (Ok out, st') ->
    PyStr.strip again = PyStr.strip size_name ->
    fst (ProductsRouter.add_size_to_existing_product product_id again st')
    = Raise (HTTPException HTTP_409_CONFLICT
               ("Size '" ++ PyStr.strip size_name ++ "' already exists for this product.")) /\
    durable (snd (ProductsRouter.add_size_to_existing_product product_id again st'))
    = durable st'.
Proof.
  intros product_id size_name again st st' out Hd.
  unfold ProductsRouter.add_size_to_existing_product, ProductsRouter._get_product_type_details.
  run_handler. rewrite Hd. cbn [durable txn files locked trace driver fst snd].
  destruct (ProductsRouter.select_type_details product_id (durable st)) as [details|] eqn:Ht;
    [destruct (ProductsRouter.size_required details) eqn:Hreq|];
    cbn [negb durable txn files locked trace driver fst snd]; try discriminate.
  destruct (PyStr.truthy (PyStr.strip size_name)) eqn:Hname;
    cbn [negb durable txn files locked trace driver fst snd]; [|discriminate].
  destruct (ProductsRouter.select_size product_id (PyStr.strip size_name) (durable st));
    cbn [durable txn files locked trace driver fst snd ProductsRouter.insert_size]; [discriminate|].
  intros [= <- <-] Hagain. rewrite Hagain.
  cbn [durable txn files locked trace driver fst snd].
  change (ProductsRouter.select_type_details product_id
            (Store.set_Size _ (durable st)))
    with (ProductsRouter.select_type_details product_id (durable st)).
  rewrite Ht, Hreq, Hname. cbn [negb durable txn files locked trace driver fst snd].
  pose proof (select_size_after_insert product_id (PyStr.strip size_name) (durable st)) as Hs.
  cbn [fst ProductsRouter.insert_size] in Hs. rewrite Hs. split; reflexivity.
Qed.

Lemma second_add_of_a_size_conflicts_witness :
  exists out st',
    ProductsRouter.add_size_to_existing_product 2 " Large" (Sample.state []) = (Ok out, st') /\
    fst (ProductsRouter.add_size_to_existing_product 2 "Large  " st')
    = Raise (HTTPException 409 "Size 'Large' already exists for this product.").
Proof.
  eexists. eexists. split; [reflexivity|].
  apply (second_add_of_a_size_conflicts 2 " Large" "Large  " (Sample.state []) _ _ eq_refl eq_refl).
  reflexivity.
Defined.

Lemma filter_keeps_all {A} (p : A -> bool) (l : list A) :
  (forall x, In x l -> p x = true) -> filter p l = l.
Proof.
  induction l as [|h t IH]; [reflexivity|]. intros H. cbn [filter].
  rewrite (H h (or_introl eq_refl)). f_equal. apply IH. intros x Hx. apply H. now right.
Qed.

(** Deleting a size that is there. *)
Lemma delete_size_found (product_id size_id : Z) (st : State) (s : Store.SizeRow) :
  driver st = [] ->
  In s (Store.Size (durable st)) ->
  Store.SizeID s = size_id -> Store.Size_ProductID s = product_id ->
  failed (fst (ProductsRouter.delete_specific_size_from_product_is product_id size_id st))
  = false /\
  Store.Size
    (durable (snd (ProductsRouter.delete_specific_size_from_product_is product_id size_id st)))
  = filter (fun s' => negb ((Store.SizeID s' =? size_id)
                            && (Store.Size_ProductID s' =? product_id)))
           (Store.Size (durable st)).
Proof.
  intros Hd Hin Hsid Hpid.
  unfold ProductsRouter.delete_specific_size_from_product_is. run_handler.
  rewrite Hd. cbn [durable txn files locked trace driver fst snd ProductsRouter.delete_size].
  rewrite (rowcount_found _ _ s Hin)
    by (apply andb_true_iff; split; now apply Z.eqb_eq).
  cbn [durable txn files locked trace driver fst snd failed]. split; reflexivity.
Qed.

(** X17: deleting a size, with a driver that runs every call, succeeds when
    a Size row has both the size identifier and the product identifier, and
    then removes the rows that have both and no other; when no row has both
    (the size belongs to another product, or to none) it answers 404 and
    commits nothing. *)
Theorem delete_size_outcome :
  forall (product_id size_id : Z) (st : State),
    driver st = [] ->
    (forall s, In s (Store.Size (durable st)) ->
       Store.SizeID s = size_id -> Store.Size_ProductID s = product_id ->
       failed (fst (ProductsRouter.delete_specific_size_from_product_is product_id size_id st))
       = false /\
       Store.Size
         (durable (snd (ProductsRouter.delete_specific_size_from_product_is product_id size_id st)))
       = filter (fun s' => negb ((Store.SizeID s' =? size_id)
                                 && (Store.Size_ProductID s' =? product_id)))
                (Store.Size (durable st))) /\
    ((forall s, In s (Store.Size (durable st)) ->
        ~ (Store.SizeID s = size_id /\ Store.Size_ProductID s = product_id)) ->
     fst (ProductsRouter.delete_specific_size_from_product_is product_id size_id st)
     = Raise (HTTPException HTTP_404_NOT_FOUND
                ("Size ID " ++ PyStr.str_of_int size_id ++ " not found for product ID "
                 ++ PyStr.str_of_int product_id ++ ".")) /\
     durable (snd (ProductsRouter.delete_specific_size_from_product_is product_id size_id st))
     = durable st).
Proof.
  intros product_id size_id st Hd. split.
  - intros s Hin Hsid Hpid. now apply (delete_size_found product_id size_id st s).
  - intros Hnone.
    unfold ProductsRouter.delete_specific_size_from_product_is. run_handler.
    rewrite Hd. cbn [durable txn files locked trace driver fst snd ProductsRouter.delete_size].
    assert (E : filter (fun s => (Store.SizeID s =? size_id)
                                 && (Store.Size_ProductID s =? product_id))
                  (Store.Size (durable st)) = []).
    { destruct (filter _ _) as [|s l] eqn:E; [reflexivity|].
      assert (Hs : In s (filter (fun s => (Store.SizeID s =? size_id)
                                          && (Store.Size_ProductID s =? product_id))
                           (Store.Size (durable st)))) by (rewrite E; now left).
      apply filter_In in Hs. destruct Hs as [Hin H].
      apply andb_true_iff in H. destruct H as [H1 H2]. apply Z.eqb_eq in H1, H2.
      now destruct (Hnone s Hin). }
    unfold ProductTypeRouter.rowcount. rewrite E.
    cbn [List.length Z.of_nat Z.eqb durable txn files locked trace driver fst snd]. split; reflexivity.
Qed.

Lemma delete_size_outcome_witness :
  map Store.SizeID
    (Store.Size (durable (snd (ProductsRouter.delete_specific_size_from_product_is 1 2
                                 (Sample.state [])))))
  = [1] /\
  fst (ProductsRouter.delete_specific_size_from_product_is 2 1 (Sample.state []))
  = Raise (HTTPException 404 "Size ID 1 not found for product ID 2.").
Proof.
  split.
  - rewrite (proj2 (proj1 (delete_size_outcome 1 2 (Sample.state []) eq_refl)
                      (Store.mkSize 2 1 "Large") (or_intror (or_introl eq_refl))
                      eq_refl eq_refl)).
    reflexivity.
  - apply (proj2 (delete_size_outcome 2 1 (Sample.state []) eq_refl)).
    cbn. intros s [<-|[<-|[]]] [H1 H2]; discriminate.
Defined.

(** X18: a size added by [add_size_to_existing_product] can be deleted under
    the identifier the handler answered with, and the Size table is then the
    one before the two requests; no other table has changed. *)
Theorem added_size_can_be_deleted :
  forall (product_id : Z) (size_name : string) (st st' : State)
         (out : ProductsRouter.ProductSizeOut.t),
    driver st = [] ->
    ProductsRouter.add_size_to_existing_product product_id size_name st = (Ok out, st') ->
    failed (fst (ProductsRouter.delete_specific_size_from_product_is product_id
                   (ProductsRouter.ProductSizeOut.SizeID out) st')) = false /\
    Store.Size (durable (snd (ProductsRouter.delete_specific_size_from_product_is product_id
                                (ProductsRouter.ProductSizeOut.SizeID out) st')))
    = Store.Size (durable st) /\
    Store.Products (durable (snd (ProductsRouter.delete_specific_size_from_product_is product_id
                                    (ProductsRouter.ProductSizeOut.SizeID out) st')))
    = Store.Products (durable st) /\
    Store.ProductType (durable (snd (ProductsRouter.delete_specific_size_from_product_is
                                       product_id (ProductsRouter.ProductSizeOut.SizeID out) st')))
    = Store.ProductType (durable st).
Proof.
  intros product_id size_name st st' out Hd.
  unfold ProductsRouter.add_size_to_existing_product, ProductsRouter._get_product_type_details.
  run_handler. rewrite Hd. cbn [durable txn files locked trace driver fst snd].
  destruct (ProductsRouter.select_type_details product_id (durable st)) as [details|];
    [destruct (ProductsRouter.size_required details)|];
    cbn [negb durable txn files locked trace driver fst snd]; try discriminate.
  destruct (PyStr.truthy (PyStr.strip size_name));
    cbn [negb durable txn files locked trace driver fst snd]; [|discriminate].
  destruct (ProductsRouter.select_size product_id (PyStr.strip size_name) (durable st));
    cbn [durable txn files locked trace driver fst snd ProductsRouter.insert_size]; [discriminate|].
  intros [= <- <-]. cbn [ProductsRouter.ProductSizeOut.SizeID].
  set (id := Store.fresh_id (map Store.SizeID (Store.Size (durable st)))).
  match goal with
  | |- context [ProductsRouter.delete_specific_size_from_product_is _ _ ?s] =>
      pose proof (delete_size_found product_id id s
                    (Store.mkSize id product_id (PyStr.strip size_name)) eq_refl) as Hok
  end.
  cbn [durable Store.Size Store.set_Size Store.SizeID Store.Size_ProductID] in Hok.
  destruct Hok as [Hf Hs]; [apply in_or_app; right; now left | reflexivity | reflexivity |].
  split; [exact Hf|]. split; [|split].
  - rewrite Hs, filter_app. cbn [filter Store.SizeID Store.Size_ProductID].
    rewrite !Z.eqb_refl. cbn [andb negb]. rewrite app_nil_r.
    apply filter_keeps_all. intros s Hin. apply negb_true_iff, andb_false_iff. left.
    apply Z.eqb_neq.
    pose proof (fresh_id_above (map Store.SizeID (Store.Size (durable st))) (Store.SizeID s)
                  (in_map _ _ _ Hin)). unfold id. lia.
  - unfold ProductsRouter.delete_specific_size_from_product_is. run_handler.
    by_cases; name_writes; reflexivity.
  - unfold ProductsRouter.delete_specific_size_from_product_is. run_handler.
    by_cases; name_writes; reflexivity.
Qed.

Lemma added_size_can_be_deleted_witness :
  exists out st',
    ProductsRouter.add_size_to_existing_product 2 "Large" (Sample.state []) = (Ok out, st') /\
    Store.Size (durable (snd (ProductsRouter.delete_specific_size_from_product_is 2
                                (ProductsRouter.ProductSizeOut.SizeID out) st')))
    = Sample.sizes.
Proof.
  eexists. eexists. split; [reflexivity|].
  apply (added_size_can_be_deleted 2 "Large" (Sample.state []) _ _ eq_refl eq_refl).
Defined.

(** ** Counting products *)

Lemma add_to_group_sum (category : string) (groups : list (string * Z)) :
  fold_right Z.add 0 (map snd (ProductsRouter.add_to_group category groups))
  = 1 + fold_right Z.add 0 (map snd groups).
Proof.
  induction groups as [|[c n] rest IH]; cbn [ProductsRouter.add_to_group]; [reflexivity|].
  destruct (category =? c)%string; cbn [map snd fold_right] in *; lia.
Qed.

Lemma add_to_group_keys (category : string) (groups : list (string * Z)) (c : string) :
  In c (map fst (ProductsRouter.add_to_group category groups)) <->
  c = category \/ In c (map fst groups).
Proof.
  induction groups as [|[c' n] rest IH]; cbn [ProductsRouter.add_to_group].
  - cbn. intuition.
  - destruct (String.eqb_spec category c') as [->|Hne]; cbn [map fst In] in *.
    + intuition.
    + rewrite IH. intuition.
Qed.

Lemma add_to_group_nodup (category : string) (groups : list (string * Z)) :
  NoDup (map fst groups) -> NoDup (map fst (ProductsRouter.add_to_group category groups)).
Proof.
  induction groups as [|[c n] rest IH]; cbn [ProductsRouter.add_to_group]; intros Hnd.
  - cbn. constructor; [intros []|constructor].
  - destruct (String.eqb_spec category c) as [->|Hne]; cbn [map fst] in *; [assumption|].
    inversion Hnd as [|x l Hnot Hnd']; subst. constructor; [|now apply IH].
    rewrite add_to_group_keys. intros [->|H]; [now apply Hne | contradiction].
Qed.

Lemma add_to_group_counts (category : string) (groups : list (string * Z))
    (f : string -> Z) :
  NoDup (map fst groups) ->
  (forall c n, In (c, n) groups -> n = f c) ->
  (forall c, ~ In c (map fst groups) -> f c = 0) ->
  forall c n, In (c, n) (ProductsRouter.add_to_group category groups) ->
              n = f c + (if (c =? category)%string then 1 else 0).
Proof.
  revert f. induction groups as [|[c' n'] rest IH]; cbn [ProductsRouter.add_to_group];
    intros f Hnd Hin Hout c n.
  - intros [[= <- <-]|[]]. rewrite String.eqb_refl, (Hout category); [reflexivity | intros []].
  - inversion Hnd as [|x l Hnot Hnd']; subst.
    destruct (String.eqb_spec category c') as [->|Hne]; cbn [In].
    + intros [[= <- <-]|H].
      * rewrite String.eqb_refl. rewrite (Hin c' n'); [reflexivity | now left].
      * destruct (String.eqb_spec c c') as [->|_].
        -- exfalso. apply Hnot. apply in_map_iff. exists (c', n). auto.
        -- rewrite (Hin c n); [lia | now right].
    + intros [[= <- <-]|H].
      * destruct (String.eqb_spec c' category) as [E|_]; [now symmetry in E|].
        rewrite (Hin c' n'); [lia | now left].
      * pose proof H as Hmem.
        apply (IH (fun x => if (x =? c')%string then 0 else f x)) in H; auto.
        -- destruct (String.eqb_spec c c') as [->|_]; [|exact H].
           exfalso. apply Hnot.
           assert (Hk : In c' (map fst (ProductsRouter.add_to_group category rest))).
           { apply in_map_iff. exists (c', n). auto. }
           apply add_to_group_keys in Hk. destruct Hk as [E|Hk]; [now symmetry in E|exact Hk].
        -- intros x m Hx. destruct (String.eqb_spec x c') as [->|_].
           ++ exfalso. apply Hnot. apply in_map_iff. exists (c', m). auto.
           ++ apply Hin. now right.
        -- intros x Hx. destruct (String.eqb_spec x c') as [->|Hxc]; [reflexivity|].
           apply Hout. cbn. intros [E|E]; [now symmetry in E | contradiction].
Qed.

Lemma category_counts_spec (products : list Store.ProductRow) :
  let groups := fold_right (fun p g => ProductsRouter.add_to_group (Store.ProductCategory p) g)
                           [] products in
  NoDup (map fst groups) /\
  fold_right Z.add 0 (map snd groups) = Z.of_nat (List.length products) /\
  (forall c, In c (map fst groups) <-> exists p, In p products /\ Store.ProductCategory p = c) /\
  (forall c n, In (c, n) groups ->
     n = Z.of_nat (List.length (filter (fun p => (Store.ProductCategory p =? c)%string) products))).
Proof.
  induction products as [|p l IH]; cbn [fold_right].
  - cbn. repeat split; try constructor; try contradiction.
    intros (p & [] & _).
  - destruct IH as (Hnd & Hsum & Hkeys & Hcnt). split; [|split; [|split]].
    + now apply add_to_group_nodup.
    + rewrite add_to_group_sum, Hsum. cbn [Datatypes.length]. lia.
    + intros c. rewrite add_to_group_keys, Hkeys. cbn [In]. split.
      * intros [->|(q & Hq & E)]; eauto.
      * intros (q & [<-|Hq] & E); [now left | right; eauto].
    + intros c n H.
      apply (add_to_group_counts _ _
               (fun c => Z.of_nat (List.length
                           (filter (fun p => (Store.ProductCategory p =? c)%string) l)))) in H;
        auto.
      * rewrite H. cbn [filter].
        destruct (String.eqb_spec c (Store.ProductCategory p)) as [->|Hne].
        -- rewrite String.eqb_refl. cbn [Datatypes.length]. lia.
        -- rewrite (proj2 (String.eqb_neq _ _)) by congruence. lia.
      * intros x Hx.
        destruct (filter (fun p0 => (Store.ProductCategory p0 =? x)%string) l) as [|q r] eqn:E;
          [reflexivity|].
        exfalso. apply Hx, Hkeys. exists q.
        assert (Hq : In q (filter (fun p0 => (Store.ProductCategory p0 =? x)%string) l))
          by (rewrite E; now left).
        apply filter_In in Hq. destruct Hq as [Hq Hc]. apply String.eqb_eq in Hc. auto.
Qed.

(** X19: the product count is the number of product rows; the inventory by
    category lists every category that has a product once, with the number of
    products of that category, and its counts add up to the product count. *)
Theorem inventory_counts_add_up :
  forall st : State,
    no_throw 1 (driver st) ->
    exists count groups,
      fst (ProductsRouter.get_product_count st) = Ok count /\
      fst (ProductsRouter.get_inventory_by_category st) = Ok groups /\
      count = Z.of_nat (List.length (Store.Products (durable st))) /\
      fold_right Z.add 0 (map snd groups) = count /\
      NoDup (map fst groups) /\
      (forall p, In p (Store.Products (durable st)) ->
         In (Store.ProductCategory p,
             Z.of_nat (List.length
                         (filter (fun q => (Store.ProductCategory q
                                            =? Store.ProductCategory p)%string)
                                 (Store.Products (durable st)))))
            groups) /\
      (forall c n, In (c, n) groups -> 0 < n).
Proof.
  intros st Hn.
  destruct (category_counts_spec (Store.Products (durable st))) as (Hnd & Hsum & Hkeys & Hcnt).
  exists (ProductsRouter.select_count (durable st)),
         (ProductsRouter.select_category_counts (durable st)).
  split; [|split].
  - unfold ProductsRouter.get_product_count. run_handler.
    destruct (driver st) as [|[|msg|] ds]; cbn in *; try contradiction; reflexivity.
  - unfold ProductsRouter.get_inventory_by_category. run_handler.
    destruct (driver st) as [|[|msg|] ds]; cbn in *; try contradiction; reflexivity.
  - unfold ProductsRouter.select_count, ProductsRouter.select_category_counts.
    split; [reflexivity|]. split; [exact Hsum|]. split; [exact Hnd|]. split.
    + intros p Hp.
      assert (Hk : In (Store.ProductCategory p)
                     (map fst (fold_right
                                 (fun p g => ProductsRouter.add_to_group (Store.ProductCategory p) g)
                                 [] (Store.Products (durable st))))) by (apply Hkeys; eauto).
      apply in_map_iff in Hk. destruct Hk as ([c n] & E & Hin). cbn in E. subst c.
      now rewrite <- (Hcnt _ _ Hin).
    + intros c n Hin. rewrite (Hcnt _ _ Hin).
      assert (Hk : In c (map fst (fold_right
                                    (fun p g => ProductsRouter.add_to_group (Store.ProductCategory p) g)
                                    [] (Store.Products (durable st))))).
      { apply in_map_iff. exists (c, n). auto. }
      apply Hkeys in Hk. destruct Hk as (p & Hp & E).
      assert (Hf : In p (filter (fun q => (Store.ProductCategory q =? c)%string)
                           (Store.Products (durable st)))).
      { apply filter_In. split; [assumption | now apply String.eqb_eq]. }
      destruct (filter _ _); [contradiction | cbn [Datatypes.length]; lia].
Qed.

Lemma inventory_counts_add_up_witness :
  exists count groups,
    fst (ProductsRouter.get_product_count (Sample.state [])) = Ok count /\
    fst (ProductsRouter.get_inventory_by_category (Sample.state [])) = Ok groups /\
    fold_right Z.add 0 (map snd groups) = count.
Proof.
  destruct (inventory_counts_add_up (Sample.state []) I)
    as (count & groups & Hc & Hg & _ & Hsum & _).
  exists count, groups. auto.
Defined.

(** ** Details of a product that is not there *)

Lemma filter_none {A} (p : A -> bool) (l : list A) :
  (forall x, In x l -> p x = false) -> filter p l = [].
Proof.
  induction l as [|h t IH]; [reflexivity|]. intros H. cbn [filter].
  rewrite (H h (or_introl eq_refl)). apply IH. intros x Hx. apply H. now right.
Qed.

(** X20: for an identifier no product has, the single-product details
    answer 500, whatever the driver does: the 404 the handler raises is caught
    by its own [except Exception] and replaced. *)
Theorem details_of_missing_product_answer_500 :
  forall (product_id : Z) (st : State),
    (forall p, In p (Store.Products (durable st)) -> Store.ProductID p <> product_id) ->
    fst (ProductsRouter.get_full_product_details product_id st)
    = Raise (HTTPException HTTP_500_INTERNAL_SERVER_ERROR
               "An error occurred while fetching product data.") /\
    durable (snd (ProductsRouter.get_full_product_details product_id st)) = durable st /\
    trace (snd (ProductsRouter.get_full_product_details product_id st))
    = (trace st ++ [EvConnect; EvSql SELECT TProducts; EvClose])%list.
Proof.
  intros product_id st Hnone.
  assert (E : ProductsRouter.select_details product_id (durable st) = []).
  { unfold ProductsRouter.select_details.
    rewrite filter_none; [reflexivity|].
    intros p Hp. apply Z.eqb_neq. now apply Hnone. }
  unfold ProductsRouter.get_full_product_details. run_handler.
  destruct (driver st) as [|[|msg|] ds]; cbn [durable txn files locked trace driver fst snd];
    rewrite ?E; cbn [durable txn files locked trace driver fst snd];
    rewrite <- !app_assoc; repeat split.
Qed.

Lemma details_of_missing_product_answer_500_witness :
  status_of 200 (fst (ProductsRouter.get_full_product_details 7 (Sample.state []))) = 500.
Proof.
  rewrite (proj1 (details_of_missing_product_answer_500 7 (Sample.state [])
                    ltac:(cbn; intros p [<-|[<-|[]]]; discriminate))).
  reflexivity.
Defined.

(** ** One connection per request *)

Lemma emits_try_except {A} (P : Event -> Prop) (m : M A) (h : Exn -> M A) :
  emits P m -> (forall e, emits P (h e)) -> emits P (try_except m h).
Proof.
  intros Hm Hh st. unfold try_except. destruct (Hm st) as (evs & Ht & HP).
  destruct (m st) as [[a|e] st1]; cbn [fst snd] in *; [eauto|].
  destruct (Hh e st1) as (evs' & Ht' & HP').
  exists (evs ++ evs')%list. rewrite Ht', Ht, app_assoc. split; [reflexivity|].
  apply Forall_app. auto.
Qed.

Lemma emits_try_except_reraising_http {A} (P : Event -> Prop) (m : M A) (h : Exn -> M A) :
  emits P m -> (forall e, emits P (h e)) -> emits P (try_except_reraising_http m h).
Proof.
  intros Hm Hh. apply emits_try_except; [assumption|].
  intros [c d|msg]; [apply emits_raise | apply Hh].
Qed.

Lemma bracketed_local {A} (Pin Pafter : Event -> Prop) (body : M A) :
  emits Pin body -> bracketed Pin Pafter (get_db_connection ;; try_finally body close).
Proof.
  intros Hb st. unfold bind, get_db_connection, try_finally.
  set (st1 := log EvConnect _).
  destruct (Hb st1) as (evs & Ht & HP). destruct (body st1) as [r st2]. cbn [fst snd] in *.
  exists evs, []. subst st1. cbn [trace log close] in *. rewrite Ht, <- !app_assoc.
  split; [reflexivity|]. split; [assumption | constructor].
Qed.

Lemma bracketed_then {A B} (Pin Pafter : Event -> Prop) (m : M A) (k : A -> M B) :
  bracketed Pin Pafter m -> (forall a, emits Pafter (k a)) -> bracketed Pin Pafter (bind m k).
Proof.
  intros Hm Hk st. unfold bind. destruct (Hm st) as (inside & after & Ht & Hin & Haf).
  destruct (m st) as [[a|e] st1]; cbn [fst snd] in *; [|eauto].
  destruct (Hk a st1) as (evs & Ht' & HP).
  exists inside, (after ++ evs)%list. rewrite Ht', Ht. split; [|split; [assumption|]].
  - rewrite <- !app_assoc. cbn [app]. rewrite <- !app_assoc. reflexivity.
  - apply Forall_app. auto.
Qed.

Lemma bracketed_request {A B} (Pin Pafter : Event -> Prop) (body : M A) (k : A -> M B) :
  emits Pin body -> (forall a, emits Pafter (k a)) ->
  bracketed Pin Pafter (get_db_connection ;; x <- try_finally body close ;; k x).
Proof.
  intros Hb Hk st.
  destruct (bracketed_then Pin Pafter (get_db_connection ;; try_finally body close) k
              (bracketed_local Pin Pafter body Hb) Hk st) as (inside & after & Ht & H).
  exists inside, after. split; [|exact H]. rewrite <- Ht.
  unfold bind, get_db_connection, try_finally. now destruct (body _) as [[a|e] st2].
Qed.

Lemma emits_sync_update (id : Z) (peer : ProductTypeRouter.PeerReply) :
  emits is_peer_call (ProductTypeRouter.sync_update id peer).
Proof.
  intros st. exists [EvPeer PUT id]. split; [reflexivity|].
  constructor; [now exists PUT, id | constructor].
Qed.

Lemma emits_sync_delete (id : Z) (peer : ProductTypeRouter.PeerReply) :
  emits is_peer_call (ProductTypeRouter.sync_delete id peer).
Proof.
  intros st. exists [EvPeer HTTP_DELETE id]. split; [reflexivity|].
  constructor; [now exists HTTP_DELETE, id | constructor].
Qed.

Ltac emits_more :=
  repeat first
    [ emits_step
    | apply emits_try_except_reraising_http
    | apply emits_try_except
    | apply emits_sync_update
    | apply emits_sync_delete
    | match goal with
      | |- inside_connection _ => split; discriminate
      | |- is_select _ => eexists; reflexivity
      end ].

Lemma bracketed_outcome {A} (Pin Pafter : Event -> Prop) (m : M A) (st : State) :
  bracketed Pin Pafter m ->
  exists inside after,
    trace (snd (outcome m st)) = (trace st ++ EvConnect :: inside ++ EvClose :: after)%list /\
    Forall Pin inside /\ Forall Pafter after.
Proof. intros H. rewrite snd_outcome. apply H. Qed.

(** X21: every mutating operation, however the driver behaves and whether it
    succeeds or fails, opens one connection and closes it once; every
    statement, commit and rollback and every file operation lies between the
    two, and nothing but the call to the POS service comes after the
    connection is closed. *)
Theorem mutations_release_the_connection :
  forall (base_url : string) (op : Mutation) (st : State),
    exists inside after,
      trace (snd (perform base_url op st))
      = (trace st ++ EvConnect :: inside ++ EvClose :: after)%list /\
      Forall inside_connection inside /\ Forall is_peer_call after.
Proof.
  intros base_url op st. destruct op; unfold perform; apply bracketed_outcome.
  - unfold ProductTypeRouter.create_product_type.
    apply bracketed_request; [unfold ProductTypeRouter.create_product_type_try|]; emits_more.
  - unfold ProductTypeRouter.update_product_type, ProductTypeRouter.update_product_type_local.
    apply bracketed_then; [apply bracketed_local|];
      [unfold ProductTypeRouter.update_product_type_try|]; emits_more.
  - unfold ProductTypeRouter.delete_product_type, ProductTypeRouter.delete_product_type_local.
    apply bracketed_then; [apply bracketed_local|];
      [unfold ProductTypeRouter.delete_product_type_try|]; emits_more.
  - unfold ProductsRouter.create_new_product, ProductsRouter._get_product_type_details.
    apply bracketed_local; emits_more.
  - unfold ProductsRouter.update_product, ProductsRouter._get_product_type_details.
    apply bracketed_local; emits_more.
  - unfold ProductsRouter.delete_product. apply bracketed_local; emits_more.
  - unfold ProductsRouter.add_size_to_existing_product, ProductsRouter._get_product_type_details.
    apply bracketed_local; emits_more.
  - unfold ProductsRouter.delete_specific_size_from_product_is.
    apply bracketed_local; emits_more.
Qed.

(** X22: every read operation, however the driver behaves, opens one
    connection, runs nothing but SELECT statements on it and closes it; it
    changes neither the committed store nor the image directory. *)
Theorem readings_only_select :
  forall (base_url : string) (q : Reading) (st : State),
    (exists inside,
       trace (snd (ask base_url q st)) = (trace st ++ EvConnect :: inside ++ [EvClose])%list /\
       Forall is_select inside) /\
    durable (snd (ask base_url q st)) = durable st /\
    files (snd (ask base_url q st)) = files st.
Proof.
  intros base_url q st. split.
  - assert (H : exists inside after,
                 trace (snd (ask base_url q st))
                 = (trace st ++ EvConnect :: inside ++ EvClose :: after)%list /\
                 Forall is_select inside /\ Forall no_event after).
    { destruct q; unfold ask; apply bracketed_outcome.
      - unfold ProductTypeRouter.get_product_types. apply bracketed_local; emits_more.
      - unfold ProductsRouter.get_public_products. apply bracketed_local; emits_more.
      - unfold ProductsRouter.get_all_products, ProductsRouter.get_public_products.
        apply bracketed_local; emits_more.
      - unfold ProductsRouter.get_all_full_product_details.
        apply bracketed_request; emits_more.
      - unfold ProductsRouter.get_full_product_details.
        apply bracketed_request; emits_more.
      - unfold ProductsRouter.get_sizes_for_specific_product_is.
        apply bracketed_local; emits_more.
      - unfold ProductsRouter.get_product_count. apply bracketed_local; emits_more.
      - unfold ProductsRouter.get_inventory_by_category. apply bracketed_local; emits_more. }
    destruct H as (inside & after & Ht & Hin & Haf).
    exists inside. split; [|assumption].
    destruct after as [|e after]; [assumption|]. inversion Haf as [|x l Hx]. destruct Hx.
  - destruct q; unfold ask; rewrite snd_outcome.
    + unfold ProductTypeRouter.get_product_types. run_handler. by_cases; split; reflexivity.
    + unfold ProductsRouter.get_public_products. run_handler. by_cases; split; reflexivity.
    + unfold ProductsRouter.get_all_products, ProductsRouter.get_public_products.
      run_handler. by_cases; split; reflexivity.
    + unfold ProductsRouter.get_all_full_product_details.
      run_handler. by_cases; split; reflexivity.
    + unfold ProductsRouter.get_full_product_details.
      run_handler. by_cases; split; reflexivity.
    + unfold ProductsRouter.get_sizes_for_specific_product_is.
      run_handler. by_cases; split; reflexivity.
    + unfold ProductsRouter.get_product_count. run_handler. by_cases; split; reflexivity.
    + unfold ProductsRouter.get_inventory_by_category.
      run_handler. by_cases; split; reflexivity.
Qed.

(** ** Updating a product *)

(** X23: [update_product] answers 400 when the ProductTypeID of the form
    names no ProductType, whether or not the product exists, and 404 when the
    type exists and the product does not; in both cases it has run only the
    look-ups: no file is written or removed, even when the form carries one,
    and nothing is committed. *)
Theorem update_refusals_write_nothing :
  forall (base_url uuid4 : string) (product_id : Z) (form : ProductsRouter.ProductForm)
         (st : State),
    (no_throw 1 (driver st) ->
     ProductsRouter.select_type_details (ProductsRouter.ProductTypeID form) (durable st) = None ->
     fst (ProductsRouter.update_product base_url uuid4 product_id form st)
     = Raise (HTTPException HTTP_400_BAD_REQUEST
                ("ProductTypeID " ++ PyStr.str_of_int (ProductsRouter.ProductTypeID form)
                 ++ " not found.")) /\
     files (snd (ProductsRouter.update_product base_url uuid4 product_id form st)) = files st /\
     durable (snd (ProductsRouter.update_product base_url uuid4 product_id form st))
     = durable st /\
     trace (snd (ProductsRouter.update_product base_url uuid4 product_id form st))
     = (trace st ++ [EvConnect; EvSql SELECT TProductType; EvClose])%list) /\
    (no_throw 2 (driver st) ->
     forall details,
       ProductsRouter.select_type_details (ProductsRouter.ProductTypeID form) (durable st)
       = Some details ->
       (forall p, In p (Store.Products (durable st)) -> Store.ProductID p <> product_id) ->
       fst (ProductsRouter.update_product base_url uuid4 product_id form st)
       = Raise (HTTPException HTTP_404_NOT_FOUND "Product not found.") /\
       files (snd (ProductsRouter.update_product base_url uuid4 product_id form st)) = files st /\
       durable (snd (ProductsRouter.update_product base_url uuid4 product_id form st))
       = durable st /\
       trace (snd (ProductsRouter.update_product base_url uuid4 product_id form st))
       = (trace st ++ [EvConnect; EvSql SELECT TProductType; EvSql SELECT TProducts;
                       EvClose])%list).
Proof.
  intros base_url uuid4 product_id form st.
  unfold ProductsRouter.update_product, ProductsRouter._get_product_type_details. split.
  - intros Hn Htype. run_handler.
    destruct (driver st) as [|[|msg|] ds];
      cbn [durable txn files locked trace driver fst snd no_throw] in *; try contradiction;
      rewrite Htype; cbn [durable txn files locked trace driver fst snd];
      rewrite <- !app_assoc; repeat split.
  - intros Hn details Htype Hnone.
    assert (Himage : ProductsRouter.select_image product_id (durable st) = None).
    { unfold ProductsRouter.select_image. rewrite filter_none; [reflexivity|].
      intros p Hp. apply Z.eqb_neq. now apply Hnone. }
    run_handler.
    destruct (driver st) as [|[|msg|] [|[|msg'|] ds]];
      cbn [durable txn files locked trace driver fst snd no_throw] in *; try contradiction;
      rewrite Htype; cbn [durable txn files locked trace driver fst snd];
      rewrite Himage; cbn [durable txn files locked trace driver fst snd];
      rewrite <- !app_assoc; repeat split.
Qed.

Lemma update_refusals_write_nothing_witness :
  fst (ProductsRouter.update_product Sample.base_url "u1" 2
         (ProductsRouter.mkForm "Croissant" 9 "Bakery" None 80 None (Some Sample.new_image))
         (Sample.state []))
  = Raise (HTTPException 400 "ProductTypeID 9 not found.") /\
  fst (ProductsRouter.update_product Sample.base_url "u1" 7 Sample.croissant_new_image
         (Sample.state []))
  = Raise (HTTPException 404 "Product not found.") /\
  files (snd (ProductsRouter.update_product Sample.base_url "u1" 7 Sample.croissant_new_image
                (Sample.state [])))
  = ["old.png"].
Proof.
  split; [|split].
  - apply (proj1 (update_refusals_write_nothing Sample.base_url "u1" 2
                    (ProductsRouter.mkForm "Croissant" 9 "Bakery" None 80 None
                       (Some Sample.new_image))
                    (Sample.state [])) I eq_refl).
  - apply (proj2 (update_refusals_write_nothing Sample.base_url "u1" 7
                    Sample.croissant_new_image (Sample.state [])) I
             (ProductsRouter.mkDetails "Pastry" false) eq_refl).
    cbn. intros p [<-|[<-|[]]]; discriminate.
  - apply (proj2 (update_refusals_write_nothing Sample.base_url "u1" 7
                    Sample.croissant_new_image (Sample.state [])) I
             (ProductsRouter.mkDetails "Pastry" false) eq_refl).
    cbn. intros p [<-|[<-|[]]]; discriminate.
Defined.

Lemma image_after_update (form : ProductsRouter.ProductForm) (image' image : option string)
    (product_id : Z) (l : list Store.ProductRow) :
  match filter (fun p => Store.ProductID p =? product_id) l with
  | current_product :: _ => Some (Store.ProductImage current_product)
  | [] => None
  end = Some image ->
  match filter (fun p => Store.ProductID p =? product_id)
               (map (fun p => if Store.ProductID p =? product_id
                              then Store.mkProduct (Store.ProductID p)
                                     (ProductsRouter.ProductName form)
                                     (ProductsRouter.ProductTypeID form)
                                     (ProductsRouter.ProductCategory form)
                                     (ProductsRouter.ProductDescription form)
                                     (ProductsRouter.ProductPrice form) image'
                              else p) l) with
  | current_product :: _ => Some (Store.ProductImage current_product)
  | [] => None
  end = Some image'.
Proof.
  induction l as [|p l IH]; cbn [map filter]; [discriminate|].
  destruct (Store.ProductID p =? product_id) eqn:E; cbn [Store.ProductID]; rewrite E.
  - reflexivity.
  - exact IH.
Qed.

(** X24: [update_product] stores whatever file the form carries: with the
    ProductType and the product found and a driver that runs every call, any
    upload, whatever its content type and file name, is written under the
    generated name followed by the lower-cased suffix of its file name,
    provided that name is not the file name of the image the product had and
    [os.remove] does not refuse the file of that image; the committed row
    names it and the answer carries its URL. *)
Theorem update_stores_any_upload :
  forall (base_url uuid4 : string) (product_id : Z) (form : ProductsRouter.ProductForm)
         (st : State) (details : ProductsRouter.TypeDetails) (image : option string)
         (file : ProductsRouter.UploadFile),
    driver st = [] ->
    ProductsRouter.select_type_details (ProductsRouter.ProductTypeID form) (durable st)
    = Some details ->
    ProductsRouter.select_image product_id (durable st) = Some image ->
    ProductsRouter.ProductImageFile form = Some file ->
    (forall old, image = Some old ->
       PyStr.path_name old
       <> uuid4 ++ PyStr.lower (PyStr.path_suffix (ProductsRouter.filename file))) ->
    removable st image ->
    exists out st',
      ProductsRouter.update_product base_url uuid4 product_id form st = (Ok out, st') /\
      In (uuid4 ++ PyStr.lower (PyStr.path_suffix (ProductsRouter.filename file))) (files st') /\
      ProductsRouter.select_image product_id (durable st')
      = Some (Some (ProductsRouter.IMAGE_DB_PATH_PREFIX ++ "/" ++ uuid4
                    ++ PyStr.lower (PyStr.path_suffix (ProductsRouter.filename file)))) /\
      ProductsRouter.ProductOut.ProductImage out
      = Some (base_url ++ ProductsRouter.IMAGE_URL_STATIC_PREFIX
              ++ ProductsRouter.IMAGE_DB_PATH_PREFIX ++ "/" ++ uuid4
              ++ PyStr.lower (PyStr.path_suffix (ProductsRouter.filename file))).
Proof.
  intros base_url uuid4 product_id form st details image file Hd Htype Himage Hupload Hnew
    Hrem.
  assert (Hok : forall path, image = Some path -> PyStr.truthy path = true ->
                  remove_error (locked st) (PyStr.path_name path) = None).
  { intros path Hpath Ht. apply (Hrem path Hpath). intros ->. discriminate. }
  clear Hrem.
  pose proof Himage as Hfirst. unfold ProductsRouter.select_image in Hfirst.
  unfold ProductsRouter.update_product, ProductsRouter._get_product_type_details.
  run_handler. rewrite Hd. cbn [durable txn files locked trace driver fst snd].
  rewrite Htype. cbn [durable txn files locked trace driver fst snd].
  rewrite Himage, Hupload. cbn [durable txn files locked trace driver fst snd].
  set (unique := uuid4 ++ PyStr.lower (PyStr.path_suffix (ProductsRouter.filename file))).
  assert (Hurl : ProductsRouter._construct_full_url_for_is_response base_url
                   (Some (ProductsRouter.IMAGE_DB_PATH_PREFIX ++ "/" ++ unique))
                 = Some (base_url ++ ProductsRouter.IMAGE_URL_STATIC_PREFIX
                         ++ ProductsRouter.IMAGE_DB_PATH_PREFIX ++ "/" ++ unique)).
  { reflexivity. }
  assert (Hkeep : forall name, (name =? unique)%string = false ->
                    In unique (filter (fun f => negb (f =? name)%string) (unique :: files st))).
  { intros name Hne. apply filter_In. split; [now left|].
    rewrite String.eqb_sym, Hne. reflexivity. }
  by_cases.
  all: try (exfalso;
            match goal with
            | He : remove_error _ _ = Some _ |- _ =>
                erewrite Hok in He by (eassumption || reflexivity); discriminate
            end).
  all: eexists; eexists; split; [reflexivity|].
  all: cbn [durable files ProductsRouter.ProductOut.ProductImage].
  all: name_writes.
  all: split; [|split; [|exact Hurl]].
  all: try (unfold ProductsRouter.select_image;
            cbn [fst ProductsRouter.insert_size ProductsRouter.delete_sizes Store.set_Size
                 Store.Products ProductsRouter.update_product_row Store.set_Products];
            eapply image_after_update; exact Hfirst).
  all: try (now left).
  all: apply Hkeep, String.eqb_neq; now apply Hnew.
Qed.

Lemma update_stores_any_upload_witness :
  exists out st',
    ProductsRouter.update_product Sample.base_url "u1" 2
      (ProductsRouter.mkForm "Croissant" 1 "Bakery" None 80 None
         (Some (ProductsRouter.mkUpload "notes.TXT" "text/plain")))
      (Sample.state [])
    = (Ok out, st') /\
    In "u1.txt" (files st') /\
    ProductsRouter.ProductOut.ProductImage out
    = Some "http://localhost:8001/static_files/product_images/u1.txt".
Proof.
  destruct (update_stores_any_upload Sample.base_url "u1" 2
              (ProductsRouter.mkForm "Croissant" 1 "Bakery" None 80 None
                 (Some (ProductsRouter.mkUpload "notes.TXT" "text/plain")))
              (Sample.state []) (ProductsRouter.mkDetails "Pastry" false)
              (Some "/product_images/old.png")
              (ProductsRouter.mkUpload "notes.TXT" "text/plain"))
    as (out & st' & Hrun & Hfile & _ & Hurl); try reflexivity.
  - intros old [= <-]. discriminate.
  - intros path [= <-] _. reflexivity.
  - exists out, st'. split; [exact Hrun|]. split; [exact Hfile | exact Hurl].
Defined.

Lemma other_rows_after_update (form : ProductsRouter.ProductForm) (image : option string)
    (product_id other : Z) (db : Store.DB) :
  other <> product_id ->
  filter (fun p => Store.ProductID p =? other)
         (Store.Products (fst (ProductsRouter.update_product_row form image product_id db)))
  = filter (fun p => Store.ProductID p =? other) (Store.Products db).
Proof.
  intros Hne. cbn [fst ProductsRouter.update_product_row Store.set_Products Store.Products].
  induction (Store.Products db) as [|p l IH]; [reflexivity|]. cbn [map filter].
  destruct (Z.eqb_spec (Store.ProductID p) product_id) as [E|E]; cbn [Store.ProductID].
  - rewrite E. rewrite (proj2 (Z.eqb_neq _ _)) by congruence. exact IH.
  - destruct (Store.ProductID p =? other); [f_equal|]; exact IH.
Qed.

Lemma other_sizes_after_delete (product_id other : Z) (db : Store.DB) :
  other <> product_id ->
  ProductsRouter.select_size_names other (fst (ProductsRouter.delete_sizes product_id db))
  = ProductsRouter.select_size_names other db.
Proof.
  intros Hne. unfold ProductsRouter.select_size_names.
  cbn [fst ProductsRouter.delete_sizes Store.set_Size Store.Size]. f_equal.
  induction (Store.Size db) as [|s l IH]; [reflexivity|]. cbn [filter].
  destruct (Z.eqb_spec (Store.Size_ProductID s) product_id) as [E|E]; cbn [negb filter].
  - rewrite E. rewrite (proj2 (Z.eqb_neq _ _)) by congruence. exact IH.
  - destruct (Store.Size_ProductID s =? other); [f_equal|]; exact IH.
Qed.

Lemma other_sizes_after_insert (product_id other : Z) (size_name : string) (db : Store.DB) :
  other <> product_id ->
  ProductsRouter.select_size_names other
    (fst (ProductsRouter.insert_size product_id size_name db))
  = ProductsRouter.select_size_names other db.
Proof.
  intros Hne. unfold ProductsRouter.select_size_names.
  cbn [fst ProductsRouter.insert_size Store.set_Size Store.Size].
  rewrite filter_app. cbn [filter Store.Size_ProductID].
  rewrite (proj2 (Z.eqb_neq _ _)) by congruence. now rewrite app_nil_r.
Qed.

(** X25: however the driver behaves and whether it succeeds or fails,
    [update_product] leaves the rows and the sizes of every other product,
    and the ProductType table, as they were. *)
Theorem update_touches_one_product :
  forall (base_url uuid4 : string) (product_id other : Z) (form : ProductsRouter.ProductForm)
         (st : State),
    other <> product_id ->
    filter (fun p => Store.ProductID p =? other)
           (Store.Products
              (durable (snd (ProductsRouter.update_product base_url uuid4 product_id form st))))
    = filter (fun p => Store.ProductID p =? other) (Store.Products (durable st)) /\
    ProductsRouter.select_size_names other
      (durable (snd (ProductsRouter.update_product base_url uuid4 product_id form st)))
    = ProductsRouter.select_size_names other (durable st) /\
    Store.ProductType
      (durable (snd (ProductsRouter.update_product base_url uuid4 product_id form st)))
    = Store.ProductType (durable st).
Proof.
  intros base_url uuid4 product_id other form st Hne.
  unfold ProductsRouter.update_product, ProductsRouter._get_product_type_details.
  run_handler. by_cases. all: name_writes.
  all: split; [|split; [|reflexivity]].
  all: try reflexivity.
  all: try (apply (other_rows_after_update form _ product_id other (durable st) Hne)).
  all: rewrite ?other_sizes_after_insert, ?other_sizes_after_delete by assumption;
    reflexivity.
Qed.

Lemma update_touches_one_product_witness :
  ProductsRouter.select_size_names 1
    (durable (snd (ProductsRouter.update_product Sample.base_url "u1" 2
                     Sample.croissant_new_image (Sample.state []))))
  = ["Small"; "Large"].
Proof.
  rewrite (proj1 (proj2 (update_touches_one_product Sample.base_url "u1" 2 1
                           Sample.croissant_new_image (Sample.state [])
                           ltac:(discriminate)))).
  reflexivity.
Defined.

(** X26: when the size gate lets [add_size_to_existing_product] through and
    the name is empty or blank, the handler answers 400 before it looks at
    the Size table; nothing is inserted. *)
Theorem blank_size_name_is_refused :
  forall (product_id : Z) (size_name : string) (st : State)
         (details : ProductsRouter.TypeDetails),
    no_throw 1 (driver st) ->
    ProductsRouter.select_type_details product_id (durable st) = Some details ->
    ProductsRouter.size_required details = true ->
    PyStr.strip size_name = "" ->
    fst (ProductsRouter.add_size_to_existing_product product_id size_name st)
    = Raise (HTTPException HTTP_400_BAD_REQUEST "SizeName cannot be empty.") /\
    durable (snd (ProductsRouter.add_size_to_existing_product product_id size_name st))
    = durable st /\
    trace (snd (ProductsRouter.add_size_to_existing_product product_id size_name st))
    = (trace st ++ [EvConnect; EvSql SELECT TProductType; EvClose])%list.
Proof.
  intros product_id size_name st details Hn Htype Hreq Hblank.
  unfold ProductsRouter.add_size_to_existing_product, ProductsRouter._get_product_type_details.
  run_handler.
  destruct (driver st) as [|[|msg|] ds];
    cbn [durable txn files locked trace driver fst snd no_throw] in *; try contradiction;
    rewrite Htype, Hreq, Hblank;
    cbn [negb PyStr.truthy String.eqb durable txn files locked trace driver fst snd];
    rewrite <- !app_assoc; repeat split.
Qed.

Lemma blank_size_name_is_refused_witness :
  fst (ProductsRouter.add_size_to_existing_product 2 "   " (Sample.state []))
  = Raise (HTTPException 400 "SizeName cannot be empty.").
Proof.
  apply (blank_size_name_is_refused 2 "   " (Sample.state [])
           (ProductsRouter.mkDetails "Drink" true) I eq_refl eq_refl eq_refl).
Defined.
